(** * AXP192 power-management IC driver (axp192.py): register-level model

    The driver talks to the chip through an I2C register channel.  The
    development below embeds the driver's methods as computations in a small
    state-and-exception monad over a model of the bus, and proves the
    properties of the register encoding, of the GPIO function multiplexer, of
    the battery-level heuristic and of the power-key latch.

    Conventions of the embedding:
    - Python integers are [Z]; bit operations are [Z.land], [Z.lor],
      [Z.lnot], [Z.shiftl], [Z.shiftr] (Python integers are unbounded and
      two's complement, like [Z]).
    - Python floats are idealised as exact rationals [Q]: rounding error of
      the binary representation is not modelled.
    - [bytearray] items are [Byte.byte]; storing a value outside 0..255
      raises [ValueError], as in Python.
    - Pin numbers are integers, so the [isinstance(gpio_num, int)] test of
      the pin validation always passes; a duty cycle is an integer or a
      float, as its [isinstance] test distinguishes.
    - An exception leaves the bus in the state reached when it was raised;
      the transport itself never fails. *)

From Stdlib Require Import ZArith QArith Qround Qabs List String Bool Lia Lqa.
From Stdlib Require Import Strings.Byte DecimalString.
Import ListNotations.

Local Open Scope Z_scope.

(** ** Python values and exceptions *)

Module Py.

Inductive exn : Type :=
| ValueError (msg : string)
| ZeroDivisionError.

(** A numeric argument as [isinstance] sees it. *)
Inductive num : Type :=
| Int (z : Z)
| Float (q : Q).

(** [str(n)] for an integer. *)
Definition str (z : Z) : string := NilZero.string_of_int (Z.to_int z).

(** [int(x)] for a float: truncation toward zero. *)
Definition int (q : Q) : Z := Z.quot (Qnum q) (Zpos (Qden q)).

Definition Qlt_bool (x y : Q) : bool := negb (Qle_bool y x).

(** [max(a, b)] and [min(a, b)]: the first argument wins a tie. *)
Definition max (a b : Q) : Q := if Qlt_bool a b then b else a.
Definition min (a b : Q) : Q := if Qlt_bool b a then b else a.

(** An argument of any type, as [isinstance], [is True] and truth testing
    see it: a boolean, a number, or any other object with its truth value. *)
Inductive obj : Type :=
| Bool (b : bool)
| Num (n : num)
| Other (truthy : bool).

Definition val (n : num) : Q :=
  match n with Int z => inject_Z z | Float q => q end.

(** [isinstance(x, (int, float))]: [bool] is a subclass of [int]. *)
Definition as_number (x : obj) : option Q :=
  match x with
  | Bool b => Some (if b then 1%Q else 0%Q)
  | Num n => Some (val n)
  | Other _ => None
  end.

(** The truth value of an object in a condition. *)
Definition truth (x : obj) : bool :=
  match x with
  | Bool b => b
  | Num n => negb (Qeq_bool (val n) 0%Q)
  | Other t => t
  end.

(** [max(a, b)], [min(a, b)] and [a - b] on numbers of either type: the
    result of [max] and [min] is one of the operands, with its type. *)
Definition num_max (a b : num) : num := if Qlt_bool (val a) (val b) then b else a.
Definition num_min (a b : num) : num := if Qlt_bool (val b) (val a) then b else a.
Definition num_sub (a b : num) : num :=
  match a, b with
  | Int x, Int y => Int (x - y)
  | _, _ => Float (val a - val b)
  end.


End Py.

(** ** Bytes *)

Definition byte_to_Z (x : byte) : Z := Z.of_N (Byte.to_N x).

Definition byte_of_Z (z : Z) : option byte :=
  if z <? 0 then None else Byte.of_N (Z.to_N z).

(** The byte holding the low eight bits of an integer. *)
Definition byte_wrap (z : Z) : byte :=
  match Byte.of_N (Z.to_N (z mod 256)) with
  | Some x => x
  | None => x00
  end.

(** ** The register channel

    The chip is a file of 8-bit registers.  A write transaction carries the
    register address followed by the data; a read transaction carries the
    address and returns consecutive registers.  Register 0x46 (IRQ status 3)
    is a write-1-to-clear latch: writing a 1 clears the bit. *)

Module Bus.

Inductive txn : Type :=
| Write (out : list byte)
| WriteThenRead (out : list byte) (inp : list byte).

Record t : Type := mk { regs : Z -> byte; log : list txn }.

Definition latch (r : Z) : bool := r =? 0x46.

Definition store (r : Z) (v : byte) (rf : Z -> byte) : Z -> byte :=
  fun r' =>
    if r' =? r then
      if latch r
      then byte_wrap (Z.land (byte_to_Z (rf r)) (Z.lnot (byte_to_Z v)))
      else v
    else rf r'.

Fixpoint store_from (r : Z) (data : list byte) (rf : Z -> byte) : Z -> byte :=
  match data with
  | [] => rf
  | v :: data' => store_from (r + 1) data' (store r v rf)
  end.

Definition dev_write (out : list byte) (rf : Z -> byte) : Z -> byte :=
  match out with
  | [] => rf
  | a :: data => store_from (byte_to_Z a) data rf
  end.

Definition dev_read (out : list byte) (n : nat) (rf : Z -> byte) : list byte :=
  match out with
  | [] => repeat x00 n
  | a :: _ => map (fun i => rf (byte_to_Z a + Z.of_nat i)) (seq 0 n)
  end.

(** Does the log hold a write transaction? *)
Definition is_write (e : txn) : bool :=
  match e with Write _ => true | WriteThenRead _ _ => false end.

End Bus.

(** ** The monad of driver methods *)

Definition M (A : Type) : Type := Bus.t -> (Py.exn + A) * Bus.t.

Definition ret {A : Type} (a : A) : M A := fun b => (inr a, b).

Definition raise {A : Type} (e : Py.exn) : M A := fun b => (inl e, b).

Definition bind {A B : Type} (m : M A) (k : A -> M B) : M B :=
  fun b =>
    match m b with
    | (inl e, b') => (inl e, b')
    | (inr a, b') => k a b'
    end.

Notation "x <- m ;; k" := (bind m (fun x => k))
  (at level 61, m at next level, right associativity).
Notation "' pat <- m ;; k" := (bind m (fun x => match x with pat => k end))
  (at level 61, pat pattern, m at next level, right associativity).
Notation "m ;;; k" := (bind m (fun _ => k))
  (at level 61, right associativity).

(** [I2CDevice.write(buf)] *)
Definition i2c_write (out : list byte) : M unit :=
  fun b =>
    (inr tt,
     Bus.mk (Bus.dev_write out (Bus.regs b)) (Bus.log b ++ [Bus.Write out])).

(** [I2CDevice.write_then_readinto(out, in_buf)] with [len(in_buf) = n] *)
Definition i2c_write_then_readinto (out : list byte) (n : nat) : M (list byte) :=
  fun b =>
    let inp := Bus.dev_read out n (Bus.regs b) in
    (inr inp, Bus.mk (Bus.regs b) (Bus.log b ++ [Bus.WriteThenRead out inp])).

(** [buf[i] = value] on a [bytearray] *)
Definition bytearray_item (z : Z) : M byte :=
  match byte_of_Z z with
  | Some x => ret x
  | None => raise (Py.ValueError "byte must be in range(0, 256)")
  end.

Definition item (buf : list byte) (i : nat) : Z := byte_to_Z (nth i buf x00).

(** ** The driver: class [AXP192] *)

Module AXP192.

Definition _AXP192_DCDC13_LDO23_CTRL := 0x12.
Definition _AXP192_DCDC13_LDO23_CTRL_DCDC2 := 0x10. (* 0b00010000 *)
Definition _AXP192_DCDC13_LDO23_CTRL_LDO3 := 0x08. (* 0b00001000 *)
Definition _AXP192_DCDC13_LDO23_CTRL_LDO2 := 0x04. (* 0b00000100 *)
Definition _AXP192_DCDC13_LDO23_CTRL_DCDC3 := 0x02. (* 0b00000010 *)
Definition _AXP192_DCDC13_LDO23_CTRL_DCDC1 := 0x01. (* 0b00000001 *)

Definition _AXP192_DCDC2_OUT_VOLTAGE := 0x25.
Definition _AXP192_DCDC1_OUT_VOLTAGE := 0x26.
Definition _AXP192_DCDC3_OUT_VOLTAGE := 0x27.

Definition _AXP192_LDO23_OUT_VOLTAGE := 0x28.

Definition _AXP192_POWER_OFF_VOLTAGE := 0x31.

Definition _AXP192_CHARGING_CTRL1 := 0x33.

Definition _AXP192_IRQ_3_STATUS := 0x46.
Definition _AXP192_IRQ_3_STATUS_PEK_SHORT_PRESS := 0x02. (* 0b00000010 *)
Definition _AXP192_IRQ_3_STATUS_PEK_LONG_PRESS := 0x01. (* 0b00000001 *)

Definition _AXP192_GPIO0_FUNCTION := 0x90.
Definition _AXP192_GPIO1_FUNCTION := 0x92.
Definition _AXP192_GPIO2_FUNCTION := 0x93.
Definition _AXP192_GPIO34_FUNCTION := 0x95.

Definition _AXP192_GPIO0_LDO_VOLTAGE := 0x91.
Definition _AXP192_PWM1_DUTY_RATIO_Y1 := 0x99.
Definition _AXP192_PWM2_DUTY_RATIO_Y1 := 0x9C.

(** *** Register primitives *)

Definition _write_register8 (register value : Z) : M unit :=
  out0 <- bytearray_item register ;;
  out1 <- bytearray_item value ;;
  i2c_write [out0; out1].

Definition _read_register8 (register : Z) : M Z :=
  out0 <- bytearray_item register ;;
  in_buf <- i2c_write_then_readinto [out0] 1 ;;
  ret (item in_buf 0).

Definition _read_register12 (register : Z) : M Z :=
  out0 <- bytearray_item register ;;
  in_buf <- i2c_write_then_readinto [out0] 2 ;;
  ret (Z.lor (Z.shiftl (item in_buf 0) 4) (item in_buf 1)).

Definition _read_register24 (register : Z) : M Z :=
  out0 <- bytearray_item register ;;
  in_buf <- i2c_write_then_readinto [out0] 3 ;;
  ret (Z.lor (Z.lor (Z.shiftl (item in_buf 0) 16) (Z.shiftl (item in_buf 1) 8))
             (item in_buf 2)).

Definition _set_bit_in_register (register bitmask : Z) : M unit :=
  val <- _read_register8 register ;;
  _write_register8 register (Z.lor val bitmask).

Definition _clear_bit_in_register (register bitmask : Z) : M unit :=
  val <- _read_register8 register ;;
  _write_register8 register (Z.land val (Z.lnot bitmask)).

(** *** Telemetry used by the battery estimator *)

Definition battery_voltage : M Q :=
  code <- _read_register12 0x78 ;;
  ret ((11 # 10000) * inject_Z code)%Q.

Definition battery_charge_current : M Q :=
  code <- _read_register12 0x7A ;;
  ret ((5 # 10) * inject_Z code)%Q.

Definition battery_switch_off_voltage : M Q :=
  r <- _read_register8 _AXP192_POWER_OFF_VOLTAGE ;;
  let reg_val := Z.land r 0x07 in
  ret ((26 # 10) + (1 # 10) * inject_Z reg_val)%Q.

Definition battery_charge_target_voltage : M Q :=
  r <- _read_register8 _AXP192_CHARGING_CTRL1 ;;
  let reg_val := Z.shiftr (Z.land r 0x60) 5 in
  if reg_val =? 0 then ret (41 # 10)
  else if reg_val =? 1 then ret (415 # 100)
  else if reg_val =? 2 then ret (42 # 10)
  else ret (436 # 100).

(** Float division raises [ZeroDivisionError] on a zero divisor. *)
Definition truediv (x y : Q) : M Q :=
  if Qeq_bool y 0 then raise Py.ZeroDivisionError else ret (x / y)%Q.

Definition battery_level : M Q :=
  bat_voltage <- battery_voltage ;;
  bat_chg_current <- battery_charge_current ;;
  vmin <- battery_switch_off_voltage ;;
  vmax <- battery_charge_target_voltage ;;
  ratio <- truediv (bat_voltage - vmin) (vmax - vmin) ;;
  let level := (ratio * 100)%Q in
  let level := if Py.Qlt_bool 15 bat_chg_current then (level - 10)%Q else level in
  ret (Py.min 100 (Py.max 0 level)).

(** *** Power key *)

Definition power_key_was_pressed : M (bool * bool) :=
  reg_val <- _read_register8 _AXP192_IRQ_3_STATUS ;;
  let short_press := negb (Z.land reg_val _AXP192_IRQ_3_STATUS_PEK_SHORT_PRESS =? 0) in
  let long_press := negb (Z.land reg_val _AXP192_IRQ_3_STATUS_PEK_LONG_PRESS =? 0) in
  (if short_press || long_press then
     let reg_val := Z.lor _AXP192_IRQ_3_STATUS_PEK_SHORT_PRESS
                          _AXP192_IRQ_3_STATUS_PEK_LONG_PRESS in
     _write_register8 _AXP192_IRQ_3_STATUS reg_val
   else ret tt) ;;;
  ret (short_press, long_press).

(** *** DC-DC converters *)

Definition __get_dcdcx_registers (num : Z) : M (Z * Z * Z) :=
  if num =? 1 then
    ret (_AXP192_DCDC13_LDO23_CTRL_DCDC1, _AXP192_DCDC1_OUT_VOLTAGE, 0x7F)
  else if num =? 2 then
    ret (_AXP192_DCDC13_LDO23_CTRL_DCDC2, _AXP192_DCDC2_OUT_VOLTAGE, 0x3F)
  else if num =? 3 then
    ret (_AXP192_DCDC13_LDO23_CTRL_DCDC3, _AXP192_DCDC3_OUT_VOLTAGE, 0x7F)
  else raise (Py.ValueError "num must be 1, 2 or 3").

Definition __read_dcdcx_setpoint (num : Z) : M Q :=
  '(enable_bit, voltage_reg, max_value) <- __get_dcdcx_registers num ;;
  ctrl <- _read_register8 _AXP192_DCDC13_LDO23_CTRL ;;
  if Z.land ctrl enable_bit =? 0 then ret 0%Q
  else
    code <- _read_register8 voltage_reg ;;
    ret (inject_Z (Z.land code max_value * 25 + 700) / 1000)%Q.

Definition __write_dcdcx_setpoint (num : Z) (voltage : Q) : M unit :=
  '(enable_bit, voltage_reg, max_value) <- __get_dcdcx_registers num ;;
  let voltage := (voltage - (7 # 10))%Q in
  if Qle_bool voltage 0 then
    _clear_bit_in_register _AXP192_DCDC13_LDO23_CTRL enable_bit
  else
    let reg_value := Py.int (voltage * 1000) / 25 in
    let reg_value := Z.min reg_value max_value in
    _write_register8 voltage_reg reg_value ;;;
    _set_bit_in_register _AXP192_DCDC13_LDO23_CTRL enable_bit.

Definition _dcdc1_setpoint : M Q := __read_dcdcx_setpoint 1.
Definition _dcdc1_setpoint_setter (value : Q) : M unit := __write_dcdcx_setpoint 1 value.
Definition _dcdc2_setpoint : M Q := __read_dcdcx_setpoint 2.
Definition _dcdc2_setpoint_setter (value : Q) : M unit := __write_dcdcx_setpoint 2 value.
Definition _dcdc3_setpoint : M Q := __read_dcdcx_setpoint 3.
Definition _dcdc3_setpoint_setter (value : Q) : M unit := __write_dcdcx_setpoint 3 value.

(** *** Linear regulators LDO2 and LDO3 *)

Definition __get_ldo23_registers (num : Z) : M (Z * Z) :=
  if num =? 2 then ret (_AXP192_DCDC13_LDO23_CTRL_LDO2, 4)
  else if num =? 3 then ret (_AXP192_DCDC13_LDO23_CTRL_LDO3, 0)
  else raise (Py.ValueError "num must be 2 or 3").

Definition __read_ldo23_setpoint (num : Z) : M Q :=
  '(enable_bit, value_offset) <- __get_ldo23_registers num ;;
  ctrl <- _read_register8 _AXP192_DCDC13_LDO23_CTRL ;;
  if Z.land ctrl enable_bit =? 0 then ret 0%Q
  else
    r <- _read_register8 _AXP192_LDO23_OUT_VOLTAGE ;;
    let reg_val := Z.land (Z.shiftr r value_offset) 0xF in
    ret (inject_Z (reg_val * 100 + 1800) / 1000)%Q.

Definition __write_ldo23_setpoint (num : Z) (voltage : Q) : M unit :=
  '(enable_bit, value_offset) <- __get_ldo23_registers num ;;
  let voltage := (voltage - (18 # 10))%Q in
  if Py.Qlt_bool voltage 0 then
    _clear_bit_in_register _AXP192_DCDC13_LDO23_CTRL enable_bit
  else
    let reg_val := Py.int (voltage * 10) in
    let reg_val := Z.min 0x0F reg_val in
    let reg_val := Z.shiftl reg_val value_offset in
    let mask := Z.lnot (Z.shiftl 0x0F value_offset) in
    r <- _read_register8 _AXP192_LDO23_OUT_VOLTAGE ;;
    let reg_val := Z.lor (Z.land r mask) reg_val in
    _write_register8 _AXP192_LDO23_OUT_VOLTAGE reg_val ;;;
    _set_bit_in_register _AXP192_DCDC13_LDO23_CTRL enable_bit.

Definition _ldo2_setpoint : M Q := __read_ldo23_setpoint 2.
Definition _ldo2_setpoint_setter (value : Q) : M unit := __write_ldo23_setpoint 2 value.
Definition _ldo3_setpoint : M Q := __read_ldo23_setpoint 3.
Definition _ldo3_setpoint_setter (value : Q) : M unit := __write_ldo23_setpoint 3 value.

(** *** GPIO function multiplexer *)

Definition __validate_gpio_num (gpio_num : Z) : M unit :=
  if (gpio_num <? 0) || (gpio_num >? 4) then
    raise (Py.ValueError "gpio_num must be an integer number between 0 and 4")
  else ret tt.

Definition __set_gpio_function (gpio_num function : Z) : M unit :=
  if gpio_num =? 0 then
    _write_register8 _AXP192_GPIO0_FUNCTION (Z.land function 0x07)
  else if gpio_num =? 1 then
    _write_register8 _AXP192_GPIO1_FUNCTION (Z.land function 0x07)
  else if gpio_num =? 2 then
    _write_register8 _AXP192_GPIO2_FUNCTION (Z.land function 0x07)
  else if gpio_num =? 3 then
    reg_val <- _read_register8 _AXP192_GPIO34_FUNCTION ;;
    let reg_val := Z.land reg_val (Z.lnot 0x03) in
    let reg_val := Z.lor reg_val (Z.land function 0x03) in
    _write_register8 _AXP192_GPIO34_FUNCTION reg_val
  else if gpio_num =? 4 then
    reg_val <- _read_register8 _AXP192_GPIO34_FUNCTION ;;
    let reg_val := Z.land reg_val (Z.lnot 0x0C) in
    let reg_val := Z.lor reg_val (Z.shiftl (Z.land function 0x03) 2) in
    _write_register8 _AXP192_GPIO34_FUNCTION reg_val
  else raise (Py.ValueError "gpio_num must be in range 0-4").

Definition __get_gpio_function (gpio_num : Z) : M Z :=
  if gpio_num =? 0 then
    r <- _read_register8 _AXP192_GPIO0_FUNCTION ;; ret (Z.land r 0x07)
  else if gpio_num =? 1 then
    r <- _read_register8 _AXP192_GPIO1_FUNCTION ;; ret (Z.land r 0x07)
  else if gpio_num =? 2 then
    r <- _read_register8 _AXP192_GPIO2_FUNCTION ;; ret (Z.land r 0x07)
  else if gpio_num =? 3 then
    r <- _read_register8 _AXP192_GPIO34_FUNCTION ;; ret (Z.land r 0x03)
  else if gpio_num =? 4 then
    r <- _read_register8 _AXP192_GPIO34_FUNCTION ;;
    ret (Z.land (Z.shiftr r 2) 0x03)
  else raise (Py.ValueError "gpio_num must be in range 0-4").

Definition _set_gpio_floating (gpio_num : Z) : M unit :=
  __validate_gpio_num gpio_num ;;;
  if (0 <=? gpio_num) && (gpio_num <=? 2) then
    __set_gpio_function gpio_num 0x7
  else
    raise (Py.ValueError
             ("GPIO" ++ Py.str gpio_num ++ " doesn't support floating mode")).

Definition _is_gpio_floating (gpio_num : Z) : M bool :=
  __validate_gpio_num gpio_num ;;;
  if (0 <=? gpio_num) && (gpio_num <=? 2) then
    f <- __get_gpio_function gpio_num ;;
    ret (Z.land f 0x06 =? 0x06)
  else
    raise (Py.ValueError
             ("GPIO" ++ Py.str gpio_num ++ " doesn't support floating mode")).

Definition _set_gpio_output_low (gpio_num : Z) : M unit :=
  __validate_gpio_num gpio_num ;;;
  if (0 <=? gpio_num) && (gpio_num <=? 2) then
    __set_gpio_function gpio_num 0x5
  else
    raise (Py.ValueError
             ("GPIO" ++ Py.str gpio_num ++ " doesn't support low output mode")).

Definition _is_gpio_output_low (gpio_num : Z) : M bool :=
  __validate_gpio_num gpio_num ;;;
  if (0 <=? gpio_num) && (gpio_num <=? 2) then
    f <- __get_gpio_function gpio_num ;;
    ret (f =? 0x05)
  else
    raise (Py.ValueError
             ("GPIO" ++ Py.str gpio_num ++ " doesn't support low output mode")).

Definition _set_gpio_pwm_out (gpio_num : Z) (duty_cycle : Py.num) : M unit :=
  __validate_gpio_num gpio_num ;;;
  if (1 <=? gpio_num) && (gpio_num <=? 2) then
    match duty_cycle with
    | Py.Int duty_cycle =>
        if (0 <=? duty_cycle) && (duty_cycle <=? 255) then
          let pwm_reg :=
            if gpio_num =? 1 then _AXP192_PWM1_DUTY_RATIO_Y1
            else _AXP192_PWM2_DUTY_RATIO_Y1 in
          _write_register8 pwm_reg 0xFF ;;;
          _write_register8 (pwm_reg + 1) duty_cycle ;;;
          __set_gpio_function gpio_num 0x02
        else
          raise (Py.ValueError "Duty cycle out of range. Allowed range 0-255")
    | Py.Float _ =>
        raise (Py.ValueError "Duty cycle must be an integer number from 0 to 255")
    end
  else
    raise (Py.ValueError ("GPIO" ++ Py.str gpio_num ++ " doesn't PWM output mode")).

Definition _is_gpio_pwm_out (gpio_num : Z) : M bool :=
  __validate_gpio_num gpio_num ;;;
  if (1 <=? gpio_num) && (gpio_num <=? 2) then
    f <- __get_gpio_function gpio_num ;;
    ret (f =? 0x02)
  else
    raise (Py.ValueError ("GPIO" ++ Py.str gpio_num ++ " doesn't PWM output mode")).

Definition _get_gpio_pwm_out (gpio_num : Z) : M Z :=
  __validate_gpio_num gpio_num ;;;
  let fallthrough : M Z :=
    raise (Py.ValueError ("GPIO" ++ Py.str gpio_num ++ " doesn't PWM output mode")) in
  if (1 <=? gpio_num) && (gpio_num <=? 2) then
    is_pwm <- _is_gpio_pwm_out gpio_num ;;
    if is_pwm then
      let pwm_reg :=
        if gpio_num =? 1 then _AXP192_PWM1_DUTY_RATIO_Y1
        else _AXP192_PWM2_DUTY_RATIO_Y1 in
      _read_register8 (pwm_reg + 1)
    else fallthrough
  else fallthrough.

(** *** Input power, charge status and the remaining telemetry *)

Definition _AXP192_INPUT_POWER_STATE := 0x00.
Definition _AXP192_INPUT_POWER_STATE_ACIN_IS_PRESENT := 0x80. (* 0b10000000 *)
Definition _AXP192_INPUT_POWER_STATE_VBUS_IS_PRESENT := 0x20. (* 0b00100000 *)

Definition _AXP192_POWER_CHARGE_STATUS := 0x01.
Definition _AXP192_POWER_CHARGE_STATUS_CHARGING := 0x40. (* 0b01000000 *)
Definition _AXP192_POWER_CHARGE_STATUS_BAT_PRESENT := 0x20. (* 0b00100000 *)

Definition _AXP192_DCDC13_LDO23_CTRL_EXTEN := 0x40. (* 0b01000000 *)

Definition _AXP192_POWER_OFF_BATT_CHGLED_CTRL := 0x32.
Definition _AXP192_POWER_OFF_BATT_CHGLED_CTRL_OFF := 0x80. (* 0b10000000 *)

Definition _AXP192_CHARGING_CTRL1_ENABLE := 0x80. (* 0b10000000 *)

Definition _AXP192_BACKUP_BATT := 0x35.
Definition _AXP192_BACKUP_BATT_CHARGING_ENABLE := 0x80. (* 0b10000000 *)

Definition _AXP192_ADC_ENABLE_1 := 0x82.

Definition is_acin_present : M bool :=
  reg_val <- _read_register8 _AXP192_INPUT_POWER_STATE ;;
  ret (negb (Z.land reg_val _AXP192_INPUT_POWER_STATE_ACIN_IS_PRESENT =? 0)).

Definition acin_voltage : M Q :=
  code <- _read_register12 0x56 ;;
  ret ((17 # 10) * inject_Z code / 1000)%Q.

Definition acin_current : M Q :=
  code <- _read_register12 0x58 ;;
  ret ((625 # 1000) * inject_Z code)%Q.

Definition is_vbus_present : M bool :=
  reg_val <- _read_register8 _AXP192_INPUT_POWER_STATE ;;
  ret (negb (Z.land reg_val _AXP192_INPUT_POWER_STATE_VBUS_IS_PRESENT =? 0)).

Definition vbus_voltage : M Q :=
  code <- _read_register12 0x5A ;;
  ret ((17 # 10) * inject_Z code / 1000)%Q.

Definition vbus_current : M Q :=
  code <- _read_register12 0x5C ;;
  ret ((375 # 1000) * inject_Z code)%Q.

Definition aps_voltage : M Q :=
  code <- _read_register12 0x7E ;;
  ret ((14 # 10) * inject_Z code / 1000)%Q.

Definition is_battery_connected : M bool :=
  reg_val <- _read_register8 _AXP192_POWER_CHARGE_STATUS ;;
  ret (negb (Z.land reg_val _AXP192_POWER_CHARGE_STATUS_BAT_PRESENT =? 0)).

Definition is_battery_charging : M bool :=
  reg_val <- _read_register8 _AXP192_POWER_CHARGE_STATUS ;;
  ret (negb (Z.land reg_val _AXP192_POWER_CHARGE_STATUS_CHARGING =? 0)).

Definition battery_charging_enabled : M bool :=
  reg_val <- _read_register8 _AXP192_CHARGING_CTRL1 ;;
  ret (negb (Z.land reg_val _AXP192_CHARGING_CTRL1_ENABLE =? 0)).

Definition battery_charging_enabled_setter (enabled : Py.obj) : M unit :=
  match enabled with
  | Py.Bool enabled =>
      if enabled then
        _set_bit_in_register _AXP192_CHARGING_CTRL1 _AXP192_CHARGING_CTRL1_ENABLE
      else
        _clear_bit_in_register _AXP192_CHARGING_CTRL1 _AXP192_CHARGING_CTRL1_ENABLE
  | _ => raise (Py.ValueError "Enabled must be a boolean")
  end.

Definition battery_discharge_current : M Q :=
  code <- _read_register12 0x7C ;;
  ret ((5 # 10) * inject_Z code)%Q.

Definition battery_ouput_power : M Q :=
  code <- _read_register24 0x70 ;;
  ret ((11 # 10) * (5 # 10) * inject_Z code / 1000)%Q.

Definition all_adc_enabled : M bool :=
  reg_val <- _read_register8 _AXP192_ADC_ENABLE_1 ;;
  ret (reg_val =? 0xFF).

Definition all_adc_enabled_setter (enable : Py.obj) : M unit :=
  _write_register8 _AXP192_ADC_ENABLE_1 (if Py.truth enable then 0xFF else 0x00).

Definition internal_temperature : M Q :=
  code <- _read_register12 0x5E ;;
  ret (- (1447 # 10) + (1 # 10) * inject_Z code)%Q.

Definition power_off : M unit :=
  _set_bit_in_register _AXP192_POWER_OFF_BATT_CHGLED_CTRL
                       _AXP192_POWER_OFF_BATT_CHGLED_CTRL_OFF.

Definition _exten : M bool :=
  reg_val <- _read_register8 _AXP192_DCDC13_LDO23_CTRL ;;
  ret (negb (Z.land reg_val _AXP192_DCDC13_LDO23_CTRL_EXTEN =? 0)).

Definition _exten_setter (value : Py.obj) : M unit :=
  match value with
  | Py.Bool value =>
      if value then
        _set_bit_in_register _AXP192_DCDC13_LDO23_CTRL _AXP192_DCDC13_LDO23_CTRL_EXTEN
      else
        _clear_bit_in_register _AXP192_DCDC13_LDO23_CTRL _AXP192_DCDC13_LDO23_CTRL_EXTEN
  | _ => raise (Py.ValueError "value must be a boolean True or False")
  end.

Definition _backup_battery_charging_enable : M bool :=
  reg_val <- _read_register8 _AXP192_BACKUP_BATT ;;
  ret (negb (Z.land reg_val _AXP192_BACKUP_BATT_CHARGING_ENABLE =? 0)).

Definition _backup_battery_charging_enable_setter (value : Py.obj) : M unit :=
  match value with
  | Py.Bool value =>
      if value then
        _set_bit_in_register _AXP192_BACKUP_BATT _AXP192_BACKUP_BATT_CHARGING_ENABLE
      else
        _clear_bit_in_register _AXP192_BACKUP_BATT _AXP192_BACKUP_BATT_CHARGING_ENABLE
  | _ => raise (Py.ValueError "value must be a boolean True or False")
  end.

(** *** GPIO0 as an LDO voltage output *)

Definition _set_gpio_ldo_voltage_out (gpio_num : Z) (voltage : Py.obj) : M unit :=
  __validate_gpio_num gpio_num ;;;
  if gpio_num =? 0 then
    match Py.as_number voltage with
    | Some voltage =>
        let voltage := (voltage - (18 # 10))%Q in
        if Qle_bool voltage 0 then _set_gpio_output_low gpio_num
        else
          let reg_val := Py.int (voltage / (1 # 10)) in
          let reg_val := Z.min 0x0F reg_val in
          _write_register8 _AXP192_GPIO0_LDO_VOLTAGE (Z.shiftl reg_val 4) ;;;
          __set_gpio_function gpio_num 0x2
    | None => raise (Py.ValueError "Voltage must be a number")
    end
  else
    raise (Py.ValueError
             ("GPIO" ++ Py.str gpio_num ++ " doesn't support LDO voltage mode")).

Definition _is_gpio_ldo_voltage_out (gpio_num : Z) : M bool :=
  __validate_gpio_num gpio_num ;;;
  if gpio_num =? 0 then
    f <- __get_gpio_function gpio_num ;;
    ret (f =? 0x02)
  else
    raise (Py.ValueError
             ("GPIO" ++ Py.str gpio_num ++ " doesn't support LDO voltage mode")).

Definition _get_gpio_ldo_voltage_out (gpio_num : Z) : M Q :=
  is_ldo <- _is_gpio_ldo_voltage_out gpio_num ;;
  if negb is_ldo then ret 0%Q
  else if gpio_num =? 0 then
    r <- _read_register8 _AXP192_GPIO0_LDO_VOLTAGE ;;
    let reg_value := Z.shiftr r 4 in
    ret (inject_Z reg_value * (1 # 10) + (18 # 10))%Q
  else
    raise (Py.ValueError
             ("GPIO" ++ Py.str gpio_num ++ " doesn't support LDO voltage mode")).

End AXP192.

(** ** The five rails, by name *)

Inductive rail : Type := DCDC1 | DCDC2 | DCDC3 | LDO2 | LDO3.

Definition setRail (r : rail) (v : Q) : M unit :=
  match r with
  | DCDC1 => AXP192._dcdc1_setpoint_setter v
  | DCDC2 => AXP192._dcdc2_setpoint_setter v
  | DCDC3 => AXP192._dcdc3_setpoint_setter v
  | LDO2 => AXP192._ldo2_setpoint_setter v
  | LDO3 => AXP192._ldo3_setpoint_setter v
  end.

Definition getRail (r : rail) : M Q :=
  match r with
  | DCDC1 => AXP192._dcdc1_setpoint
  | DCDC2 => AXP192._dcdc2_setpoint
  | DCDC3 => AXP192._dcdc3_setpoint
  | LDO2 => AXP192._ldo2_setpoint
  | LDO3 => AXP192._ldo3_setpoint
  end.

(** Where each rail keeps its enable bit and its voltage code. *)
Definition enable_mask (r : rail) : Z :=
  match r with
  | DCDC1 => AXP192._AXP192_DCDC13_LDO23_CTRL_DCDC1
  | DCDC2 => AXP192._AXP192_DCDC13_LDO23_CTRL_DCDC2
  | DCDC3 => AXP192._AXP192_DCDC13_LDO23_CTRL_DCDC3
  | LDO2 => AXP192._AXP192_DCDC13_LDO23_CTRL_LDO2
  | LDO3 => AXP192._AXP192_DCDC13_LDO23_CTRL_LDO3
  end.

Definition code_register (r : rail) : Z :=
  match r with
  | DCDC1 => AXP192._AXP192_DCDC1_OUT_VOLTAGE
  | DCDC2 => AXP192._AXP192_DCDC2_OUT_VOLTAGE
  | DCDC3 => AXP192._AXP192_DCDC3_OUT_VOLTAGE
  | LDO2 | LDO3 => AXP192._AXP192_LDO23_OUT_VOLTAGE
  end.

(** Reading a register of the bus state, as an integer. *)
Definition reg (b : Bus.t) (r : Z) : Z := byte_to_Z (Bus.regs b r).

Definition enabled (b : Bus.t) (r : rail) : bool :=
  negb (Z.land (reg b AXP192._AXP192_DCDC13_LDO23_CTRL) (enable_mask r) =? 0).

(** The write transactions of a log, oldest first. *)
Definition writes (l : list Bus.txn) : list Bus.txn := filter Bus.is_write l.

(** A bus whose registers all hold [x] and whose log is empty. *)
Definition bus_const (x : byte) : Bus.t := Bus.mk (fun _ => x) [].

(** A bus with the registers listed (others zero) and an empty log. *)
Definition bus_of (l : list (Z * byte)) : Bus.t :=
  Bus.mk (fun r => match find (fun p => fst p =? r) l with
                   | Some p => snd p
                   | None => x00
                   end) [].

(** A battery reading of 0xE00 (3.9424 V), no charge current, the switch-off
    threshold at 2.6 V and the charge target at 4.1 V. *)
Definition battery_sample : Bus.t := bus_of [(0x78, xe0); (0x79, x00)].

(** ** Bus states reached by the primitives

    The state after a read of [n] bytes at register [a], and after a write of
    [x] to register [a]. *)

Definition after_read (a : byte) (n : nat) (b : Bus.t) : Bus.t :=
  Bus.mk (Bus.regs b)
         (Bus.log b ++ [Bus.WriteThenRead [a] (Bus.dev_read [a] n (Bus.regs b))]).

Definition after_write (a x : byte) (b : Bus.t) : Bus.t :=
  Bus.mk (Bus.store (byte_to_Z a) x (Bus.regs b)) (Bus.log b ++ [Bus.Write [a; x]]).

(** ** Rail parameters, as the setters and getters use them *)

Definition is_dcdc (r : rail) : bool :=
  match r with DCDC1 | DCDC2 | DCDC3 => true | LDO2 | LDO3 => false end.

(** A field of [w] bits at bit offset [off] of a register value: reading it,
    and replacing it while keeping the other bits. *)
Definition get_field (w off r : Z) : Z := Z.land (Z.shiftr r off) (Z.ones w).

Definition set_field (w off r c : Z) : Z :=
  Z.lor (Z.land r (Z.lnot (Z.shiftl (Z.ones w) off))) (Z.shiftl c off).

Definition max_code (r : rail) : Z :=
  match r with
  | DCDC1 | DCDC3 => 0x7F
  | DCDC2 => 0x3F
  | LDO2 | LDO3 => 0x0F
  end.

Definition field_offset (r : rail) : Z :=
  match r with LDO2 => 4 | _ => 0 end.

Definition field_width (r : rail) : Z :=
  match r with
  | DCDC1 | DCDC3 => 7
  | DCDC2 => 6
  | LDO2 | LDO3 => 4
  end.

(** The code the setter of rail [r] computes for a voltage that switches
    the rail on, and the voltage the getter computes from a stored code. *)
Definition rail_code (r : rail) (v : Q) : Z :=
  if is_dcdc r
  then Z.min (Py.int ((v - (7 # 10)) * 1000) / 25) (max_code r)
  else Z.min 0x0F (Py.int ((v - (18 # 10)) * 10)).

Definition rail_volts (r : rail) (code : Z) : Q :=
  if is_dcdc r
  then (inject_Z (code * 25 + 700) / 1000)%Q
  else (inject_Z (code * 100 + 1800) / 1000)%Q.

Definition stored_code (b : Bus.t) (r : rail) : Z :=
  get_field (field_width r) (field_offset r) (reg b (code_register r)).

(** The test by which the setter decides to clear the enable bit. *)
Definition switches_off (r : rail) (v : Q) : bool :=
  if is_dcdc r then Qle_bool (v - (7 # 10)) 0 else Py.Qlt_bool (v - (18 # 10)) 0.

Definition code_byte (r : rail) : byte :=
  match r with
  | DCDC1 => x26
  | DCDC2 => x25
  | DCDC3 => x27
  | LDO2 | LDO3 => x28
  end.

(** The code-register content written by the setter of rail [r] for code [c]. *)
Definition merged (r : rail) (old c : Z) : Z :=
  if is_dcdc r then c else set_field 4 (field_offset r) old c.

(** The documented output range of each rail and its step. *)
Definition base (r : rail) : Q := if is_dcdc r then 7 # 10 else 18 # 10.
Definition step (r : rail) : Q := if is_dcdc r then 25 # 1000 else 100 # 1000.
Definition top (r : rail) : Q :=
  match r with
  | DCDC1 | DCDC3 => 35 # 10
  | DCDC2 => 2275 # 1000
  | LDO2 | LDO3 => 33 # 10
  end.

(** ** GPIO registers *)

Definition function_register (g : Z) : Z :=
  if g =? 0 then AXP192._AXP192_GPIO0_FUNCTION
  else if g =? 1 then AXP192._AXP192_GPIO1_FUNCTION
  else if g =? 2 then AXP192._AXP192_GPIO2_FUNCTION
  else AXP192._AXP192_GPIO34_FUNCTION.

(** The 3-bit function code stored for pins 0 to 2. *)
Definition function_code (b : Bus.t) (g : Z) : Z :=
  Z.land (reg b (function_register g)) 0x07.

Definition pwm_register (g : Z) : Z :=
  if g =? 1 then AXP192._AXP192_PWM1_DUTY_RATIO_Y1
  else AXP192._AXP192_PWM2_DUTY_RATIO_Y1.

Definition duty_register (g : Z) : Z := pwm_register g + 1.

Definition pwm_error (g : Z) : Py.exn :=
  Py.ValueError ("GPIO" ++ Py.str g ++ " doesn't PWM output mode").

(** ** Battery readings decoded from a bus state *)

Definition code12 (b : Bus.t) (a : Z) : Z :=
  Z.lor (Z.shiftl (reg b a) 4) (reg b (a + 1)).

Definition bat_voltage_of (b : Bus.t) : Q := ((11 # 10000) * inject_Z (code12 b 0x78))%Q.

Definition bat_current_of (b : Bus.t) : Q := ((5 # 10) * inject_Z (code12 b 0x7A))%Q.

Definition vmin_of (b : Bus.t) : Q :=
  ((26 # 10) + (1 # 10) * inject_Z (Z.land (reg b 0x31) 0x07))%Q.

Definition vmax_of (b : Bus.t) : Q :=
  let code := Z.shiftr (Z.land (reg b 0x33) 0x60) 5 in
  if code =? 0 then 41 # 10
  else if code =? 1 then 415 # 100
  else if code =? 2 then 42 # 10
  else 436 # 100.

(** The level before clamping. *)
Definition raw_level (b : Bus.t) : Q :=
  let level := ((bat_voltage_of b - vmin_of b) / (vmax_of b - vmin_of b) * 100)%Q in
  if Py.Qlt_bool 15 (bat_current_of b) then (level - 10)%Q else level.

(** ** The board class of the M5Stack Core2 example: class [PMIC]

    [lcd_brightness] is left out: its body refers to the module constants
    [__LCD_BRIGHTNESS_MIN_V] and [__LCD_BRIGHTNESS_MAX_V] from inside the
    class, where the meaning of such names depends on the interpreter. *)

Module PMIC.

Definition speaker_enabled : M bool := AXP192._is_gpio_floating 2.

Definition speaker_enabled_setter (enabled : Py.obj) : M unit :=
  match enabled with
  | Py.Bool true => AXP192._set_gpio_floating 2
  | _ => AXP192._set_gpio_output_low 2
  end.

Definition green_led_brightness : M Z :=
  duty <- AXP192._get_gpio_pwm_out 1 ;;
  ret (255 - duty).

Definition green_led_brightness_setter (brightness : Py.num) : M unit :=
  let brightness := Py.num_min (Py.Int 255) (Py.num_max (Py.Int 0) brightness) in
  AXP192._set_gpio_pwm_out 1 (Py.num_sub (Py.Int 255) brightness).



Definition power_supply_from_m_bus_enabled : M bool := AXP192._is_gpio_floating 0.

Definition power_supply_from_m_bus_enabled_setter (enabled : Py.obj) : M unit :=
  match enabled with
  | Py.Bool enabled =>
      current <- power_supply_from_m_bus_enabled ;;
      if Bool.eqb enabled current then ret tt
      else if enabled then
        AXP192._set_bit_in_register 0x30 0x80 ;;;
        AXP192._exten_setter (Py.Bool false) ;;;
        AXP192._set_gpio_floating 0
      else
        AXP192._set_gpio_ldo_voltage_out 0 (Py.Num (Py.Float (33 # 10))) ;;;
        AXP192._exten_setter (Py.Bool true) ;;;
        AXP192._clear_bit_in_register 0x30 0x80
  | _ =>
      raise (Py.ValueError
               "power_supply_from_m_bus_enabled must be True/False boolean value")
  end.

Definition bus_5v_power_boost_enabled : M bool := AXP192._exten.

Definition bus_5v_power_boost_enabled_setter (enabled : Py.obj) : M unit :=
  AXP192._exten_setter enabled.

End PMIC.

(** ** Observations used by the further properties *)

(** A computation that always returns, changes no register and sends no
    write transaction. *)
Definition read_only {A : Type} (m : M A) : Prop :=
  forall b, exists a b',
    m b = (inr a, b') /\
    Bus.regs b' = Bus.regs b /\
    writes (Bus.log b') = writes (Bus.log b).

(** A computation that raises [e] before any bus transaction. *)
Definition rejects {A : Type} (m : M A) (e : Py.exn) : Prop :=
  forall b, m b = (inl e, b).

(** A computation that always returns a value between [lo] and [hi]. *)
Definition returns_within (m : M Q) (lo hi : Q) : Prop :=
  forall b, exists x b', m b = (inr x, b') /\ (lo <= x <= hi)%Q.

(** The EXTEN bit of control register 0x12. *)
Definition exten_bit (b : Bus.t) : bool :=
  negb (Z.land (reg b 0x12) AXP192._AXP192_DCDC13_LDO23_CTRL_EXTEN =? 0).

(** The highest voltage a rail's code field can hold. *)
Definition vmax (r : rail) : Q := rail_volts r (max_code r).

(** The three mode queries of a pin 0 to 2, one after the other: floating,
    low output, and the pin's third mode (LDO voltage output on pin 0, PWM
    output on pins 1 and 2). *)
Definition query_modes (g : Z) : M (bool * bool * bool) :=
  floating <- AXP192._is_gpio_floating g ;;
  low <- AXP192._is_gpio_output_low g ;;
  third <- (if g =? 0 then AXP192._is_gpio_ldo_voltage_out g
            else AXP192._is_gpio_pwm_out g) ;;
  ret (floating, low, third).

Definition gpio_range_error : Py.exn :=
  Py.ValueError "gpio_num must be an integer number between 0 and 4".

Definition gpio_mode_error (g : Z) (what : string) : Py.exn :=
  Py.ValueError ("GPIO" ++ Py.str g ++ what).

(** [min(hi, max(lo, x))] on integers. *)
Definition clamp (lo hi x : Z) : Z := Z.min hi (Z.max lo x).

(** * Proofs *)

(** ** Bytes and bits *)

Lemma byte_to_Z_range (x : byte) : 0 <= byte_to_Z x < 256.
Proof.
  unfold byte_to_Z. pose proof (Byte.to_N_bounded x). lia.
Qed.

Lemma byte_of_to_Z (x : byte) : byte_of_Z (byte_to_Z x) = Some x.
Proof.
  unfold byte_of_Z, byte_to_Z.
  destruct (Z.ltb_spec (Z.of_N (Byte.to_N x)) 0) as [H | _]; [lia |].
  rewrite N2Z.id. apply Byte.of_to_N.
Qed.

Lemma byte_of_Z_small (z : Z) :
  0 <= z < 256 -> byte_of_Z z = Some (byte_wrap z) /\ byte_to_Z (byte_wrap z) = z.
Proof.
  intros Hz. unfold byte_of_Z, byte_wrap, byte_to_Z.
  rewrite Z.mod_small by exact Hz.
  destruct (Z.ltb_spec z 0) as [H | _]; [lia |].
  destruct (Byte.of_N (Z.to_N z)) as [x |] eqn:E.
  - split; [reflexivity |]. apply Byte.to_of_N in E. rewrite E. lia.
  - apply Byte.of_N_None_iff in E. lia.
Qed.

Lemma byte_of_Z_inv (z : Z) (x : byte) : byte_of_Z z = Some x -> byte_to_Z x = z.
Proof.
  unfold byte_of_Z, byte_to_Z.
  destruct (Z.ltb_spec z 0) as [H | H]; [discriminate |].
  intros E. apply Byte.to_of_N in E. rewrite E. lia.
Qed.

Lemma testbit_high (z n : Z) : 0 <= z < 256 -> 8 <= n -> Z.testbit z n = false.
Proof.
  intros Hz Hn. rewrite <- (Z.mod_small z (2 ^ 8)) by exact Hz.
  apply Z.mod_pow2_bits_high. lia.
Qed.

Lemma range_of_bits (z : Z) :
  0 <= z -> (forall n, 8 <= n -> Z.testbit z n = false) -> 0 <= z < 256.
Proof.
  intros Hz Hb. replace z with (z mod 2 ^ 8).
  - apply Z.mod_pos_bound. reflexivity.
  - apply Z.bits_inj'. intros n Hn.
    destruct (Z.lt_ge_cases n 8) as [Hlt | Hge].
    + apply Z.mod_pow2_bits_low. lia.
    + rewrite Z.mod_pow2_bits_high by lia. symmetry. apply Hb. exact Hge.
Qed.

Lemma lor_range (x m : Z) : 0 <= x < 256 -> 0 <= m < 256 -> 0 <= Z.lor x m < 256.
Proof.
  intros Hx Hm. apply range_of_bits.
  - apply Z.lor_nonneg. lia.
  - intros n Hn. rewrite Z.lor_spec, !testbit_high by assumption. reflexivity.
Qed.

Lemma land_range (x m : Z) : 0 <= x < 256 -> 0 <= Z.land x m < 256.
Proof.
  intros Hx. apply range_of_bits.
  - apply Z.land_nonneg. lia.
  - intros n Hn. rewrite Z.land_spec, testbit_high by assumption. reflexivity.
Qed.

Lemma land_lor_same (x m : Z) : Z.land (Z.lor x m) m = m.
Proof.
  apply Z.bits_inj'. intros n _. rewrite Z.land_spec, Z.lor_spec.
  destruct (Z.testbit x n), (Z.testbit m n); reflexivity.
Qed.

Lemma land_clear_same (x m : Z) : Z.land (Z.land x (Z.lnot m)) m = 0.
Proof.
  apply Z.bits_inj'. intros n Hn.
  rewrite !Z.land_spec, Z.lnot_spec, Z.bits_0 by exact Hn.
  destruct (Z.testbit x n), (Z.testbit m n); reflexivity.
Qed.

(** ** Running the register primitives *)

Lemma bind_run {A B : Type} (m : M A) (k : A -> M B) (b b' : Bus.t) (a : A) :
  m b = (inr a, b') -> bind m k b = k a b'.
Proof. intros H. unfold bind. rewrite H. reflexivity. Qed.

Lemma read8_run (r : Z) (a : byte) (b : Bus.t) :
  byte_of_Z r = Some a ->
  AXP192._read_register8 r b = (inr (reg b r), after_read a 1 b).
Proof.
  intros Ha. unfold AXP192._read_register8, bytearray_item, bind.
  rewrite Ha. pose proof (byte_of_Z_inv _ _ Ha) as Hr. subst r.
  unfold after_read, item, reg, ret. cbn. rewrite Z.add_0_r. reflexivity.
Qed.

Lemma write8_run (r v : Z) (a x : byte) (b : Bus.t) :
  byte_of_Z r = Some a -> byte_of_Z v = Some x ->
  AXP192._write_register8 r v b = (inr tt, after_write a x b).
Proof.
  intros Ha Hx. unfold AXP192._write_register8, bytearray_item, bind.
  rewrite Ha, Hx. reflexivity.
Qed.

Lemma reg_after_read (a : byte) (n : nat) (b : Bus.t) (r : Z) :
  reg (after_read a n b) r = reg b r.
Proof. reflexivity. Qed.

Lemma reg_after_write_other (a x : byte) (b : Bus.t) (r : Z) :
  r <> byte_to_Z a -> reg (after_write a x b) r = reg b r.
Proof.
  intros Hr. unfold reg, after_write, Bus.store. cbn.
  destruct (Z.eqb_spec r (byte_to_Z a)); [contradiction | reflexivity].
Qed.

Lemma reg_after_write_same (a x : byte) (b : Bus.t) :
  Bus.latch (byte_to_Z a) = false ->
  reg (after_write a x b) (byte_to_Z a) = byte_to_Z x.
Proof.
  intros Hl. unfold reg, after_write, Bus.store. cbn.
  rewrite Z.eqb_refl, Hl. reflexivity.
Qed.

Lemma reg_after_write_at (r : Z) (a x : byte) (b : Bus.t) :
  byte_of_Z r = Some a -> Bus.latch r = false ->
  reg (after_write a x b) r = byte_to_Z x.
Proof.
  intros Ha Hl. apply byte_of_Z_inv in Ha. subst r.
  apply reg_after_write_same. exact Hl.
Qed.

Lemma set_bit_run (r m : Z) (a : byte) (b : Bus.t) :
  byte_of_Z r = Some a -> 0 <= m < 256 ->
  AXP192._set_bit_in_register r m b =
  (inr tt, after_write a (byte_wrap (Z.lor (reg b r) m)) (after_read a 1 b)).
Proof.
  intros Ha Hm. unfold AXP192._set_bit_in_register.
  rewrite (bind_run _ _ _ _ _ (read8_run r a b Ha)).
  apply write8_run; [exact Ha |].
  apply byte_of_Z_small, lor_range; [apply byte_to_Z_range | exact Hm].
Qed.

Lemma clear_bit_run (r m : Z) (a : byte) (b : Bus.t) :
  byte_of_Z r = Some a ->
  AXP192._clear_bit_in_register r m b =
  (inr tt, after_write a (byte_wrap (Z.land (reg b r) (Z.lnot m))) (after_read a 1 b)).
Proof.
  intros Ha. unfold AXP192._clear_bit_in_register.
  rewrite (bind_run _ _ _ _ _ (read8_run r a b Ha)).
  apply write8_run; [exact Ha |].
  apply byte_of_Z_small, land_range, byte_to_Z_range.
Qed.

Lemma writes_after_read (a : byte) (n : nat) (b : Bus.t) :
  writes (Bus.log (after_read a n b)) = writes (Bus.log b).
Proof.
  unfold writes, after_read. cbn. rewrite filter_app. cbn. apply app_nil_r.
Qed.

Lemma writes_after_write (a x : byte) (b : Bus.t) :
  writes (Bus.log (after_write a x b)) = writes (Bus.log b) ++ [Bus.Write [a; x]].
Proof.
  unfold writes, after_write. cbn. rewrite filter_app. reflexivity.
Qed.

Ltac run_with H := rewrite (bind_run _ _ _ _ _ H); cbv beta iota zeta.

(** ** Voltage rails *)

Lemma write_dcdcx_off (num : Z) (v : Q) (b : Bus.t) (en vr mx : Z) :
  AXP192.__get_dcdcx_registers num b = (inr (en, vr, mx), b) ->
  Qle_bool (v - (7 # 10)) 0 = true ->
  AXP192.__write_dcdcx_setpoint num v b =
  AXP192._clear_bit_in_register AXP192._AXP192_DCDC13_LDO23_CTRL en b.
Proof.
  intros Hreg Hv. unfold AXP192.__write_dcdcx_setpoint.
  run_with Hreg. rewrite Hv. reflexivity.
Qed.

Lemma write_ldo23_off (num : Z) (v : Q) (b : Bus.t) (en off : Z) :
  AXP192.__get_ldo23_registers num b = (inr (en, off), b) ->
  Py.Qlt_bool (v - (18 # 10)) 0 = true ->
  AXP192.__write_ldo23_setpoint num v b =
  AXP192._clear_bit_in_register AXP192._AXP192_DCDC13_LDO23_CTRL en b.
Proof.
  intros Hreg Hv. unfold AXP192.__write_ldo23_setpoint.
  run_with Hreg. rewrite Hv. reflexivity.
Qed.

Lemma setRail_off_run (r : rail) (v : Q) (b : Bus.t) :
  switches_off r v = true ->
  setRail r v b =
  (inr tt,
   after_write x12
     (byte_wrap (Z.land (reg b 0x12) (Z.lnot (enable_mask r))))
     (after_read x12 1 b)).
Proof.
  intros Hv.
  rewrite <- (clear_bit_run 0x12 (enable_mask r) x12 b eq_refl).
  unfold switches_off in Hv. destruct r; cbn [is_dcdc] in Hv.
  - exact (write_dcdcx_off 1 v b _ _ _ eq_refl Hv).
  - exact (write_dcdcx_off 2 v b _ _ _ eq_refl Hv).
  - exact (write_dcdcx_off 3 v b _ _ _ eq_refl Hv).
  - exact (write_ldo23_off 2 v b _ _ eq_refl Hv).
  - exact (write_ldo23_off 3 v b _ _ eq_refl Hv).
Qed.

Lemma read_dcdcx_off (num : Z) (b : Bus.t) (en vr mx : Z) :
  AXP192.__get_dcdcx_registers num b = (inr (en, vr, mx), b) ->
  Z.land (reg b 0x12) en = 0 ->
  AXP192.__read_dcdcx_setpoint num b = (inr 0%Q, after_read x12 1 b).
Proof.
  intros Hreg Hen. unfold AXP192.__read_dcdcx_setpoint.
  run_with Hreg. run_with (read8_run 0x12 x12 b eq_refl).
  rewrite Hen. reflexivity.
Qed.

Lemma read_ldo23_off (num : Z) (b : Bus.t) (en off : Z) :
  AXP192.__get_ldo23_registers num b = (inr (en, off), b) ->
  Z.land (reg b 0x12) en = 0 ->
  AXP192.__read_ldo23_setpoint num b = (inr 0%Q, after_read x12 1 b).
Proof.
  intros Hreg Hen. unfold AXP192.__read_ldo23_setpoint.
  run_with Hreg. run_with (read8_run 0x12 x12 b eq_refl).
  rewrite Hen. reflexivity.
Qed.

Lemma getRail_off_run (r : rail) (b : Bus.t) :
  enabled b r = false -> getRail r b = (inr 0%Q, after_read x12 1 b).
Proof.
  unfold enabled. intros Hen. apply negb_false_iff, Z.eqb_eq in Hen.
  destruct r.
  - exact (read_dcdcx_off 1 b _ _ _ eq_refl Hen).
  - exact (read_dcdcx_off 2 b _ _ _ eq_refl Hen).
  - exact (read_dcdcx_off 3 b _ _ _ eq_refl Hen).
  - exact (read_ldo23_off 2 b _ _ eq_refl Hen).
  - exact (read_ldo23_off 3 b _ _ eq_refl Hen).
Qed.

Lemma code_register_not_ctrl (r : rail) :
  code_register r <> AXP192._AXP192_DCDC13_LDO23_CTRL.
Proof. destruct r; discriminate. Qed.

(** The effect of a setter that switches the rail off. *)
Lemma setRail_off_effect (r : rail) (v : Q) (b : Bus.t) :
  switches_off r v = true ->
  exists b',
    setRail r v b = (inr tt, b') /\
    enabled b' r = false /\
    Z.land (reg b' 0x12) (Z.lnot (enable_mask r)) =
      Z.land (reg b 0x12) (Z.lnot (enable_mask r)) /\
    (forall a, a <> 0x12 -> reg b' a = reg b a) /\
    writes (Bus.log b') =
      writes (Bus.log b) ++
      [Bus.Write [x12; byte_wrap (Z.land (reg b 0x12) (Z.lnot (enable_mask r)))]] /\
    fst (getRail r b') = inr 0%Q.
Proof.
  intros Hv. eexists. split; [apply setRail_off_run; exact Hv |].
  set (b1 := after_read x12 1 b).
  set (w := Z.land (reg b 0x12) (Z.lnot (enable_mask r))).
  assert (Hw : byte_to_Z (byte_wrap w) = w)
    by (apply byte_of_Z_small, land_range, byte_to_Z_range).
  assert (Hctrl : reg (after_write x12 (byte_wrap w) b1) 0x12 = w)
    by (rewrite <- Hw at 2; apply (reg_after_write_same x12); reflexivity).
  assert (Hoff : enabled (after_write x12 (byte_wrap w) b1) r = false).
  { unfold enabled. change AXP192._AXP192_DCDC13_LDO23_CTRL with 0x12.
    rewrite Hctrl. unfold w. rewrite land_clear_same. reflexivity. }
  split; [exact Hoff |]. split; [| split; [| split]].
  - rewrite Hctrl. unfold w. rewrite <- Z.land_assoc, Z.land_diag. reflexivity.
  - intros a Ha. rewrite reg_after_write_other by exact Ha. reflexivity.
  - rewrite writes_after_write. unfold b1. rewrite writes_after_read. reflexivity.
  - rewrite getRail_off_run by exact Hoff. reflexivity.
Qed.

(** C2. Setting any rail to 0 V succeeds with a single register write, to
    control register 0x12, that clears the rail's enable bit and keeps the
    other bits of 0x12; every other register, the rail's voltage-code register
    among them, keeps its content; the getter then returns exactly 0.  More
    generally the getter returns exactly 0 on every bus state whose enable
    bit for the rail is clear, whatever the voltage-code register holds. *)
Theorem disable_sentinel (r : rail) (b : Bus.t) :
  (exists b',
      setRail r 0 b = (inr tt, b') /\
      enabled b' r = false /\
      Z.land (reg b' 0x12) (Z.lnot (enable_mask r)) =
        Z.land (reg b 0x12) (Z.lnot (enable_mask r)) /\
      (forall a, a <> 0x12 -> reg b' a = reg b a) /\
      reg b' (code_register r) = reg b (code_register r) /\
      writes (Bus.log b') =
        writes (Bus.log b) ++
        [Bus.Write [x12; byte_wrap (Z.land (reg b 0x12) (Z.lnot (enable_mask r)))]] /\
      fst (getRail r b') = inr 0%Q) /\
  (enabled b r = false -> fst (getRail r b) = inr 0%Q).
Proof.
  split.
  - destruct (setRail_off_effect r 0 b) as (b' & Hrun & Hoff & Hctrl & Hframe & Hlog & Hget);
      [destruct r; reflexivity |].
    exists b'. split; [exact Hrun |]. split; [exact Hoff |]. split; [exact Hctrl |].
    split; [exact Hframe |]. split; [apply Hframe, code_register_not_ctrl |].
    split; [exact Hlog | exact Hget].
  - intros Hoff. rewrite getRail_off_run by exact Hoff. reflexivity.
Qed.

(** ** Packed register fields *)

Section PackedFields.

Variables (w off : Z).
Hypothesis (Hw : 0 <= w) (Hoff : 0 <= off).

Lemma fits_bits (c n : Z) :
  Z.land c (Z.ones w) = c -> w <= n -> Z.testbit c n = false.
Proof.
  intros Hc Hn. rewrite <- Hc, Z.land_spec, Z.ones_spec_high by lia.
  apply andb_false_r.
Qed.

Lemma fits_small (c : Z) : 0 <= c < 2 ^ w -> Z.land c (Z.ones w) = c.
Proof.
  intros Hc. rewrite Z.land_ones by exact Hw. apply Z.mod_small. exact Hc.
Qed.

Lemma get_set_field (r c : Z) :
  Z.land c (Z.ones w) = c -> get_field w off (set_field w off r c) = c.
Proof.
  intros Hc. unfold get_field, set_field. apply Z.bits_inj'. intros n Hn.
  rewrite Z.land_spec, Z.shiftr_spec, Z.lor_spec, Z.land_spec, Z.lnot_spec,
    !Z.shiftl_spec by lia.
  replace (n + off - off) with n by lia.
  destruct (Z.lt_ge_cases n w) as [Hlt | Hge].
  - rewrite Z.ones_spec_low by lia. cbn. rewrite andb_false_r, andb_true_r.
    reflexivity.
  - rewrite Z.ones_spec_high, (fits_bits c n Hc Hge) by lia.
    apply andb_false_r.
Qed.

Lemma get_set_field_other (w' off' r c : Z) :
  0 <= w' -> 0 <= off' ->
  Z.land c (Z.ones w) = c ->
  off' + w' <= off \/ off + w <= off' ->
  get_field w' off' (set_field w off r c) = get_field w' off' r.
Proof.
  intros Hw' Hoff' Hc Hdisj. unfold get_field, set_field.
  apply Z.bits_inj'. intros n Hn.
  rewrite !Z.land_spec, !Z.shiftr_spec, Z.lor_spec, Z.land_spec, Z.lnot_spec
    by lia.
  destruct (Z.lt_ge_cases n w') as [Hlt | Hge].
  - assert (Hm : Z.testbit (Z.shiftl (Z.ones w) off) (n + off') = false).
    { destruct (Z.lt_ge_cases (n + off') off).
      - apply Z.shiftl_spec_low. lia.
      - rewrite Z.shiftl_spec by lia. apply Z.ones_spec_high. lia. }
    assert (Hcb : Z.testbit (Z.shiftl c off) (n + off') = false).
    { destruct (Z.lt_ge_cases (n + off') off).
      - apply Z.shiftl_spec_low. lia.
      - rewrite Z.shiftl_spec by lia. apply (fits_bits c _ Hc). lia. }
    rewrite Hm, Hcb. cbn. rewrite orb_false_r, andb_true_r. reflexivity.
  - rewrite Z.ones_spec_high by lia. rewrite !andb_false_r. reflexivity.
Qed.

End PackedFields.

(** ** Voltage codes of the rails *)

Lemma py_int_floor (q : Q) : (0 <= q)%Q -> Py.int q = Qfloor q.
Proof.
  destruct q as [n d]. unfold Qle, Py.int, Qfloor. cbn. intros Hn.
  apply Z.quot_div_nonneg; lia.
Qed.

Lemma py_int_nonneg (q : Q) : (0 <= q)%Q -> 0 <= Py.int q.
Proof.
  intros Hq. rewrite py_int_floor by exact Hq.
  change 0 with (Qfloor 0). apply Qfloor_resp_le. exact Hq.
Qed.

Lemma Qle_bool_false (x y : Q) : Qle_bool x y = false -> (y < x)%Q.
Proof.
  intros H. apply Qnot_le_lt. intros Hle. apply Qle_bool_iff in Hle. congruence.
Qed.

Lemma Qlt_bool_false (x y : Q) : Py.Qlt_bool x y = false -> (y <= x)%Q.
Proof.
  unfold Py.Qlt_bool. intros H. apply negb_false_iff in H.
  apply Qle_bool_iff. exact H.
Qed.

Lemma Qlt_bool_true (x y : Q) : Py.Qlt_bool x y = true -> (x < y)%Q.
Proof.
  unfold Py.Qlt_bool. intros H. apply negb_true_iff in H.
  apply Qle_bool_false. exact H.
Qed.

Lemma rail_code_range (r : rail) (v : Q) :
  switches_off r v = false -> 0 <= rail_code r v <= max_code r.
Proof.
  unfold switches_off, rail_code. destruct (is_dcdc r) eqn:Hr; intros Hv.
  - apply Qle_bool_false in Hv.
    assert (0 <= Py.int ((v - (7 # 10)) * 1000)) by (apply py_int_nonneg; lra).
    assert (0 <= Py.int ((v - (7 # 10)) * 1000) / 25) by (apply Z.div_pos; lia).
    assert (0 <= max_code r) by (destruct r; cbn; lia). lia.
  - apply Qlt_bool_false in Hv.
    assert (0 <= Py.int ((v - (18 # 10)) * 10)) by (apply py_int_nonneg; lra).
    destruct r; try discriminate; cbn; lia.
Qed.

Lemma max_code_ones (r : rail) : max_code r = Z.ones (field_width r).
Proof. destruct r; reflexivity. Qed.

Lemma rail_code_fits (r : rail) (v : Q) :
  switches_off r v = false ->
  Z.land (rail_code r v) (Z.ones (field_width r)) = rail_code r v.
Proof.
  intros Hv. pose proof (rail_code_range r v Hv) as Hc.
  apply fits_small; [destruct r; cbn; lia |].
  rewrite max_code_ones, Z.ones_equiv in Hc. lia.
Qed.

Lemma enable_mask_range (r : rail) : 0 <= enable_mask r < 256.
Proof. destruct r; vm_compute; (split; [discriminate | reflexivity]). Qed.

Lemma merged_range (r : rail) (old c : Z) :
  0 <= old < 256 -> 0 <= c <= max_code r -> 0 <= merged r old c < 256.
Proof.
  intros Hold Hc. unfold merged, set_field.
  destruct r; cbn [is_dcdc field_offset max_code] in *; try lia;
    (apply lor_range; [apply land_range; exact Hold |]).
  - rewrite Z.shiftl_mul_pow2 by lia. change (2 ^ 4) with 16. lia.
  - rewrite Z.shiftl_0_r. lia.
Qed.

Lemma write_dcdcx_on (num : Z) (v : Q) (b : Bus.t) (en vr mx : Z) (a : byte) :
  AXP192.__get_dcdcx_registers num b = (inr (en, vr, mx), b) ->
  Qle_bool (v - (7 # 10)) 0 = false ->
  byte_of_Z vr = Some a ->
  0 <= en < 256 ->
  0 <= Z.min (Py.int ((v - (7 # 10)) * 1000) / 25) mx < 256 ->
  let c := Z.min (Py.int ((v - (7 # 10)) * 1000) / 25) mx in
  let b2 := after_write a (byte_wrap c) b in
  AXP192.__write_dcdcx_setpoint num v b =
  (inr tt,
   after_write x12 (byte_wrap (Z.lor (reg b2 0x12) en)) (after_read x12 1 b2)).
Proof.
  intros Hreg Hv Ha Hen Hc c b2. unfold AXP192.__write_dcdcx_setpoint.
  run_with Hreg. rewrite Hv.
  run_with (write8_run vr c a (byte_wrap c) b Ha (proj1 (byte_of_Z_small c Hc))).
  apply (set_bit_run 0x12 en x12); [reflexivity | exact Hen].
Qed.

Lemma write_ldo23_on (num : Z) (v : Q) (b : Bus.t) (en off : Z) :
  AXP192.__get_ldo23_registers num b = (inr (en, off), b) ->
  Py.Qlt_bool (v - (18 # 10)) 0 = false ->
  0 <= en < 256 ->
  let c := Z.min 0x0F (Py.int ((v - (18 # 10)) * 10)) in
  let new := set_field 4 off (reg b 0x28) c in
  0 <= new < 256 ->
  let b2 := after_write x28 (byte_wrap new) (after_read x28 1 b) in
  AXP192.__write_ldo23_setpoint num v b =
  (inr tt,
   after_write x12 (byte_wrap (Z.lor (reg b2 0x12) en)) (after_read x12 1 b2)).
Proof.
  intros Hreg Hv Hen c new Hnew b2. unfold AXP192.__write_ldo23_setpoint.
  run_with Hreg. rewrite Hv.
  run_with (read8_run 0x28 x28 b eq_refl).
  run_with (write8_run 0x28 new x28 (byte_wrap new) (after_read x28 1 b) eq_refl
              (proj1 (byte_of_Z_small new Hnew))).
  apply (set_bit_run 0x12 en x12); [reflexivity | exact Hen].
Qed.

(** The effect of a setter that switches the rail on. *)
Lemma setRail_on (r : rail) (v : Q) (b : Bus.t) :
  switches_off r v = false ->
  let new := merged r (reg b (code_register r)) (rail_code r v) in
  exists b',
    setRail r v b = (inr tt, b') /\
    reg b' 0x12 = Z.lor (reg b 0x12) (enable_mask r) /\
    reg b' (code_register r) = new /\
    (forall a, a <> 0x12 -> a <> code_register r -> reg b' a = reg b a) /\
    writes (Bus.log b') =
      writes (Bus.log b) ++
      [Bus.Write [code_byte r; byte_wrap new];
       Bus.Write [x12; byte_wrap (Z.lor (reg b 0x12) (enable_mask r))]].
Proof.
  intros Hv new.
  pose proof (rail_code_range r v Hv) as Hc.
  pose proof (merged_range r _ _ (byte_to_Z_range (Bus.regs b (code_register r))) Hc)
    as Hnew. fold (reg b (code_register r)) in Hnew. fold new in Hnew.
  pose proof (enable_mask_range r) as Hen.
  set (b1 := if is_dcdc r then b else after_read x28 1 b).
  set (b2 := after_write (code_byte r) (byte_wrap new) b1).
  set (b3 := after_write x12 (byte_wrap (Z.lor (reg b2 0x12) (enable_mask r)))
                         (after_read x12 1 b2)).
  assert (Hb2 : reg b2 0x12 = reg b 0x12).
  { unfold b2. rewrite reg_after_write_other by (destruct r; discriminate).
    unfold b1. destruct (is_dcdc r); reflexivity. }
  assert (Hrun : setRail r v b = (inr tt, b3)).
  { unfold b3, b2, b1, new, switches_off, rail_code, merged in *.
    destruct r; cbn [is_dcdc field_offset max_code code_register code_byte] in *.
    - exact (write_dcdcx_on 1 v b _ _ _ x26 eq_refl Hv eq_refl Hen Hnew).
    - exact (write_dcdcx_on 2 v b _ _ _ x25 eq_refl Hv eq_refl Hen Hnew).
    - exact (write_dcdcx_on 3 v b _ _ _ x27 eq_refl Hv eq_refl Hen Hnew).
    - exact (write_ldo23_on 2 v b _ _ eq_refl Hv Hen Hnew).
    - exact (write_ldo23_on 3 v b _ _ eq_refl Hv Hen Hnew). }
  exists b3. split; [exact Hrun |]. repeat split.
  - unfold b3. rewrite (reg_after_write_same x12) by reflexivity.
    rewrite Hb2. apply byte_of_Z_small, lor_range; [apply byte_to_Z_range | exact Hen].
  - unfold b3. rewrite reg_after_write_other by apply code_register_not_ctrl.
    rewrite reg_after_read. unfold b2.
    replace (code_register r) with (byte_to_Z (code_byte r)) at 1
      by (destruct r; reflexivity).
    rewrite reg_after_write_same by (destruct r; reflexivity).
    apply byte_of_Z_small. exact Hnew.
  - intros a Ha1 Ha2. unfold b3. rewrite reg_after_write_other by exact Ha1.
    rewrite reg_after_read. unfold b2.
    rewrite reg_after_write_other by (destruct r; exact Ha2).
    unfold b1. destruct (is_dcdc r); reflexivity.
  - unfold b3. rewrite writes_after_write, writes_after_read, Hb2. unfold b2.
    rewrite writes_after_write. unfold b1.
    destruct (is_dcdc r); rewrite ?writes_after_read, <- app_assoc; reflexivity.
Qed.

Lemma read_dcdcx_on (num : Z) (b : Bus.t) (en vr mx : Z) (a : byte) :
  AXP192.__get_dcdcx_registers num b = (inr (en, vr, mx), b) ->
  Z.land (reg b 0x12) en <> 0 ->
  byte_of_Z vr = Some a ->
  AXP192.__read_dcdcx_setpoint num b =
  (inr (inject_Z (Z.land (reg b vr) mx * 25 + 700) / 1000)%Q,
   after_read a 1 (after_read x12 1 b)).
Proof.
  intros Hreg Hen Ha. unfold AXP192.__read_dcdcx_setpoint.
  run_with Hreg. run_with (read8_run 0x12 x12 b eq_refl).
  apply Z.eqb_neq in Hen. rewrite Hen.
  run_with (read8_run vr a (after_read x12 1 b) Ha). reflexivity.
Qed.

Lemma read_ldo23_on (num : Z) (b : Bus.t) (en off : Z) :
  AXP192.__get_ldo23_registers num b = (inr (en, off), b) ->
  Z.land (reg b 0x12) en <> 0 ->
  AXP192.__read_ldo23_setpoint num b =
  (inr (inject_Z (Z.land (Z.shiftr (reg b 0x28) off) 0xF * 100 + 1800) / 1000)%Q,
   after_read x28 1 (after_read x12 1 b)).
Proof.
  intros Hreg Hen. unfold AXP192.__read_ldo23_setpoint.
  run_with Hreg. run_with (read8_run 0x12 x12 b eq_refl).
  apply Z.eqb_neq in Hen. rewrite Hen.
  run_with (read8_run 0x28 x28 (after_read x12 1 b) eq_refl). reflexivity.
Qed.

Lemma getRail_on (r : rail) (b : Bus.t) :
  enabled b r = true ->
  getRail r b =
  (inr (rail_volts r (stored_code b r)),
   after_read (code_byte r) 1 (after_read x12 1 b)).
Proof.
  unfold enabled. intros Hen. apply negb_true_iff, Z.eqb_neq in Hen.
  destruct r.
  - exact (read_dcdcx_on 1 b _ _ _ x26 eq_refl Hen eq_refl).
  - exact (read_dcdcx_on 2 b _ _ _ x25 eq_refl Hen eq_refl).
  - exact (read_dcdcx_on 3 b _ _ _ x27 eq_refl Hen eq_refl).
  - exact (read_ldo23_on 2 b _ _ eq_refl Hen).
  - exact (read_ldo23_on 3 b _ _ eq_refl Hen).
Qed.

Lemma enable_mask_nonzero (r : rail) : enable_mask r <> 0.
Proof. destruct r; discriminate. Qed.

Lemma stored_merged (r : rail) (old c : Z) :
  Z.land c (Z.ones (field_width r)) = c ->
  get_field (field_width r) (field_offset r) (merged r old c) = c.
Proof.
  intros Hc. unfold merged. destruct (is_dcdc r) eqn:Hr.
  - unfold get_field. replace (field_offset r) with 0 by (destruct r; try discriminate; reflexivity).
    rewrite Z.shiftr_0_r. exact Hc.
  - replace 4 with (field_width r) by (destruct r; try discriminate; reflexivity).
    apply get_set_field; [destruct r; cbn; lia .. | exact Hc].
Qed.

(** Set then get: when the setter switches the rail on, the getter returns
    the voltage of the code the setter computed. *)
Lemma setRail_getRail (r : rail) (v : Q) (b : Bus.t) :
  switches_off r v = false ->
  exists b',
    setRail r v b = (inr tt, b') /\
    enabled b' r = true /\
    stored_code b' r = rail_code r v /\
    fst (getRail r b') = inr (rail_volts r (rail_code r v)).
Proof.
  intros Hv. destruct (setRail_on r v b Hv) as (b' & Hrun & Hctrl & Hcode & _).
  assert (Hen : enabled b' r = true).
  { unfold enabled. change AXP192._AXP192_DCDC13_LDO23_CTRL with 0x12.
    rewrite Hctrl, land_lor_same. apply negb_true_iff, Z.eqb_neq, enable_mask_nonzero. }
  assert (Hst : stored_code b' r = rail_code r v).
  { unfold stored_code. rewrite Hcode. apply stored_merged, rail_code_fits, Hv. }
  exists b'. repeat split; try assumption.
  rewrite getRail_on by exact Hen. cbn [fst]. rewrite Hst. reflexivity.
Qed.

Lemma floor_bounds (q : Q) (hi : Z) :
  (0 <= q)%Q -> (q <= inject_Z hi)%Q ->
  0 <= Py.int q <= hi /\ (inject_Z (Py.int q) <= q < inject_Z (Py.int q) + 1)%Q.
Proof.
  intros H0 Hhi. rewrite py_int_floor by exact H0.
  pose proof (Qfloor_le q) as Hle. pose proof (Qlt_floor q) as Hlt.
  rewrite inject_Z_plus in Hlt. change (inject_Z 1) with 1%Q in Hlt.
  split; [| split; assumption].
  split.
  - change 0 with (Qfloor 0). apply Qfloor_resp_le. exact H0.
  - rewrite <- (Qfloor_Z hi). apply Qfloor_resp_le. exact Hhi.
Qed.

Lemma Qdiv_1000 (y : Q) : (y / 1000 == y * (1 # 1000))%Q.
Proof. reflexivity. Qed.

Lemma rail_volts_close (r : rail) (v : Q) :
  switches_off r v = false -> (v <= top r)%Q ->
  (rail_volts r (rail_code r v) <= v < rail_volts r (rail_code r v) + step r)%Q.
Proof.
  unfold switches_off, rail_volts, rail_code, step.
  destruct (is_dcdc r) eqn:Hr; intros Hv Htop.
  - apply Qle_bool_false in Hv.
    assert (Htop' : (v <= 35 # 10)%Q /\ (r = DCDC2 -> v <= 2275 # 1000)%Q).
    { destruct r; try discriminate; cbn in Htop; split; try discriminate; lra. }
    destruct Htop' as [Htop1 Htop2].
    set (q := ((v - (7 # 10)) * 1000)%Q) in *.
    destruct (floor_bounds q 2800) as [[Ht0 Ht1] [Hq0 Hq1]];
      [unfold q; lra | unfold q; change (inject_Z 2800) with 2800%Q; lra |].
    set (t := Py.int q) in *.
    pose proof (Z.div_mod t 25 ltac:(lia)) as Hdm.
    pose proof (Z.mod_pos_bound t 25 ltac:(lia)) as Hmod.
    assert (Hk : Z.min (t / 25) (max_code r) = t / 25).
    { apply Z.min_l. destruct r; try discriminate; cbn.
      - lia.
      - specialize (Htop2 eq_refl).
        destruct (floor_bounds q 1575) as [[_ Ht2] _];
          [unfold q; lra | unfold q; change (inject_Z 1575) with 1575%Q; lra |].
        fold t in Ht2. lia.
      - lia. }
    rewrite Hk. set (k := t / 25) in *.
    assert (Hk1 : (inject_Z (k * 25) <= inject_Z t)%Q) by (rewrite <- Zle_Qle; lia).
    assert (Hk2 : (inject_Z t + 1 <= inject_Z (k * 25 + 25))%Q).
    { change 1%Q with (inject_Z 1). rewrite <- inject_Z_plus, <- Zle_Qle. lia. }
    rewrite !inject_Z_plus, !inject_Z_mult in *.
    change (inject_Z 25) with 25%Q in *. change (inject_Z 700) with 700%Q.
    unfold q in *. rewrite !Qdiv_1000. lra.
  - apply Qlt_bool_false in Hv.
    assert (Htop' : (v <= 33 # 10)%Q) by (destruct r; try discriminate; exact Htop).
    set (q := ((v - (18 # 10)) * 10)%Q) in *.
    destruct (floor_bounds q 15) as [[Ht0 Ht1] [Hq0 Hq1]];
      [unfold q; lra | unfold q; change (inject_Z 15) with 15%Q; lra |].
    set (t := Py.int q) in *.
    rewrite Z.min_r by exact Ht1.
    rewrite !inject_Z_plus, !inject_Z_mult.
    change (inject_Z 100) with 100%Q. change (inject_Z 1800) with 1800%Q.
    unfold q in *. rewrite !Qdiv_1000. lra.
Qed.

(** ** GPIO function multiplexer *)

Lemma pins_0_2 (g : Z) : 0 <= g <= 2 -> g = 0 \/ g = 1 \/ g = 2.
Proof. lia. Qed.

Lemma pins_1_2 (g : Z) : 1 <= g <= 2 -> g = 1 \/ g = 2.
Proof. lia. Qed.

Lemma function_register_byte (g : Z) :
  0 <= g <= 2 -> byte_of_Z (function_register g) = Some (byte_wrap (function_register g)).
Proof.
  intros Hg. destruct (pins_0_2 g Hg) as [-> | [-> | ->]]; reflexivity.
Qed.

Lemma function_register_plain (g : Z) :
  Bus.latch (byte_to_Z (byte_wrap (function_register g))) = false.
Proof.
  unfold function_register.
  destruct (g =? 0); [reflexivity |].
  destruct (g =? 1); [reflexivity |].
  destruct (g =? 2); reflexivity.
Qed.

Lemma function_register_wrap (g : Z) :
  byte_to_Z (byte_wrap (function_register g)) = function_register g.
Proof.
  unfold function_register.
  destruct (g =? 0); [reflexivity |].
  destruct (g =? 1); [reflexivity |].
  destruct (g =? 2); reflexivity.
Qed.

Lemma land_low_range (f w : Z) : 0 <= w -> 0 <= Z.land f (Z.ones w) < 2 ^ w.
Proof.
  intros Hw. rewrite Z.land_ones by exact Hw. apply Z.mod_pos_bound.
  apply Z.pow_pos_nonneg; lia.
Qed.

Lemma get_gpio_function_run (g : Z) (b : Bus.t) :
  0 <= g <= 2 ->
  AXP192.__get_gpio_function g b =
  (inr (function_code b g), after_read (byte_wrap (function_register g)) 1 b).
Proof.
  intros Hg. unfold function_code.
  destruct (pins_0_2 g Hg) as [-> | [-> | ->]];
    unfold AXP192.__get_gpio_function; cbn [Z.eqb Pos.eqb];
    [ run_with (read8_run 0x90 x90 b eq_refl)
    | run_with (read8_run 0x92 x92 b eq_refl)
    | run_with (read8_run 0x93 x93 b eq_refl) ]; reflexivity.
Qed.

Lemma set_gpio_function_run (g f : Z) (b : Bus.t) :
  0 <= g <= 2 ->
  AXP192.__set_gpio_function g f b =
  (inr tt,
   after_write (byte_wrap (function_register g)) (byte_wrap (Z.land f 0x07)) b).
Proof.
  intros Hg.
  assert (Hf : byte_of_Z (Z.land f 0x07) = Some (byte_wrap (Z.land f 0x07))).
  { apply byte_of_Z_small. pose proof (land_low_range f 3 ltac:(lia)) as H.
    change (Z.ones 3) with 7 in H. change (2 ^ 3) with 8 in H. lia. }
  destruct (pins_0_2 g Hg) as [-> | [-> | ->]];
    unfold AXP192.__set_gpio_function; cbn [Z.eqb Pos.eqb];
    [ exact (write8_run 0x90 _ x90 _ b eq_refl Hf)
    | exact (write8_run 0x92 _ x92 _ b eq_refl Hf)
    | exact (write8_run 0x93 _ x93 _ b eq_refl Hf) ].
Qed.

Lemma function_code_after_set (g f : Z) (b : Bus.t) :
  0 <= f < 8 ->
  function_code
    (after_write (byte_wrap (function_register g)) (byte_wrap (Z.land f 0x07)) b) g = f.
Proof.
  intros Hf. unfold function_code.
  rewrite <- (function_register_wrap g) at 2.
  rewrite reg_after_write_same by apply function_register_plain.
  assert (Hl : Z.land f 7 = f) by (apply (fits_small 3); lia).
  rewrite Hl. rewrite (proj2 (byte_of_Z_small f ltac:(lia))). exact Hl.
Qed.

Lemma validate_ok (g : Z) (b : Bus.t) :
  0 <= g <= 4 -> AXP192.__validate_gpio_num g b = (inr tt, b).
Proof.
  intros Hg. unfold AXP192.__validate_gpio_num.
  destruct (Z.ltb_spec g 0); [lia |]. destruct (Z.gtb_spec g 4); [lia |]. reflexivity.
Qed.

Lemma bit_test (x n : Z) :
  0 <= n -> negb (Z.land x (2 ^ n) =? 0) = Z.testbit x n.
Proof.
  intros Hn. destruct (Z.testbit x n) eqn:Hb.
  - apply negb_true_iff, Z.eqb_neq. intros H0.
    assert (Hbit : Z.testbit (Z.land x (2 ^ n)) n = true)
      by (rewrite Z.land_spec, Hb, Z.pow2_bits_true by exact Hn; reflexivity).
    rewrite H0, Z.bits_0 in Hbit. discriminate.
  - apply negb_false_iff, Z.eqb_eq, Z.bits_inj'. intros m Hm.
    rewrite Z.land_spec, Z.bits_0, Z.pow2_bits_eqb by exact Hn.
    destruct (Z.eqb_spec n m) as [-> | _]; [rewrite Hb |]; auto using andb_false_r.
Qed.

Lemma floating_test (c : Z) :
  0 <= c < 8 ->
  (Z.land c 0x06 =? 0x06) = Z.testbit c 1 && Z.testbit c 2 /\
  ((Z.land c 0x06 =? 0x06) = true <-> c = 6 \/ c = 7).
Proof.
  intros Hc.
  assert (H : c = 0 \/ c = 1 \/ c = 2 \/ c = 3 \/ c = 4 \/ c = 5 \/ c = 6 \/ c = 7)
    by lia.
  repeat (destruct H as [-> | H]); try subst c; cbn;
    (split; [reflexivity | split; [intros; first [discriminate | lia] | intros; first [lia | reflexivity]]]).
Qed.

Lemma function_code_range (b : Bus.t) (g : Z) : 0 <= function_code b g < 8.
Proof. apply (land_low_range _ 3). lia. Qed.

(** C9. For pins 0 to 2 the floating-mode query answers whether bits 1 and 2
    of the stored 3-bit function code are both set: it answers True exactly
    for the stored codes 0x6 and 0x7, while the floating setter stores 0x7. *)
Theorem gpio_floating_query (g : Z) (b : Bus.t) :
  0 <= g <= 2 ->
  fst (AXP192._is_gpio_floating g b) =
    inr (Z.testbit (function_code b g) 1 && Z.testbit (function_code b g) 2) /\
  (fst (AXP192._is_gpio_floating g b) = inr true <->
   function_code b g = 6 \/ function_code b g = 7) /\
  (exists b', AXP192._set_gpio_floating g b = (inr tt, b') /\ function_code b' g = 7).
Proof.
  intros Hg.
  assert (Hrun : fst (AXP192._is_gpio_floating g b) =
                 inr (Z.land (function_code b g) 0x06 =? 0x06)).
  { unfold AXP192._is_gpio_floating.
    run_with (validate_ok g b ltac:(lia)).
    destruct (Z.leb_spec 0 g); [| lia]. destruct (Z.leb_spec g 2); [| lia].
    cbn [andb]. run_with (get_gpio_function_run g b Hg). reflexivity. }
  destruct (floating_test _ (function_code_range b g)) as [Hbits Hiff].
  rewrite Hrun. split; [rewrite Hbits; reflexivity |]. split.
  - rewrite <- Hiff. split; [intros H; injection H; auto | intros ->; reflexivity].
  - eexists. split.
    + unfold AXP192._set_gpio_floating.
      run_with (validate_ok g b ltac:(lia)).
      destruct (Z.leb_spec 0 g); [| lia]. destruct (Z.leb_spec g 2); [| lia].
      cbn [andb]. apply set_gpio_function_run. exact Hg.
    + apply function_code_after_set. lia.
Qed.

Lemma is_gpio_pwm_out_run (g : Z) (b : Bus.t) :
  1 <= g <= 2 ->
  AXP192._is_gpio_pwm_out g b =
  (inr (function_code b g =? 0x02), after_read (byte_wrap (function_register g)) 1 b).
Proof.
  intros Hg. unfold AXP192._is_gpio_pwm_out.
  run_with (validate_ok g b ltac:(lia)).
  destruct (Z.leb_spec 1 g); [| lia]. destruct (Z.leb_spec g 2); [| lia].
  cbn [andb]. run_with (get_gpio_function_run g b ltac:(lia)). reflexivity.
Qed.

Lemma duty_register_byte (g : Z) :
  1 <= g <= 2 -> byte_of_Z (duty_register g) = Some (byte_wrap (duty_register g)).
Proof.
  intros Hg. destruct (pins_1_2 g Hg) as [-> | ->]; reflexivity.
Qed.

(** C10. For a PWM-capable pin (1 or 2) the duty-cycle getter raises
    ValueError when the stored function code is not the PWM code 0x2, and
    returns the content of the duty register when it is; it never writes. *)
Theorem gpio_pwm_getter (g : Z) (b : Bus.t) :
  1 <= g <= 2 ->
  (function_code b g <> 0x02 ->
   fst (AXP192._get_gpio_pwm_out g b) = inl (pwm_error g)) /\
  (function_code b g = 0x02 ->
   fst (AXP192._get_gpio_pwm_out g b) = inr (reg b (duty_register g))) /\
  Bus.regs (snd (AXP192._get_gpio_pwm_out g b)) = Bus.regs b.
Proof.
  intros Hg.
  assert (Hrun : AXP192._get_gpio_pwm_out g b =
    if function_code b g =? 0x02
    then (inr (reg b (duty_register g)),
          after_read (byte_wrap (duty_register g)) 1
            (after_read (byte_wrap (function_register g)) 1 b))
    else (inl (pwm_error g), after_read (byte_wrap (function_register g)) 1 b)).
  { unfold AXP192._get_gpio_pwm_out.
    run_with (validate_ok g b ltac:(lia)).
    destruct (Z.leb_spec 1 g); [| lia]. destruct (Z.leb_spec g 2); [| lia].
    cbn [andb]. run_with (is_gpio_pwm_out_run g b Hg).
    destruct (function_code b g =? 2); [| reflexivity].
    exact (read8_run (duty_register g) _
             (after_read (byte_wrap (function_register g)) 1 b)
             (duty_register_byte g Hg)). }
  rewrite Hrun. repeat split.
  - intros Hc. apply Z.eqb_neq in Hc. rewrite Hc. reflexivity.
  - intros Hc. apply Z.eqb_eq in Hc. rewrite Hc. reflexivity.
  - destruct (function_code b g =? 2); reflexivity.
Qed.

(** C8. PWM output on pin 0 and floating mode on pin 3 are refused with
    ValueError, and the bus is left exactly as it was: no transaction, read
    or write, is issued before the error is raised. *)
Theorem unsupported_mode_rejected (duty_cycle : Py.num) (b : Bus.t) :
  AXP192._set_gpio_pwm_out 0 duty_cycle b =
    (inl (Py.ValueError "GPIO0 doesn't PWM output mode"), b) /\
  AXP192._set_gpio_floating 3 b =
    (inl (Py.ValueError "GPIO3 doesn't support floating mode"), b).
Proof. split; reflexivity. Qed.

Lemma pwm_register_byte (g : Z) :
  1 <= g <= 2 -> byte_of_Z (pwm_register g) = Some (byte_wrap (pwm_register g)).
Proof.
  intros Hg. destruct (pins_1_2 g Hg) as [-> | ->]; reflexivity.
Qed.

(** C5 (as the code has it). For pins 1 and 2 a duty cycle outside 0..255 is
    rejected with ValueError and nothing is sent on the bus; a duty cycle
    inside 0..255 is written unchanged: the prescaler register receives 0xFF,
    the duty register the given value and the pin's function register the
    PWM code 0x2, in this order. *)
Theorem pwm_duty_range_checked (g d : Z) (b : Bus.t) :
  1 <= g <= 2 ->
  (~ 0 <= d <= 255 ->
   AXP192._set_gpio_pwm_out g (Py.Int d) b =
     (inl (Py.ValueError "Duty cycle out of range. Allowed range 0-255"), b)) /\
  (0 <= d <= 255 ->
   exists b',
     AXP192._set_gpio_pwm_out g (Py.Int d) b = (inr tt, b') /\
     reg b' (pwm_register g) = 0xFF /\
     reg b' (duty_register g) = d /\
     function_code b' g = 0x02 /\
     writes (Bus.log b') =
       writes (Bus.log b) ++
       [Bus.Write [byte_wrap (pwm_register g); xff];
        Bus.Write [byte_wrap (duty_register g); byte_wrap d];
        Bus.Write [byte_wrap (function_register g); x02]]).
Proof.
  intros Hg. split.
  - intros Hd. unfold AXP192._set_gpio_pwm_out.
    run_with (validate_ok g b ltac:(lia)).
    destruct (Z.leb_spec 1 g); [| lia]. destruct (Z.leb_spec g 2); [| lia].
    cbn [andb].
    destruct (Z.leb_spec 0 d); [| reflexivity].
    destruct (Z.leb_spec d 255); [lia | reflexivity].
  - intros Hd.
    set (b1 := after_write (byte_wrap (pwm_register g)) xff b).
    set (b2 := after_write (byte_wrap (duty_register g)) (byte_wrap d) b1).
    set (b3 := after_write (byte_wrap (function_register g)) (byte_wrap (Z.land 2 7)) b2).
    exists b3. split.
    { unfold AXP192._set_gpio_pwm_out.
      run_with (validate_ok g b ltac:(lia)).
      destruct (Z.leb_spec 1 g); [| lia]. destruct (Z.leb_spec g 2); [| lia].
      destruct (Z.leb_spec 0 d); [| lia]. destruct (Z.leb_spec d 255); [| lia].
      cbn [andb]. fold (pwm_register g).
      run_with (write8_run (pwm_register g) 0xFF _ xff b
                  (pwm_register_byte g Hg) eq_refl).
      fold (duty_register g).
      run_with (write8_run (duty_register g) d _ _ b1
                  (duty_register_byte g Hg)
                  (proj1 (byte_of_Z_small d ltac:(lia)))).
      apply set_gpio_function_run. lia. }
    assert (Hduty : reg b3 (duty_register g) = d).
    { unfold b3. rewrite reg_after_write_other
        by (destruct (pins_1_2 g Hg) as [-> | ->]; discriminate).
      unfold b2.
      rewrite (reg_after_write_at _ _ _ _ (duty_register_byte g Hg))
        by (destruct (pins_1_2 g Hg) as [-> | ->]; reflexivity).
      apply byte_of_Z_small. lia. }
    assert (Hpre : reg b3 (pwm_register g) = 0xFF).
    { unfold b3, b2.
      rewrite !reg_after_write_other
        by (destruct (pins_1_2 g Hg) as [-> | ->]; discriminate).
      unfold b1.
      rewrite (reg_after_write_at _ _ _ _ (pwm_register_byte g Hg))
        by (destruct (pins_1_2 g Hg) as [-> | ->]; reflexivity).
      reflexivity. }
    split; [exact Hpre |]. split; [exact Hduty |]. split.
    + apply (function_code_after_set g 2). lia.
    + unfold b3, b2, b1. rewrite !writes_after_write, <- !app_assoc. reflexivity.
Qed.

(** C5, the claim as stated fails: a duty cycle of 300 on pin 1 is not
    clamped to 255 and written; the call raises ValueError and leaves the
    bus untouched. *)
Lemma pwm_duty_not_clamped :
  AXP192._set_gpio_pwm_out 1 (Py.Int 300) (bus_const x00) =
    (inl (Py.ValueError "Duty cycle out of range. Allowed range 0-255"),
     bus_const x00) /\
  ~ (exists b',
        AXP192._set_gpio_pwm_out 1 (Py.Int 300) (bus_const x00) = (inr tt, b') /\
        reg b' (duty_register 1) = 255).
Proof.
  split; [reflexivity |]. intros (b' & Hrun & _). discriminate Hrun.
Qed.

(** ** Register primitives: 12-bit reads *)

Lemma read12_run (r : Z) (a : byte) (b : Bus.t) :
  byte_of_Z r = Some a ->
  AXP192._read_register12 r b =
  (inr (Z.lor (Z.shiftl (reg b r) 4) (reg b (r + 1))), after_read a 2 b).
Proof.
  intros Ha. unfold AXP192._read_register12, bytearray_item, bind.
  rewrite Ha. pose proof (byte_of_Z_inv _ _ Ha) as Hr. subst r.
  unfold after_read, item, reg, ret. cbn. rewrite Z.add_0_r. reflexivity.
Qed.

(** C4 (as the code has it). A 12-bit read sends the register address and
    combines the two bytes the bus returns as (byte0 << 4) | byte1, with no
    masking of byte1: for the byte pair (0x01, 0x23) the result is 0x33. *)
Theorem read_register12_assembly (a : byte) (b : Bus.t) :
  let byte0 := Bus.regs b (byte_to_Z a) in
  let byte1 := Bus.regs b (byte_to_Z a + 1) in
  AXP192._read_register12 (byte_to_Z a) b =
    (inr (Z.lor (Z.shiftl (byte_to_Z byte0) 4) (byte_to_Z byte1)),
     Bus.mk (Bus.regs b)
            (Bus.log b ++ [Bus.WriteThenRead [a] [byte0; byte1]])) /\
  (byte0 = x01 -> byte1 = x23 ->
   fst (AXP192._read_register12 (byte_to_Z a) b) = inr 0x33).
Proof.
  intros byte0 byte1.
  assert (Hrun : AXP192._read_register12 (byte_to_Z a) b =
    (inr (Z.lor (Z.shiftl (byte_to_Z byte0) 4) (byte_to_Z byte1)),
     Bus.mk (Bus.regs b)
            (Bus.log b ++ [Bus.WriteThenRead [a] [byte0; byte1]]))).
  { rewrite (read12_run _ a b (byte_of_to_Z a)).
    unfold after_read, byte0, byte1, reg. cbn. rewrite Z.add_0_r. reflexivity. }
  split; [exact Hrun |].
  intros H0 H1. rewrite Hrun, H0, H1. reflexivity.
Qed.

(** C4, the claim as stated fails: the bytes (0x01, 0x23) decode to 0x33,
    not to 0x123. *)
Lemma read_register12_not_0x123 :
  fst (AXP192._read_register12 0x56 (bus_of [(0x56, x01); (0x57, x23)])) = inr 0x33 /\
  fst (AXP192._read_register12 0x56 (bus_of [(0x56, x01); (0x57, x23)])) <> inr 0x123.
Proof. split; [reflexivity | discriminate]. Qed.

(** ** Power key *)

Lemma latch_cleared (b : Bus.t) :
  reg (after_write x46 x03 b) 0x46 = Z.land (reg b 0x46) (Z.lnot 3).
Proof.
  unfold reg, after_write, Bus.store. cbn [Bus.regs].
  change (byte_to_Z x46) with 0x46. change (byte_to_Z x03) with 3.
  rewrite Z.eqb_refl. change (Bus.latch 0x46) with true. cbv beta iota.
  apply byte_of_Z_small, land_range, byte_to_Z_range.
Qed.

Lemma power_key_run (b : Bus.t) :
  let short_press := Z.testbit (reg b 0x46) 1 in
  let long_press := Z.testbit (reg b 0x46) 0 in
  AXP192.power_key_was_pressed b =
  (inr (short_press, long_press),
   if short_press || long_press
   then after_write x46 x03 (after_read x46 1 b)
   else after_read x46 1 b).
Proof.
  intros short_press long_press. unfold AXP192.power_key_was_pressed.
  run_with (read8_run 0x46 x46 b eq_refl).
  change AXP192._AXP192_IRQ_3_STATUS_PEK_SHORT_PRESS with (2 ^ 1).
  change AXP192._AXP192_IRQ_3_STATUS_PEK_LONG_PRESS with (2 ^ 0).
  rewrite !bit_test by lia. fold short_press long_press.
  destruct (short_press || long_press).
  - run_with (write8_run 0x46 (Z.lor (2 ^ 1) (2 ^ 0)) x46 x03
                (after_read x46 1 b) eq_refl eq_refl).
    reflexivity.
  - reflexivity.
Qed.

(** C6. The power-key read returns (short, long) = (bit 1, bit 0) of the
    status register 0x46 as read before any clearing, and writes 0b00000011
    back to 0x46 exactly when one of the two bits was set.  With status
    0b00000011 it returns (true, true) and writes 0b00000011; the latch then
    reads 0 and an immediate second call returns (false, false).  With status
    0 it returns (false, false) and writes nothing. *)
Theorem power_key_latch (b : Bus.t) :
  let short_press := Z.testbit (reg b 0x46) 1 in
  let long_press := Z.testbit (reg b 0x46) 0 in
  exists b',
    AXP192.power_key_was_pressed b = (inr (short_press, long_press), b') /\
    writes (Bus.log b') =
      writes (Bus.log b) ++
      (if short_press || long_press then [Bus.Write [x46; x03]] else []) /\
    (reg b 0x46 = 3 ->
     (short_press, long_press) = (true, true) /\
     reg b' 0x46 = 0 /\
     fst (AXP192.power_key_was_pressed b') = inr (false, false)) /\
    (reg b 0x46 = 0 ->
     (short_press, long_press) = (false, false) /\
     writes (Bus.log b') = writes (Bus.log b)).
Proof.
  intros short_press long_press. eexists. split; [apply power_key_run |].
  fold short_press long_press. split; [| split].
  - destruct (short_press || long_press).
    + rewrite writes_after_write, writes_after_read. reflexivity.
    + rewrite writes_after_read, app_nil_r. reflexivity.
  - intros Hst.
    assert (Hs : short_press = true) by (unfold short_press; rewrite Hst; reflexivity).
    assert (Hl : long_press = true) by (unfold long_press; rewrite Hst; reflexivity).
    rewrite Hs, Hl. cbn [orb].
    assert (H0 : reg (after_write x46 x03 (after_read x46 1 b)) 0x46 = 0)
      by (rewrite latch_cleared, reg_after_read, Hst; reflexivity).
    split; [reflexivity |]. split; [exact H0 |].
    rewrite power_key_run, H0. reflexivity.
  - intros Hst.
    assert (Hs : short_press = false) by (unfold short_press; rewrite Hst; reflexivity).
    assert (Hl : long_press = false) by (unfold long_press; rewrite Hst; reflexivity).
    rewrite Hs, Hl. cbn [orb].
    split; [reflexivity |]. rewrite writes_after_read. reflexivity.
Qed.

(** ** Field isolation *)

Lemma ldo_sibling_kept (r : rail) (v : Q) (b : Bus.t) (w' off' : Z) :
  is_dcdc r = false ->
  0 <= w' -> 0 <= off' ->
  off' + w' <= field_offset r \/ field_offset r + 4 <= off' ->
  exists b',
    setRail r v b = (inr tt, b') /\
    get_field w' off' (reg b' 0x28) = get_field w' off' (reg b 0x28).
Proof.
  intros Hr Hw' Hoff' Hdisj. destruct (switches_off r v) eqn:Hv.
  - eexists. split; [apply setRail_off_run; exact Hv |].
    rewrite reg_after_write_other by discriminate. reflexivity.
  - destruct (setRail_on r v b Hv) as (b' & Hrun & _ & Hcode & _).
    exists b'. split; [exact Hrun |].
    assert (Hreg : code_register r = 0x28) by (destruct r; try discriminate; reflexivity).
    rewrite Hreg in Hcode. rewrite Hcode. unfold merged. rewrite Hr.
    pose proof (rail_code_fits r v Hv) as Hfit.
    replace (field_width r) with 4 in Hfit by (destruct r; try discriminate; reflexivity).
    apply get_set_field_other; try assumption; try lia.
    destruct r; try discriminate; cbn; lia.
Qed.

Lemma set_gpio3_run (f : Z) (b : Bus.t) :
  0 <= set_field 2 0 (reg b 0x95) (Z.land f 0x03) < 256 /\
  AXP192.__set_gpio_function 3 f b =
  (inr tt,
   after_write x95 (byte_wrap (set_field 2 0 (reg b 0x95) (Z.land f 0x03)))
     (after_read x95 1 b)).
Proof.
  pose proof (land_low_range f 2 ltac:(lia)) as Hf.
  change (Z.ones 2) with 3 in Hf. change (2 ^ 2) with 4 in Hf.
  assert (Hnew : 0 <= set_field 2 0 (reg b 0x95) (Z.land f 0x03) < 256).
  { unfold set_field. apply lor_range; [apply land_range, byte_to_Z_range |].
    rewrite Z.shiftl_0_r. lia. }
  split; [exact Hnew |].
  unfold AXP192.__set_gpio_function. cbn [Z.eqb Pos.eqb].
  run_with (read8_run 0x95 x95 b eq_refl).
  exact (write8_run 0x95 _ x95 _ (after_read x95 1 b) eq_refl
           (proj1 (byte_of_Z_small _ Hnew))).
Qed.

Lemma set_gpio4_run (f : Z) (b : Bus.t) :
  0 <= set_field 2 2 (reg b 0x95) (Z.land f 0x03) < 256 /\
  AXP192.__set_gpio_function 4 f b =
  (inr tt,
   after_write x95 (byte_wrap (set_field 2 2 (reg b 0x95) (Z.land f 0x03)))
     (after_read x95 1 b)).
Proof.
  pose proof (land_low_range f 2 ltac:(lia)) as Hf.
  change (Z.ones 2) with 3 in Hf. change (2 ^ 2) with 4 in Hf.
  assert (Hnew : 0 <= set_field 2 2 (reg b 0x95) (Z.land f 0x03) < 256).
  { unfold set_field. apply lor_range; [apply land_range, byte_to_Z_range |].
    rewrite Z.shiftl_mul_pow2 by lia. change (2 ^ 2) with 4. lia. }
  split; [exact Hnew |].
  unfold AXP192.__set_gpio_function. cbn [Z.eqb Pos.eqb].
  run_with (read8_run 0x95 x95 b eq_refl).
  exact (write8_run 0x95 _ x95 _ (after_read x95 1 b) eq_refl
           (proj1 (byte_of_Z_small _ Hnew))).
Qed.

Lemma land3_fits (f : Z) : Z.land (Z.land f 0x03) (Z.ones 2) = Z.land f 0x03.
Proof.
  change (Z.ones 2) with 3. rewrite <- Z.land_assoc, Z.land_diag. reflexivity.
Qed.

(** C3. From every register state and for every requested voltage, writing
    the LDO2 setpoint succeeds and keeps bits 0-3 of register 0x28 (the LDO3
    code), and writing the LDO3 setpoint succeeds and keeps bits 4-7 (the
    LDO2 code).  For every function code, setting the GPIO3 function succeeds,
    stores the code's low two bits in bits 0-1 of register 0x95 and keeps
    bits 2-3 (the GPIO4 field); setting the GPIO4 function stores them in
    bits 2-3 and keeps bits 0-1 (the GPIO3 field). *)
Theorem field_isolation (b : Bus.t) (v : Q) (f : Z) :
  (exists b',
      setRail LDO2 v b = (inr tt, b') /\
      Z.land (reg b' 0x28) 0x0F = Z.land (reg b 0x28) 0x0F) /\
  (exists b',
      setRail LDO3 v b = (inr tt, b') /\
      Z.land (Z.shiftr (reg b' 0x28) 4) 0x0F = Z.land (Z.shiftr (reg b 0x28) 4) 0x0F) /\
  (exists b',
      AXP192.__set_gpio_function 3 f b = (inr tt, b') /\
      Z.land (Z.shiftr (reg b' 0x95) 2) 0x03 = Z.land (Z.shiftr (reg b 0x95) 2) 0x03 /\
      Z.land (reg b' 0x95) 0x03 = Z.land f 0x03) /\
  (exists b',
      AXP192.__set_gpio_function 4 f b = (inr tt, b') /\
      Z.land (reg b' 0x95) 0x03 = Z.land (reg b 0x95) 0x03 /\
      Z.land (Z.shiftr (reg b' 0x95) 2) 0x03 = Z.land f 0x03).
Proof.
  split; [| split; [| split]].
  - destruct (ldo_sibling_kept LDO2 v b 4 0 eq_refl) as (b' & Hrun & Hkept);
      [lia | lia | left; cbn; lia |].
    exists b'. split; [exact Hrun | exact Hkept].
  - destruct (ldo_sibling_kept LDO3 v b 4 4 eq_refl) as (b' & Hrun & Hkept);
      [lia | lia | right; cbn; lia |].
    exists b'. split; [exact Hrun | exact Hkept].
  - destruct (set_gpio3_run f b) as [Hnew Hrun].
    eexists. split; [exact Hrun |].
    rewrite (reg_after_write_at 0x95 x95 _ _ eq_refl eq_refl).
    rewrite (proj2 (byte_of_Z_small _ Hnew)). split.
    + apply (get_set_field_other 2 0 ltac:(lia) ltac:(lia) 2 2); try lia.
      apply land3_fits.
    + apply (get_set_field 2 0 ltac:(lia) ltac:(lia)), land3_fits.
  - destruct (set_gpio4_run f b) as [Hnew Hrun].
    eexists. split; [exact Hrun |].
    rewrite (reg_after_write_at 0x95 x95 _ _ eq_refl eq_refl).
    rewrite (proj2 (byte_of_Z_small _ Hnew)). split.
    + apply (get_set_field_other 2 2 ltac:(lia) ltac:(lia) 2 0); try lia.
      apply land3_fits.
    + apply (get_set_field 2 2 ltac:(lia) ltac:(lia)), land3_fits.
Qed.

(** ** Battery level *)

Lemma vmin_bounds (b : Bus.t) : ((26 # 10) <= vmin_of b <= (33 # 10))%Q.
Proof.
  unfold vmin_of. pose proof (land_low_range (reg b 0x31) 3 ltac:(lia)) as H.
  change (Z.ones 3) with 7 in H. change (2 ^ 3) with 8 in H.
  set (c := Z.land (reg b 0x31) 7) in *.
  assert (H0 : (inject_Z 0 <= inject_Z c)%Q) by (rewrite <- Zle_Qle; lia).
  assert (H7 : (inject_Z c <= inject_Z 7)%Q) by (rewrite <- Zle_Qle; lia).
  change (inject_Z 0) with 0%Q in H0. change (inject_Z 7) with 7%Q in H7. lra.
Qed.

Lemma vmax_bounds (b : Bus.t) : ((41 # 10) <= vmax_of b <= (436 # 100))%Q.
Proof.
  unfold vmax_of. cbv zeta.
  destruct (_ =? 0); [lra |]. destruct (_ =? 1); [lra |]. destruct (_ =? 2); lra.
Qed.

Lemma clamp_bounds (x : Q) : (0 <= Py.min 100 (Py.max 0 x) <= 100)%Q.
Proof.
  unfold Py.min, Py.max, Py.Qlt_bool.
  destruct (Qle_bool x 0) eqn:H0; cbn [negb].
  - change (Qle_bool 100 0) with false. cbn [negb]. lra.
  - apply Qle_bool_false in H0.
    destruct (Qle_bool 100 x) eqn:H1; cbn [negb].
    + lra.
    + apply Qle_bool_false in H1. lra.
Qed.

Lemma clamp_cases (x : Q) :
  ((x <= 0 -> Py.min 100 (Py.max 0 x) == 0) /\
   (100 <= x -> Py.min 100 (Py.max 0 x) == 100) /\
   (0 <= x <= 100 -> Py.min 100 (Py.max 0 x) == x))%Q.
Proof.
  unfold Py.min, Py.max, Py.Qlt_bool.
  destruct (Qle_bool x 0) eqn:H0; cbn [negb].
  - change (Qle_bool 100 0) with false. cbn [negb].
    apply Qle_bool_iff in H0. repeat split; intros; lra.
  - apply Qle_bool_false in H0.
    destruct (Qle_bool 100 x) eqn:H1; cbn [negb].
    + apply Qle_bool_iff in H1. repeat split; intros; lra.
    + apply Qle_bool_false in H1. repeat split; intros; lra.
Qed.

Lemma battery_level_run (b : Bus.t) :
  AXP192.battery_level b =
  (inr (Py.min 100 (Py.max 0 (raw_level b))),
   after_read x33 1 (after_read x31 1 (after_read x7a 2 (after_read x78 2 b)))).
Proof.
  unfold AXP192.battery_level.
  assert (Hv : AXP192.battery_voltage b = (inr (bat_voltage_of b), after_read x78 2 b)).
  { unfold AXP192.battery_voltage. run_with (read12_run 0x78 x78 b eq_refl). reflexivity. }
  run_with Hv. set (b1 := after_read x78 2 b).
  assert (Hi : AXP192.battery_charge_current b1 =
               (inr (bat_current_of b), after_read x7a 2 b1)).
  { unfold AXP192.battery_charge_current.
    run_with (read12_run 0x7A x7a b1 eq_refl). reflexivity. }
  run_with Hi. set (b2 := after_read x7a 2 b1).
  assert (Hmin : AXP192.battery_switch_off_voltage b2 =
                 (inr (vmin_of b), after_read x31 1 b2)).
  { unfold AXP192.battery_switch_off_voltage.
    run_with (read8_run 0x31 x31 b2 eq_refl). reflexivity. }
  run_with Hmin. set (b3 := after_read x31 1 b2).
  assert (Hmax : AXP192.battery_charge_target_voltage b3 =
                 (inr (vmax_of b), after_read x33 1 b3)).
  { unfold AXP192.battery_charge_target_voltage, vmax_of.
    run_with (read8_run 0x33 x33 b3 eq_refl).
    change (reg b3 51) with (reg b 51).
    destruct (_ =? 0); [reflexivity |]. destruct (_ =? 1); [reflexivity |].
    destruct (_ =? 2); reflexivity. }
  run_with Hmax. unfold AXP192.truediv.
  assert (Hd : Qeq_bool (vmax_of b - vmin_of b) 0 = false).
  { pose proof (vmin_bounds b). pose proof (vmax_bounds b).
    destruct (Qeq_bool (vmax_of b - vmin_of b) 0) eqn:E; [| reflexivity].
    apply Qeq_bool_iff in E. lra. }
  unfold bind. rewrite Hd. reflexivity.
Qed.

(** C7. For every register state the battery level is computed without a
    division error (the charge target is always above the switch-off
    threshold), it is the clamped value of
    (v - vmin) / (vmax - vmin) * 100, less 10 when the charge current exceeds
    15 mA, and it lies in the closed interval from 0 to 100. *)
Theorem battery_level_bounded (b : Bus.t) :
  (vmin_of b < vmax_of b)%Q /\
  exists l b',
    AXP192.battery_level b = (inr l, b') /\
    l = Py.min 100 (Py.max 0 (raw_level b)) /\
    (0 <= l <= 100)%Q /\
    ((raw_level b <= 0 -> l == 0) /\
     (100 <= raw_level b -> l == 100) /\
     (0 <= raw_level b <= 100 -> l == raw_level b))%Q.
Proof.
  split.
  - pose proof (vmin_bounds b). pose proof (vmax_bounds b). lra.
  - eexists. eexists. split; [apply battery_level_run |].
    split; [reflexivity |]. split; [apply clamp_bounds | apply clamp_cases].
Qed.

(** ** Round trip of the rail setpoints *)

Lemma switches_off_false (r : rail) (v : Q) :
  (if is_dcdc r then (base r < v)%Q else (base r <= v)%Q) ->
  switches_off r v = false.
Proof.
  unfold switches_off, base. destruct (is_dcdc r); intros Hv.
  - destruct (Qle_bool (v - (7 # 10)) 0) eqn:E; [| reflexivity].
    apply Qle_bool_iff in E. lra.
  - destruct (Py.Qlt_bool (v - (18 # 10)) 0) eqn:E; [| reflexivity].
    apply Qlt_bool_true in E. lra.
Qed.

(** Round trip where it holds: for a DC-DC converter and a voltage strictly
    above 0.7 V, or a linear regulator and a voltage of at least 1.8 V, up to
    the top of the rail's range, the setter succeeds and the getter then
    returns a voltage [g] with g <= v < g + step. *)
Theorem rail_roundtrip (r : rail) (v : Q) (b : Bus.t) :
  (if is_dcdc r then (base r < v)%Q else (base r <= v)%Q) ->
  (v <= top r)%Q ->
  exists b' g,
    setRail r v b = (inr tt, b') /\
    fst (getRail r b') = inr g /\
    (g <= v < g + step r)%Q.
Proof.
  intros Hlo Hhi. pose proof (switches_off_false r v Hlo) as Hv.
  destruct (setRail_getRail r v b Hv) as (b' & Hrun & _ & _ & Hget).
  exists b', (rail_volts r (rail_code r v)).
  split; [exact Hrun |]. split; [exact Hget |].
  apply rail_volts_close; assumption.
Qed.

(** C1, at the failing input.  Setting a DC-DC converter to 0.7 V, the
    bottom of its range, clears the rail's enable bit; the getter then returns
    0, which is further than one 25 mV step from 0.7 V. *)
Theorem dcdc_base_voltage_switches_off (r : rail) (b : Bus.t) :
  is_dcdc r = true ->
  exists b',
    setRail r (7 # 10) b = (inr tt, b') /\
    enabled b' r = false /\
    fst (getRail r b') = inr 0%Q /\
    ~ (Qabs (0 - (7 # 10)) <= step r)%Q.
Proof.
  intros Hr.
  destruct (setRail_off_effect r (7 # 10) b) as (b' & Hrun & Hoff & _ & _ & _ & Hget).
  { unfold switches_off. rewrite Hr. reflexivity. }
  exists b'. split; [exact Hrun |]. split; [exact Hoff |]. split; [exact Hget |].
  unfold step. rewrite Hr. intros H. apply Qabs_Qle_condition in H. lra.
Qed.

(** ** Instances on concrete bus states *)

(** C1: DCDC1 set to 0.7 V on a bus whose registers are all ones. *)
Lemma dcdc_base_voltage_switches_off_witness :
  is_dcdc DCDC1 = true /\
  exists b',
    setRail DCDC1 (7 # 10) (bus_const xff) = (inr tt, b') /\
    enabled b' DCDC1 = false /\
    fst (getRail DCDC1 b') = inr 0%Q /\
    ~ (Qabs (0 - (7 # 10)) <= step DCDC1)%Q.
Proof.
  split; [reflexivity |].
  apply (dcdc_base_voltage_switches_off DCDC1 (bus_const xff)). reflexivity.
Defined.

(** The round trip at 3.3 V on DCDC3 and at 1.8 V on LDO2. *)
Lemma rail_roundtrip_witness :
  (exists b' g,
      setRail DCDC3 (33 # 10) (bus_const x00) = (inr tt, b') /\
      fst (getRail DCDC3 b') = inr g /\ (g <= 33 # 10 < g + step DCDC3)%Q) /\
  (exists b' g,
      setRail LDO2 (18 # 10) (bus_const x00) = (inr tt, b') /\
      fst (getRail LDO2 b') = inr g /\ (g <= 18 # 10 < g + step LDO2)%Q).
Proof.
  split.
  - apply (rail_roundtrip DCDC3 (33 # 10) (bus_const x00)); cbn; lra.
  - apply (rail_roundtrip LDO2 (18 # 10) (bus_const x00)); cbn; lra.
Defined.

(** C2: LDO2 with its enable bit clear and all code bits set reads 0 V. *)
Lemma disable_sentinel_witness :
  enabled (bus_of [(0x12, x00); (0x28, xff)]) LDO2 = false /\
  fst (getRail LDO2 (bus_of [(0x12, x00); (0x28, xff)])) = inr 0%Q.
Proof.
  split; [reflexivity |].
  apply (proj2 (disable_sentinel LDO2 (bus_of [(0x12, x00); (0x28, xff)]))).
  reflexivity.
Defined.

(** C4: the bytes (0x01, 0x23) at registers 0x56 and 0x57. *)
Lemma read_register12_assembly_witness :
  Bus.regs (bus_of [(0x56, x01); (0x57, x23)]) (byte_to_Z x56) = x01 /\
  Bus.regs (bus_of [(0x56, x01); (0x57, x23)]) (byte_to_Z x56 + 1) = x23 /\
  fst (AXP192._read_register12 (byte_to_Z x56)
         (bus_of [(0x56, x01); (0x57, x23)])) = inr 0x33.
Proof.
  split; [reflexivity |]. split; [reflexivity |].
  apply (proj2 (read_register12_assembly x56 (bus_of [(0x56, x01); (0x57, x23)])));
    reflexivity.
Defined.

(** C5: duty 128 is written to pin 1's duty register; duty 256 is refused. *)
Lemma pwm_duty_range_checked_witness :
  1 <= 1 <= 2 /\
  (0 <= 128 <= 255 /\
   exists b',
     AXP192._set_gpio_pwm_out 1 (Py.Int 128) (bus_const x00) = (inr tt, b') /\
     reg b' (duty_register 1) = 128) /\
  (~ 0 <= 256 <= 255 /\
   AXP192._set_gpio_pwm_out 1 (Py.Int 256) (bus_const x00) =
     (inl (Py.ValueError "Duty cycle out of range. Allowed range 0-255"),
      bus_const x00)).
Proof.
  split; [lia |]. split.
  - split; [lia |].
    destruct (proj2 (pwm_duty_range_checked 1 128 (bus_const x00) ltac:(lia))
                ltac:(lia)) as (b' & Hrun & _ & Hduty & _).
    exists b'. split; [exact Hrun | exact Hduty].
  - split; [lia |].
    apply (proj1 (pwm_duty_range_checked 1 256 (bus_const x00) ltac:(lia))). lia.
Defined.

(** C6: both latch bits set. *)
Lemma power_key_latch_witness :
  reg (bus_of [(0x46, x03)]) 0x46 = 3 /\
  exists b',
    AXP192.power_key_was_pressed (bus_of [(0x46, x03)]) = (inr (true, true), b') /\
    writes (Bus.log b') = [Bus.Write [x46; x03]] /\
    fst (AXP192.power_key_was_pressed b') = inr (false, false).
Proof.
  split; [reflexivity |].
  destruct (power_key_latch (bus_of [(0x46, x03)])) as (b' & Hrun & Hlog & Hset & _).
  destruct (Hset eq_refl) as (_ & _ & Hsecond).
  exists b'. split; [exact Hrun |]. split; [exact Hlog | exact Hsecond].
Defined.

(** C7: the battery sample, 3.9424 V with switch-off at 2.6 V and target 4.1 V. *)
Lemma battery_level_bounded_witness :
  (0 <= raw_level battery_sample <= 100)%Q /\
  exists l,
    fst (AXP192.battery_level battery_sample) = inr l /\
    (l == raw_level battery_sample)%Q.
Proof.
  assert (Hraw : (0 <= raw_level battery_sample <= 100)%Q)
    by (split; apply Qle_bool_iff; vm_compute; reflexivity).
  split; [exact Hraw |].
  destruct (battery_level_bounded battery_sample)
    as (_ & l & b' & Hrun & _ & _ & _ & _ & Hmid).
  exists l. split; [rewrite Hrun; reflexivity | exact (Hmid Hraw)].
Defined.

(** C9: pin 0 with stored function code 0x6. *)
Lemma gpio_floating_query_witness :
  0 <= 0 <= 2 /\
  function_code (bus_of [(0x90, x06)]) 0 = 6 /\
  fst (AXP192._is_gpio_floating 0 (bus_of [(0x90, x06)])) = inr true.
Proof.
  split; [lia |]. split; [reflexivity |].
  apply (proj1 (proj2 (gpio_floating_query 0 (bus_of [(0x90, x06)]) ltac:(lia)))).
  left. reflexivity.
Defined.

(** C10: pin 1 in low-output mode, and pin 2 in PWM mode with duty 0x80. *)
Lemma gpio_pwm_getter_witness :
  1 <= 1 <= 2 /\ 1 <= 2 <= 2 /\
  function_code (bus_of [(0x92, x05)]) 1 <> 0x02 /\
  fst (AXP192._get_gpio_pwm_out 1 (bus_of [(0x92, x05)])) =
    inl (Py.ValueError "GPIO1 doesn't PWM output mode") /\
  function_code (bus_of [(0x93, x02); (0x9D, x80)]) 2 = 0x02 /\
  fst (AXP192._get_gpio_pwm_out 2 (bus_of [(0x93, x02); (0x9D, x80)])) = inr 0x80.
Proof.
  split; [lia |]. split; [lia |].
  split; [discriminate |]. split.
  - apply (proj1 (gpio_pwm_getter 1 (bus_of [(0x92, x05)]) ltac:(lia))). discriminate.
  - split; [reflexivity |].
    apply (proj1 (proj2 (gpio_pwm_getter 2 (bus_of [(0x93, x02); (0x9D, x80)])
                           ltac:(lia)))).
    reflexivity.
Defined.

(** * Further properties of the driver *)

(** ** Setting and clearing bits *)

Lemma byte_of_Z_None (z : Z) : ~ 0 <= z < 256 -> byte_of_Z z = None.
Proof.
  intros Hz. unfold byte_of_Z. destruct (Z.ltb_spec z 0) as [_ | H0]; [reflexivity |].
  apply Byte.of_N_None_iff. lia.
Qed.

Lemma lor_byte_inv (x m : Z) : 0 <= x < 256 -> 0 <= Z.lor x m < 256 -> 0 <= m < 256.
Proof.
  intros Hx Hl. apply range_of_bits.
  - destruct Hl as [Hl _]. apply Z.lor_nonneg in Hl. lia.
  - intros n Hn. pose proof (testbit_high _ n Hl Hn) as Hb.
    rewrite Z.lor_spec in Hb. apply orb_false_iff in Hb. apply Hb.
Qed.

Lemma set_bit_effect (r m : Z) (a : byte) (b : Bus.t) :
  byte_of_Z r = Some a -> Bus.latch r = false -> 0 <= m < 256 ->
  exists b',
    AXP192._set_bit_in_register r m b = (inr tt, b') /\
    reg b' r = Z.lor (reg b r) m /\
    (forall r', r' <> r -> reg b' r' = reg b r') /\
    writes (Bus.log b') =
      writes (Bus.log b) ++ [Bus.Write [a; byte_wrap (Z.lor (reg b r) m)]].
Proof.
  intros Ha Hl Hm. eexists. split; [apply (set_bit_run r m a b Ha Hm) |].
  split; [| split].
  - rewrite (reg_after_write_at r a _ _ Ha Hl).
    apply byte_of_Z_small, lor_range; [apply byte_to_Z_range | exact Hm].
  - intros r' Hr'. rewrite reg_after_write_other; [reflexivity |].
    rewrite (byte_of_Z_inv _ _ Ha). exact Hr'.
  - rewrite writes_after_write, writes_after_read. reflexivity.
Qed.

Lemma clear_bit_effect (r m : Z) (a : byte) (b : Bus.t) :
  byte_of_Z r = Some a -> Bus.latch r = false ->
  exists b',
    AXP192._clear_bit_in_register r m b = (inr tt, b') /\
    reg b' r = Z.land (reg b r) (Z.lnot m) /\
    (forall r', r' <> r -> reg b' r' = reg b r') /\
    writes (Bus.log b') =
      writes (Bus.log b) ++ [Bus.Write [a; byte_wrap (Z.land (reg b r) (Z.lnot m))]].
Proof.
  intros Ha Hl. eexists. split; [apply (clear_bit_run r m a b Ha) |].
  split; [| split].
  - rewrite (reg_after_write_at r a _ _ Ha Hl).
    apply byte_of_Z_small, land_range, byte_to_Z_range.
  - intros r' Hr'. rewrite reg_after_write_other; [reflexivity |].
    rewrite (byte_of_Z_inv _ _ Ha). exact Hr'.
  - rewrite writes_after_write, writes_after_read. reflexivity.
Qed.

Lemma lor_keeps_others (x m : Z) : Z.land (Z.lor x m) (Z.lnot m) = Z.land x (Z.lnot m).
Proof.
  apply Z.bits_inj'. intros n Hn.
  rewrite !Z.land_spec, Z.lor_spec, Z.lnot_spec by exact Hn.
  destruct (Z.testbit x n), (Z.testbit m n); reflexivity.
Qed.

Lemma clear_keeps_others (x m : Z) :
  Z.land (Z.land x (Z.lnot m)) (Z.lnot m) = Z.land x (Z.lnot m).
Proof. rewrite <- Z.land_assoc, Z.land_diag. reflexivity. Qed.

(** X1. On an ordinary register, setting bits with a mask that is a byte
    succeeds with one write: the masked bits become 1, every other bit of the
    register and every other register keep their value.  With a mask that is
    not a byte (negative, or above 255) the call raises ValueError after its
    read, and nothing is written. *)
Theorem set_bit_in_register_spec (a : byte) (m : Z) (b : Bus.t) :
  Bus.latch (byte_to_Z a) = false ->
  (0 <= m < 256 ->
   exists b',
     AXP192._set_bit_in_register (byte_to_Z a) m b = (inr tt, b') /\
     Z.land (reg b' (byte_to_Z a)) m = m /\
     Z.land (reg b' (byte_to_Z a)) (Z.lnot m) =
       Z.land (reg b (byte_to_Z a)) (Z.lnot m) /\
     (forall r, r <> byte_to_Z a -> reg b' r = reg b r) /\
     writes (Bus.log b') =
       writes (Bus.log b) ++
       [Bus.Write [a; byte_wrap (Z.lor (reg b (byte_to_Z a)) m)]]) /\
  (~ 0 <= m < 256 ->
   exists b',
     AXP192._set_bit_in_register (byte_to_Z a) m b =
       (inl (Py.ValueError "byte must be in range(0, 256)"), b') /\
     Bus.regs b' = Bus.regs b /\
     writes (Bus.log b') = writes (Bus.log b)).
Proof.
  intros Hl. split.
  - intros Hm.
    destruct (set_bit_effect _ m a b (byte_of_to_Z a) Hl Hm)
      as (b' & Hrun & Hreg & Hframe & Hlog).
    exists b'. split; [exact Hrun |]. rewrite Hreg.
    split; [apply land_lor_same |]. split; [apply lor_keeps_others |].
    split; [exact Hframe | exact Hlog].
  - intros Hm. exists (after_read a 1 b).
    split; [| split; [reflexivity | apply writes_after_read]].
    unfold AXP192._set_bit_in_register.
    run_with (read8_run _ a b (byte_of_to_Z a)).
    unfold AXP192._write_register8, bytearray_item, bind.
    rewrite byte_of_to_Z, byte_of_Z_None; [reflexivity |].
    intros Hrange. apply Hm.
    apply (lor_byte_inv (reg b (byte_to_Z a))); [apply byte_to_Z_range | exact Hrange].
Qed.

(** X2. On an ordinary register, clearing bits succeeds for every integer
    mask, also one that is not a byte: the masked bits become 0, every other
    bit of the register and every other register keep their value, and one
    write is sent. *)
Theorem clear_bit_in_register_spec (a : byte) (m : Z) (b : Bus.t) :
  Bus.latch (byte_to_Z a) = false ->
  exists b',
    AXP192._clear_bit_in_register (byte_to_Z a) m b = (inr tt, b') /\
    Z.land (reg b' (byte_to_Z a)) m = 0 /\
    Z.land (reg b' (byte_to_Z a)) (Z.lnot m) =
      Z.land (reg b (byte_to_Z a)) (Z.lnot m) /\
    (forall r, r <> byte_to_Z a -> reg b' r = reg b r) /\
    writes (Bus.log b') =
      writes (Bus.log b) ++
      [Bus.Write [a; byte_wrap (Z.land (reg b (byte_to_Z a)) (Z.lnot m))]].
Proof.
  intros Hl.
  destruct (clear_bit_effect _ m a b (byte_of_to_Z a) Hl)
    as (b' & Hrun & Hreg & Hframe & Hlog).
  exists b'. split; [exact Hrun |]. rewrite Hreg.
  split; [apply land_clear_same |]. split; [apply clear_keeps_others |].
  split; [exact Hframe | exact Hlog].
Qed.

(** ** Getters never write *)

Lemma read_only_ret {A : Type} (a : A) : read_only (ret a).
Proof. intros b. exists a, b. repeat split. Qed.

Lemma read_only_bind {A B : Type} (m : M A) (k : A -> M B) :
  read_only m -> (forall a, read_only (k a)) -> read_only (bind m k).
Proof.
  intros Hm Hk b. destruct (Hm b) as (a & b1 & Hrun & Hregs & Hlog).
  destruct (Hk a b1) as (c & b2 & Hrun2 & Hregs2 & Hlog2).
  exists c, b2. split; [rewrite (bind_run _ _ _ _ _ Hrun); exact Hrun2 |].
  split; congruence.
Qed.

Lemma read24_run (r : Z) (a : byte) (b : Bus.t) :
  byte_of_Z r = Some a ->
  AXP192._read_register24 r b =
  (inr (Z.lor (Z.lor (Z.shiftl (reg b r) 16) (Z.shiftl (reg b (r + 1)) 8))
              (reg b (r + 2))),
   after_read a 3 b).
Proof.
  intros Ha. unfold AXP192._read_register24, bytearray_item, bind.
  rewrite Ha. pose proof (byte_of_Z_inv _ _ Ha) as Hr. subst r.
  unfold after_read, item, reg, ret. cbn. rewrite Z.add_0_r. reflexivity.
Qed.

Lemma read_only_read8 (r : Z) (a : byte) :
  byte_of_Z r = Some a -> read_only (AXP192._read_register8 r).
Proof.
  intros Ha b. eexists. eexists. split; [apply (read8_run r a b Ha) |].
  split; [reflexivity | apply writes_after_read].
Qed.

Lemma read_only_read12 (r : Z) (a : byte) :
  byte_of_Z r = Some a -> read_only (AXP192._read_register12 r).
Proof.
  intros Ha b. eexists. eexists. split; [apply (read12_run r a b Ha) |].
  split; [reflexivity | apply writes_after_read].
Qed.

Lemma read_only_read24 (r : Z) (a : byte) :
  byte_of_Z r = Some a -> read_only (AXP192._read_register24 r).
Proof.
  intros Ha b. eexists. eexists. split; [apply (read24_run r a b Ha) |].
  split; [reflexivity | apply writes_after_read].
Qed.

Lemma read_only_getRail (r : rail) : read_only (getRail r).
Proof.
  intros b. destruct (enabled b r) eqn:Hen.
  - eexists. eexists. split; [apply getRail_on; exact Hen |].
    split; [reflexivity | rewrite !writes_after_read; reflexivity].
  - eexists. eexists. split; [apply getRail_off_run; exact Hen |].
    split; [reflexivity | apply writes_after_read].
Qed.

Ltac read_only_step :=
  first
    [ apply read_only_ret
    | eapply read_only_read8; reflexivity
    | eapply read_only_read12; reflexivity
    | eapply read_only_read24; reflexivity
    | apply read_only_bind; [| intros ?] ].

Ltac read_only_auto := repeat read_only_step.

(** X3. Every status and telemetry property of the driver, every rail
    setpoint getter, and the board class's speaker, power-source and boost
    getters always return a value, change no register and send no write
    transaction. *)
Theorem getters_are_read_only :
  read_only AXP192.is_acin_present /\
  read_only AXP192.acin_voltage /\
  read_only AXP192.acin_current /\
  read_only AXP192.is_vbus_present /\
  read_only AXP192.vbus_voltage /\
  read_only AXP192.vbus_current /\
  read_only AXP192.aps_voltage /\
  read_only AXP192.is_battery_connected /\
  read_only AXP192.is_battery_charging /\
  read_only AXP192.battery_charging_enabled /\
  read_only AXP192.battery_voltage /\
  read_only AXP192.battery_charge_current /\
  read_only AXP192.battery_discharge_current /\
  read_only AXP192.battery_ouput_power /\
  read_only AXP192.battery_level /\
  read_only AXP192.battery_switch_off_voltage /\
  read_only AXP192.battery_charge_target_voltage /\
  read_only AXP192.all_adc_enabled /\
  read_only AXP192.internal_temperature /\
  read_only AXP192._exten /\
  read_only AXP192._backup_battery_charging_enable /\
  (forall r, read_only (getRail r)) /\
  read_only PMIC.speaker_enabled /\
  read_only PMIC.power_supply_from_m_bus_enabled /\
  read_only PMIC.bus_5v_power_boost_enabled.
Proof.
  repeat match goal with |- _ /\ _ => split end;
    try (unfold AXP192.is_acin_present, AXP192.acin_voltage, AXP192.acin_current,
           AXP192.is_vbus_present, AXP192.vbus_voltage, AXP192.vbus_current,
           AXP192.aps_voltage, AXP192.is_battery_connected,
           AXP192.is_battery_charging, AXP192.battery_charging_enabled,
           AXP192.battery_voltage, AXP192.battery_charge_current,
           AXP192.battery_discharge_current, AXP192.battery_ouput_power,
           AXP192.battery_switch_off_voltage, AXP192.all_adc_enabled,
           AXP192.internal_temperature, AXP192._exten,
           AXP192._backup_battery_charging_enable,
           PMIC.bus_5v_power_boost_enabled, AXP192._exten;
         read_only_auto; fail).
  - intros b. eexists. eexists. split; [apply battery_level_run |].
    split; [reflexivity | rewrite !writes_after_read; reflexivity].
  - unfold AXP192.battery_charge_target_voltage.
    apply read_only_bind; [eapply read_only_read8; reflexivity | intros r].
    cbv zeta. destruct (_ =? 0); [apply read_only_ret |].
    destruct (_ =? 1); [apply read_only_ret |].
    destruct (_ =? 2); apply read_only_ret.
  - apply read_only_getRail.
Qed.

(** ** Multi-byte reads and telemetry ranges *)

Lemma testbit_small (y n m : Z) : 0 <= n -> 0 <= y < 2 ^ n -> n <= m -> Z.testbit y m = false.
Proof.
  intros Hn Hy Hm. rewrite <- (Z.mod_small y (2 ^ n)) by exact Hy.
  apply Z.mod_pow2_bits_high. lia.
Qed.

Lemma lor_shiftl_add (x y n : Z) :
  0 <= n -> 0 <= y < 2 ^ n -> Z.lor (Z.shiftl x n) y = x * 2 ^ n + y.
Proof.
  intros Hn Hy.
  assert (Hdisj : Z.land (Z.shiftl x n) y = 0).
  { apply Z.bits_inj'. intros m Hm. rewrite Z.land_spec, Z.bits_0.
    destruct (Z.lt_ge_cases m n) as [Hlt | Hge].
    - rewrite Z.shiftl_spec_low by exact Hlt. reflexivity.
    - rewrite (testbit_small y n m Hn Hy Hge). apply andb_false_r. }
  pose proof (Z.add_lor_land (Z.shiftl x n) y) as Hadd.
  rewrite Hdisj in Hadd. rewrite <- (Z.shiftl_mul_pow2 x n) by exact Hn. lia.
Qed.

Lemma lor_le_add (x y : Z) : 0 <= x -> 0 <= y -> Z.lor x y <= x + y.
Proof.
  intros Hx Hy. pose proof (Z.add_lor_land x y) as Hadd.
  assert (0 <= Z.land x y) by (apply Z.land_nonneg; lia). lia.
Qed.

Lemma lor_width (n x y : Z) :
  0 <= n -> 0 <= x < 2 ^ n -> 0 <= y < 2 ^ n -> 0 <= Z.lor x y < 2 ^ n.
Proof.
  intros Hn Hx Hy.
  assert (H0 : 0 <= Z.lor x y) by (apply Z.lor_nonneg; lia).
  split; [exact H0 |].
  replace (Z.lor x y) with (Z.lor x y mod 2 ^ n).
  - apply Z.mod_pos_bound, Z.pow_pos_nonneg; lia.
  - apply Z.bits_inj'. intros m Hm.
    destruct (Z.lt_ge_cases m n) as [Hlt | Hge].
    + apply Z.mod_pow2_bits_low. lia.
    + rewrite Z.mod_pow2_bits_high by lia.
      rewrite Z.lor_spec, (testbit_small x n m), (testbit_small y n m) by assumption.
      reflexivity.
Qed.

Lemma code12_range (b : Bus.t) (r : Z) : 0 <= code12 b r < 4096.
Proof.
  unfold code12. pose proof (byte_to_Z_range (Bus.regs b r)) as H0.
  pose proof (byte_to_Z_range (Bus.regs b (r + 1))) as H1.
  fold (reg b r) in H0. fold (reg b (r + 1)) in H1.
  apply (lor_width 12); [lia | | change (2 ^ 12) with 4096; lia].
  rewrite Z.shiftl_mul_pow2 by lia. change (2 ^ 4) with 16.
  change (2 ^ 12) with 4096. lia.
Qed.

(** X4. A 12-bit read returns a code between 0 and 4095 that is at most
    16 * byte0 + byte1, and equal to it when the second byte is below 16 (its
    upper nibble clear); a 24-bit read returns exactly
    65536 * byte0 + 256 * byte1 + byte2. *)
Theorem multi_byte_read_value (a : byte) (b : Bus.t) :
  let byte0 := reg b (byte_to_Z a) in
  let byte1 := reg b (byte_to_Z a + 1) in
  let byte2 := reg b (byte_to_Z a + 2) in
  (exists code b',
      AXP192._read_register12 (byte_to_Z a) b = (inr code, b') /\
      0 <= code < 4096 /\
      code <= 16 * byte0 + byte1 /\
      (byte1 < 16 -> code = 16 * byte0 + byte1)) /\
  (exists code b',
      AXP192._read_register24 (byte_to_Z a) b = (inr code, b') /\
      code = 65536 * byte0 + 256 * byte1 + byte2).
Proof.
  intros byte0 byte1 byte2.
  pose proof (byte_to_Z_range (Bus.regs b (byte_to_Z a))) as H0.
  pose proof (byte_to_Z_range (Bus.regs b (byte_to_Z a + 1))) as H1.
  pose proof (byte_to_Z_range (Bus.regs b (byte_to_Z a + 2))) as H2.
  fold (reg b (byte_to_Z a)) in H0. fold (reg b (byte_to_Z a + 1)) in H1.
  fold (reg b (byte_to_Z a + 2)) in H2. fold byte0 in H0. fold byte1 in H1.
  fold byte2 in H2.
  split.
  - eexists. eexists. split; [apply (read12_run _ a b (byte_of_to_Z a)) |].
    fold byte0 byte1. split; [apply code12_range |]. split.
    + etransitivity; [apply lor_le_add; [apply Z.shiftl_nonneg |]; lia |].
      rewrite Z.shiftl_mul_pow2 by lia. change (2 ^ 4) with 16. lia.
    + intros Hlow. rewrite lor_shiftl_add by (change (2 ^ 4) with 16; lia).
      change (2 ^ 4) with 16. lia.
  - eexists. eexists. split; [apply (read24_run _ a b (byte_of_to_Z a)) |].
    fold byte0 byte1 byte2.
    replace (Z.lor (Z.shiftl byte0 16) (Z.shiftl byte1 8))
      with (Z.shiftl (Z.lor (Z.shiftl byte0 8) byte1) 8).
    + rewrite (lor_shiftl_add _ byte2 8) by (change (2 ^ 8) with 256; lia).
      rewrite (lor_shiftl_add byte0 byte1 8) by (change (2 ^ 8) with 256; lia).
      change (2 ^ 8) with 256. lia.
    + rewrite Z.shiftl_lor, Z.shiftl_shiftl by lia. reflexivity.
Qed.

Lemma code24_range (b : Bus.t) (r : Z) :
  0 <= Z.lor (Z.lor (Z.shiftl (reg b r) 16) (Z.shiftl (reg b (r + 1)) 8)) (reg b (r + 2))
    < 16777216.
Proof.
  pose proof (byte_to_Z_range (Bus.regs b r)) as H0.
  pose proof (byte_to_Z_range (Bus.regs b (r + 1))) as H1.
  pose proof (byte_to_Z_range (Bus.regs b (r + 2))) as H2.
  fold (reg b r) in H0. fold (reg b (r + 1)) in H1. fold (reg b (r + 2)) in H2.
  change 16777216 with (2 ^ 24).
  apply (lor_width 24); [lia | apply (lor_width 24); [lia | |] |].
  - rewrite Z.shiftl_mul_pow2 by lia. change (2 ^ 16) with 65536.
    change (2 ^ 24) with 16777216. lia.
  - rewrite Z.shiftl_mul_pow2 by lia. change (2 ^ 8) with 256.
    change (2 ^ 24) with 16777216. lia.
  - change (2 ^ 24) with 16777216. lia.
Qed.

Lemma inject_Z_range (z lo hi : Z) :
  lo <= z <= hi -> (inject_Z lo <= inject_Z z <= inject_Z hi)%Q.
Proof. intros H. rewrite <- !Zle_Qle. exact H. Qed.

Lemma telemetry12_range (r : Z) (a : byte) (f : Z -> Q) (lo hi : Q) :
  byte_of_Z r = Some a ->
  (forall c, (0 <= inject_Z c)%Q -> (inject_Z c <= 4095)%Q -> (lo <= f c <= hi)%Q) ->
  returns_within (code <- AXP192._read_register12 r ;; ret (f code)) lo hi.
Proof.
  intros Ha Hf b. eexists. eexists. split.
  - run_with (read12_run r a b Ha). reflexivity.
  - pose proof (code12_range b r) as Hc.
    destruct (inject_Z_range (code12 b r) 0 4095 ltac:(lia)) as [Hlo Hhi].
    apply Hf; assumption.
Qed.

(** X5. Whatever the registers hold, the telemetry properties return values
    inside fixed ranges: ACIN and VBUS voltage 0 to 6.9615 V, ACIN current 0
    to 2559.375 mA, VBUS current 0 to 1535.625 mA, APS voltage 0 to 5.733 V,
    battery voltage 0 to 4.5045 V, battery charge and discharge current 0 to
    2047.5 mA, battery power 0 to 9227.46825 mW, and internal temperature
    -144.7 to 264.8 degrees Celsius. *)
Theorem telemetry_ranges :
  returns_within AXP192.acin_voltage 0 (69615 # 10000) /\
  returns_within AXP192.vbus_voltage 0 (69615 # 10000) /\
  returns_within AXP192.acin_current 0 (2559375 # 1000) /\
  returns_within AXP192.vbus_current 0 (1535625 # 1000) /\
  returns_within AXP192.aps_voltage 0 (5733 # 1000) /\
  returns_within AXP192.battery_voltage 0 (45045 # 10000) /\
  returns_within AXP192.battery_charge_current 0 (20475 # 10) /\
  returns_within AXP192.battery_discharge_current 0 (20475 # 10) /\
  returns_within AXP192.battery_ouput_power 0 (922746825 # 100000) /\
  returns_within AXP192.internal_temperature (- (1447 # 10)) (2648 # 10).
Proof.
  repeat match goal with |- _ /\ _ => split end.
  - apply (telemetry12_range 0x56 x56 (fun c => (17 # 10) * inject_Z c / 1000)%Q _ _ eq_refl).
    intros c Hlo Hhi. rewrite Qdiv_1000. lra.
  - apply (telemetry12_range 0x5A x5a (fun c => (17 # 10) * inject_Z c / 1000)%Q _ _ eq_refl).
    intros c Hlo Hhi. rewrite Qdiv_1000. lra.
  - apply (telemetry12_range 0x58 x58 (fun c => (625 # 1000) * inject_Z c)%Q _ _ eq_refl).
    intros c Hlo Hhi. lra.
  - apply (telemetry12_range 0x5C x5c (fun c => (375 # 1000) * inject_Z c)%Q _ _ eq_refl).
    intros c Hlo Hhi. lra.
  - apply (telemetry12_range 0x7E x7e (fun c => (14 # 10) * inject_Z c / 1000)%Q _ _ eq_refl).
    intros c Hlo Hhi. rewrite Qdiv_1000. lra.
  - apply (telemetry12_range 0x78 x78 (fun c => (11 # 10000) * inject_Z c)%Q _ _ eq_refl).
    intros c Hlo Hhi. lra.
  - apply (telemetry12_range 0x7A x7a (fun c => (5 # 10) * inject_Z c)%Q _ _ eq_refl).
    intros c Hlo Hhi. lra.
  - apply (telemetry12_range 0x7C x7c (fun c => (5 # 10) * inject_Z c)%Q _ _ eq_refl).
    intros c Hlo Hhi. lra.
  - intros b. eexists. eexists. split.
    + unfold AXP192.battery_ouput_power.
      run_with (read24_run 0x70 x70 b eq_refl). reflexivity.
    + pose proof (code24_range b 0x70) as Hc.
      match type of Hc with
      | 0 <= ?c < _ =>
          destruct (inject_Z_range c 0 16777215 ltac:(lia)) as [Hlo Hhi]
      end.
      change (inject_Z 0) with 0%Q in Hlo.
      change (inject_Z 16777215) with 16777215%Q in Hhi.
      rewrite Qdiv_1000. lra.
  - apply (telemetry12_range 0x5E x5e (fun c => - (1447 # 10) + (1 # 10) * inject_Z c)%Q
             _ _ eq_refl).
    intros c Hlo Hhi. lra.
Qed.

(** ** Single-bit controls *)

Lemma same_outside (x x' m k : Z) :
  Z.land x' (Z.lnot m) = Z.land x (Z.lnot m) ->
  Z.land m k = 0 ->
  Z.land x' k = Z.land x k.
Proof.
  intros Hout Hdisj. apply Z.bits_inj'. intros n Hn.
  assert (Hx : Z.testbit (Z.land x' (Z.lnot m)) n = Z.testbit (Z.land x (Z.lnot m)) n)
    by (rewrite Hout; reflexivity).
  assert (Hm : Z.testbit (Z.land m k) n = false) by (rewrite Hdisj; apply Z.bits_0).
  rewrite !Z.land_spec, Z.lnot_spec in Hx by exact Hn.
  rewrite Z.land_spec in Hm. rewrite !Z.land_spec.
  destruct (Z.testbit k n); [| rewrite !andb_false_r; reflexivity].
  rewrite andb_true_r in Hm. rewrite Hm in Hx. cbn in Hx.
  rewrite !andb_true_r in *. exact Hx.
Qed.

Lemma bit_after_set (x m : Z) : m <> 0 -> negb (Z.land (Z.lor x m) m =? 0) = true.
Proof.
  intros Hm. rewrite land_lor_same. apply negb_true_iff, Z.eqb_neq, Hm.
Qed.

Lemma bit_after_clear (x m : Z) : negb (Z.land (Z.land x (Z.lnot m)) m =? 0) = false.
Proof. rewrite land_clear_same. reflexivity. Qed.

(** The effect of switching one bit of an ordinary register on or off, as
    the boolean setters do. *)
Lemma switch_bit_effect (r m : Z) (a : byte) (value : bool) (b : Bus.t) :
  byte_of_Z r = Some a -> Bus.latch r = false -> 0 < m < 256 ->
  exists b',
    (if value then AXP192._set_bit_in_register r m
     else AXP192._clear_bit_in_register r m) b = (inr tt, b') /\
    negb (Z.land (reg b' r) m =? 0) = value /\
    Z.land (reg b' r) (Z.lnot m) = Z.land (reg b r) (Z.lnot m) /\
    (forall r', r' <> r -> reg b' r' = reg b r').
Proof.
  intros Ha Hl Hm. destruct value.
  - destruct (set_bit_effect r m a b Ha Hl ltac:(lia)) as (b' & Hrun & Hreg & Hframe & _).
    exists b'. split; [exact Hrun |]. rewrite Hreg.
    split; [apply bit_after_set; lia |]. split; [apply lor_keeps_others | exact Hframe].
  - destruct (clear_bit_effect r m a b Ha Hl) as (b' & Hrun & Hreg & Hframe & _).
    exists b'. split; [exact Hrun |]. rewrite Hreg.
    split; [apply bit_after_clear |]. split; [apply clear_keeps_others | exact Hframe].
Qed.

Lemma charge_target_run (b : Bus.t) :
  AXP192.battery_charge_target_voltage b = (inr (vmax_of b), after_read x33 1 b).
Proof.
  unfold AXP192.battery_charge_target_voltage, vmax_of.
  run_with (read8_run 0x33 x33 b eq_refl).
  destruct (_ =? 0); [reflexivity |]. destruct (_ =? 1); [reflexivity |].
  destruct (_ =? 2); reflexivity.
Qed.

Lemma bit_getter_run (r m : Z) (a : byte) (b : Bus.t) :
  byte_of_Z r = Some a ->
  (reg_val <- AXP192._read_register8 r ;; ret (negb (Z.land reg_val m =? 0))) b =
  (inr (negb (Z.land (reg b r) m =? 0)), after_read a 1 b).
Proof. intros Ha. run_with (read8_run r a b Ha). reflexivity. Qed.

(** X6. Switching battery charging on or off with a boolean succeeds, the
    getter then returns the value set, the other seven bits of register 0x33
    and all other registers keep their value, and so the charge target voltage
    reads as before.  An argument that is not a boolean, an integer included,
    is refused with ValueError before any bus transaction. *)
Theorem battery_charging_enabled_roundtrip (enabled : bool) (b : Bus.t) :
  (exists b',
      AXP192.battery_charging_enabled_setter (Py.Bool enabled) b = (inr tt, b') /\
      fst (AXP192.battery_charging_enabled b') = inr enabled /\
      Z.land (reg b' 0x33) 0x7F = Z.land (reg b 0x33) 0x7F /\
      (forall r, r <> 0x33 -> reg b' r = reg b r) /\
      fst (AXP192.battery_charge_target_voltage b') =
        fst (AXP192.battery_charge_target_voltage b)) /\
  (forall n, rejects (AXP192.battery_charging_enabled_setter (Py.Num n))
               (Py.ValueError "Enabled must be a boolean")) /\
  (forall t, rejects (AXP192.battery_charging_enabled_setter (Py.Other t))
               (Py.ValueError "Enabled must be a boolean")).
Proof.
  split; [| split; intros ? ?; reflexivity].
  destruct (switch_bit_effect 0x33 0x80 x33 enabled b eq_refl eq_refl ltac:(lia))
    as (b' & Hrun & Hbit & Hkeep & Hframe).
  exists b'. split; [destruct enabled; exact Hrun |].
  split; [| split; [| split]].
  - rewrite (bit_getter_run 0x33 0x80 x33 b' eq_refl
              : AXP192.battery_charging_enabled b' = _).
    cbn [fst]. rewrite Hbit. reflexivity.
  - exact (same_outside _ _ 0x80 0x7F Hkeep eq_refl).
  - exact Hframe.
  - rewrite !charge_target_run. cbn [fst]. unfold vmax_of.
    rewrite (same_outside _ _ 0x80 0x60 Hkeep eq_refl). reflexivity.
Qed.

(** X7. Switching backup-battery charging on or off with a boolean succeeds,
    the getter then returns the value set, and the other bits of register 0x35
    and all other registers keep their value; an argument that is not a
    boolean is refused with ValueError before any bus transaction. *)
Theorem backup_battery_charging_roundtrip (value : bool) (b : Bus.t) :
  (exists b',
      AXP192._backup_battery_charging_enable_setter (Py.Bool value) b = (inr tt, b') /\
      fst (AXP192._backup_battery_charging_enable b') = inr value /\
      Z.land (reg b' 0x35) 0x7F = Z.land (reg b 0x35) 0x7F /\
      (forall r, r <> 0x35 -> reg b' r = reg b r)) /\
  (forall n, rejects (AXP192._backup_battery_charging_enable_setter (Py.Num n))
               (Py.ValueError "value must be a boolean True or False")) /\
  (forall t, rejects (AXP192._backup_battery_charging_enable_setter (Py.Other t))
               (Py.ValueError "value must be a boolean True or False")).
Proof.
  split; [| split; intros ? ?; reflexivity].
  destruct (switch_bit_effect 0x35 0x80 x35 value b eq_refl eq_refl ltac:(lia))
    as (b' & Hrun & Hbit & Hkeep & Hframe).
  exists b'. split; [destruct value; exact Hrun |].
  split; [| split].
  - rewrite (bit_getter_run 0x35 0x80 x35 b' eq_refl
              : AXP192._backup_battery_charging_enable b' = _).
    cbn [fst]. rewrite Hbit. reflexivity.
  - exact (same_outside _ _ 0x80 0x7F Hkeep eq_refl).
  - exact Hframe.
Qed.

(** X8. Setting [all_adc_enabled] overwrites register 0x82 with 0xFF for a
    true argument and 0x00 for a false one, whatever it held, and the getter
    then returns the argument's truth value; the getter is True only when all
    eight bits are set. *)
Theorem all_adc_enabled_roundtrip (enable : Py.obj) (b : Bus.t) :
  (exists b',
      AXP192.all_adc_enabled_setter enable b = (inr tt, b') /\
      reg b' 0x82 = (if Py.truth enable then 0xFF else 0x00) /\
      (forall r, r <> 0x82 -> reg b' r = reg b r) /\
      fst (AXP192.all_adc_enabled b') = inr (Py.truth enable)) /\
  fst (AXP192.all_adc_enabled b) = inr (reg b 0x82 =? 0xFF).
Proof.
  assert (Hget : forall b0, fst (AXP192.all_adc_enabled b0) = inr (reg b0 0x82 =? 0xFF)).
  { intros b0. unfold AXP192.all_adc_enabled.
    run_with (read8_run 0x82 x82 b0 eq_refl). reflexivity. }
  split; [| apply Hget].
  exists (after_write x82 (if Py.truth enable then xff else x00) b).
  assert (Hreg : reg (after_write x82 (if Py.truth enable then xff else x00) b) 0x82 =
                 (if Py.truth enable then 0xFF else 0x00))
    by (rewrite (reg_after_write_at 0x82 x82 _ _ eq_refl eq_refl);
        destruct (Py.truth enable); reflexivity).
  split; [| split; [exact Hreg | split]].
  - unfold AXP192.all_adc_enabled_setter. destruct (Py.truth enable); reflexivity.
  - intros r Hr. apply reg_after_write_other. exact Hr.
  - rewrite Hget, Hreg. destruct (Py.truth enable); reflexivity.
Qed.

(** X9. Powering off succeeds with one write that sets bit 7 of register
    0x32 and keeps its other seven bits (the charge LED control) and every
    other register. *)
Theorem power_off_sets_bit7 (b : Bus.t) :
  exists b',
    AXP192.power_off b = (inr tt, b') /\
    Z.testbit (reg b' 0x32) 7 = true /\
    Z.land (reg b' 0x32) 0x7F = Z.land (reg b 0x32) 0x7F /\
    (forall r, r <> 0x32 -> reg b' r = reg b r) /\
    writes (Bus.log b') =
      writes (Bus.log b) ++ [Bus.Write [x32; byte_wrap (Z.lor (reg b 0x32) 0x80)]].
Proof.
  destruct (set_bit_effect 0x32 0x80 x32 b eq_refl eq_refl ltac:(lia))
    as (b' & Hrun & Hreg & Hframe & Hlog).
  exists b'. split; [exact Hrun |]. split; [| split; [| split]].
  - rewrite Hreg, Z.lor_spec. change (Z.testbit 128 7) with true. apply orb_true_r.
  - apply (same_outside _ _ 0x80 0x7F); [| reflexivity].
    rewrite Hreg. apply lor_keeps_others.
  - exact Hframe.
  - exact Hlog.
Qed.

(** ** EXTEN and the rails *)

Lemma getRail_value (r : rail) (b : Bus.t) :
  fst (getRail r b) =
  inr (if enabled b r then rail_volts r (stored_code b r) else 0%Q).
Proof.
  destruct (enabled b r) eqn:Hen.
  - rewrite getRail_on by exact Hen. reflexivity.
  - rewrite getRail_off_run by exact Hen. reflexivity.
Qed.

(** Two bus states give a rail the same reading when they agree on the
    rail's enable bit and on its code register. *)
Lemma getRail_same (r : rail) (b b' : Bus.t) :
  Z.land (reg b' 0x12) (enable_mask r) = Z.land (reg b 0x12) (enable_mask r) ->
  stored_code b' r = stored_code b r ->
  fst (getRail r b') = fst (getRail r b).
Proof.
  intros Hen Hcode. rewrite !getRail_value. unfold enabled.
  change AXP192._AXP192_DCDC13_LDO23_CTRL with 0x12. rewrite Hen, Hcode. reflexivity.
Qed.

(** X10. Switching EXTEN on or off with a boolean succeeds and the getter
    then returns the value set; the write touches only bit 6 of register 0x12,
    so every rail reads back the same setpoint as before.  An argument that is
    not a boolean is refused with ValueError before any bus transaction. *)
Theorem exten_roundtrip (value : bool) (b : Bus.t) :
  (exists b',
      AXP192._exten_setter (Py.Bool value) b = (inr tt, b') /\
      fst (AXP192._exten b') = inr value /\
      Z.land (reg b' 0x12) 0xBF = Z.land (reg b 0x12) 0xBF /\
      (forall r, r <> 0x12 -> reg b' r = reg b r) /\
      (forall r, fst (getRail r b') = fst (getRail r b))) /\
  (forall n, rejects (AXP192._exten_setter (Py.Num n))
               (Py.ValueError "value must be a boolean True or False")) /\
  (forall t, rejects (AXP192._exten_setter (Py.Other t))
               (Py.ValueError "value must be a boolean True or False")).
Proof.
  split; [| split; intros ? ?; reflexivity].
  destruct (switch_bit_effect 0x12 0x40 x12 value b eq_refl eq_refl ltac:(lia))
    as (b' & Hrun & Hbit & Hkeep & Hframe).
  exists b'. split; [destruct value; exact Hrun |].
  split; [| split; [| split]].
  - rewrite (bit_getter_run 0x12 0x40 x12 b' eq_refl : AXP192._exten b' = _).
    cbn [fst]. rewrite Hbit. reflexivity.
  - exact (same_outside _ _ 0x40 0xBF Hkeep eq_refl).
  - exact Hframe.
  - intros r. apply getRail_same.
    + apply (same_outside _ _ 0x40); [exact Hkeep | destruct r; reflexivity].
    + unfold stored_code. rewrite Hframe by apply code_register_not_ctrl. reflexivity.
Qed.

(** ** Rails: independence, range of the getter, clamping of the setter *)

(** What a rail setter does to the bus, whichever branch it takes. *)
Lemma setRail_effect (r : rail) (v : Q) (b : Bus.t) :
  exists b',
    setRail r v b = (inr tt, b') /\
    Z.land (reg b' 0x12) (Z.lnot (enable_mask r)) =
      Z.land (reg b 0x12) (Z.lnot (enable_mask r)) /\
    (forall a, a <> 0x12 -> a <> code_register r -> reg b' a = reg b a) /\
    (reg b' (code_register r) = reg b (code_register r) \/
     exists c, Z.land c (Z.ones (field_width r)) = c /\
               reg b' (code_register r) = merged r (reg b (code_register r)) c).
Proof.
  destruct (switches_off r v) eqn:Hv.
  - destruct (setRail_off_effect r v b Hv) as (b' & Hrun & _ & Hctrl & Hframe & _).
    exists b'. split; [exact Hrun |]. split; [exact Hctrl |].
    split; [intros a Ha _; apply Hframe, Ha |].
    left. apply Hframe, code_register_not_ctrl.
  - destruct (setRail_on r v b Hv) as (b' & Hrun & Hctrl & Hcode & Hframe & _).
    exists b'. split; [exact Hrun |].
    split; [rewrite Hctrl; apply lor_keeps_others |].
    split; [exact Hframe |].
    right. exists (rail_code r v). split; [apply rail_code_fits, Hv | exact Hcode].
Qed.

Lemma other_code_kept (r r' : rail) (old c : Z) :
  r <> r' -> code_register r' = code_register r ->
  Z.land c (Z.ones (field_width r)) = c ->
  get_field (field_width r') (field_offset r') (merged r old c) =
  get_field (field_width r') (field_offset r') old.
Proof.
  intros Hne Hreg Hc.
  destruct r, r'; try congruence; try discriminate Hreg; unfold merged;
    cbn [is_dcdc field_width field_offset] in *;
    apply get_set_field_other; try assumption; lia.
Qed.

(** X11. Setting one rail, to any voltage, leaves every other rail's
    readback and the EXTEN bit as they were: the setter changes only its own
    enable bit in register 0x12 and its own code field. *)
Theorem rails_independent (r r' : rail) (v : Q) (b : Bus.t) :
  r <> r' ->
  exists b',
    setRail r v b = (inr tt, b') /\
    fst (getRail r' b') = fst (getRail r' b) /\
    enabled b' r' = enabled b r' /\
    stored_code b' r' = stored_code b r' /\
    exten_bit b' = exten_bit b.
Proof.
  intros Hne. destruct (setRail_effect r v b) as (b' & Hrun & Hctrl & Hframe & Hcode).
  assert (Hen : Z.land (reg b' 0x12) (enable_mask r') =
                Z.land (reg b 0x12) (enable_mask r')).
  { apply (same_outside _ _ (enable_mask r)); [exact Hctrl |].
    destruct r, r'; try congruence; reflexivity. }
  assert (Hst : stored_code b' r' = stored_code b r').
  { unfold stored_code.
    destruct (Z.eq_dec (code_register r') (code_register r)) as [Heq | Hneq].
    - rewrite Heq. destruct Hcode as [Hsame | (c & Hc & Hnew)].
      + rewrite Hsame. reflexivity.
      + rewrite Hnew. apply other_code_kept; assumption.
    - rewrite Hframe; [reflexivity | apply code_register_not_ctrl | exact Hneq]. }
  exists b'. split; [exact Hrun |]. split; [apply getRail_same; assumption |].
  split; [| split; [exact Hst |]].
  - unfold enabled. change AXP192._AXP192_DCDC13_LDO23_CTRL with 0x12.
    rewrite Hen. reflexivity.
  - unfold exten_bit. f_equal. f_equal.
    apply (same_outside _ _ (enable_mask r)); [exact Hctrl |].
    destruct r; reflexivity.
Qed.







(** ** GPIO: rejected pins, exclusive modes, PWM and LDO output *)

Ltac pin_cases g :=
  unfold AXP192.__validate_gpio_num, bind, raise, ret;
  destruct (Z.ltb_spec g 0); destruct (Z.gtb_spec g 4);
  destruct (Z.leb_spec 0 g); destruct (Z.leb_spec 1 g); destruct (Z.leb_spec g 2);
  destruct (Z.eqb_spec g 0);
  cbn [orb andb negb]; try lia; try reflexivity.

(** X14. Every GPIO method refuses a pin number outside 0..4 with the range
    ValueError, and refuses a pin that does not support the mode (floating and
    low output on pins 3 and 4, LDO voltage output on pins 1 to 4, PWM output
    on pins 0, 3 and 4) with the mode's ValueError; in both cases nothing is
    read from or written to the bus. *)
Theorem gpio_pin_checked_first (g : Z) (duty_cycle : Py.num) (voltage : Py.obj) :
  (g < 0 \/ 4 < g ->
   rejects (AXP192._set_gpio_floating g) gpio_range_error /\
   rejects (AXP192._is_gpio_floating g) gpio_range_error /\
   rejects (AXP192._set_gpio_output_low g) gpio_range_error /\
   rejects (AXP192._is_gpio_output_low g) gpio_range_error /\
   rejects (AXP192._set_gpio_ldo_voltage_out g voltage) gpio_range_error /\
   rejects (AXP192._is_gpio_ldo_voltage_out g) gpio_range_error /\
   rejects (AXP192._get_gpio_ldo_voltage_out g) gpio_range_error /\
   rejects (AXP192._set_gpio_pwm_out g duty_cycle) gpio_range_error /\
   rejects (AXP192._is_gpio_pwm_out g) gpio_range_error /\
   rejects (AXP192._get_gpio_pwm_out g) gpio_range_error) /\
  (3 <= g <= 4 ->
   rejects (AXP192._set_gpio_floating g)
     (gpio_mode_error g " doesn't support floating mode") /\
   rejects (AXP192._is_gpio_floating g)
     (gpio_mode_error g " doesn't support floating mode") /\
   rejects (AXP192._set_gpio_output_low g)
     (gpio_mode_error g " doesn't support low output mode") /\
   rejects (AXP192._is_gpio_output_low g)
     (gpio_mode_error g " doesn't support low output mode")) /\
  (1 <= g <= 4 ->
   rejects (AXP192._set_gpio_ldo_voltage_out g voltage)
     (gpio_mode_error g " doesn't support LDO voltage mode") /\
   rejects (AXP192._is_gpio_ldo_voltage_out g)
     (gpio_mode_error g " doesn't support LDO voltage mode") /\
   rejects (AXP192._get_gpio_ldo_voltage_out g)
     (gpio_mode_error g " doesn't support LDO voltage mode")) /\
  (g = 0 \/ 3 <= g <= 4 ->
   rejects (AXP192._set_gpio_pwm_out g duty_cycle)
     (gpio_mode_error g " doesn't PWM output mode") /\
   rejects (AXP192._is_gpio_pwm_out g)
     (gpio_mode_error g " doesn't PWM output mode") /\
   rejects (AXP192._get_gpio_pwm_out g)
     (gpio_mode_error g " doesn't PWM output mode")).
Proof.
  unfold gpio_range_error, gpio_mode_error.
  repeat match goal with
         | |- _ /\ _ => split
         | |- _ -> _ => intros ?
         | |- rejects _ _ => intros b
         end;
    unfold AXP192._set_gpio_floating, AXP192._is_gpio_floating,
      AXP192._set_gpio_output_low, AXP192._is_gpio_output_low,
      AXP192._set_gpio_ldo_voltage_out, AXP192._get_gpio_ldo_voltage_out,
      AXP192._is_gpio_ldo_voltage_out, AXP192._set_gpio_pwm_out,
      AXP192._get_gpio_pwm_out, AXP192._is_gpio_pwm_out;
    pin_cases g.
Qed.

Lemma is_gpio_floating_run (g : Z) (b : Bus.t) :
  0 <= g <= 2 ->
  AXP192._is_gpio_floating g b =
  (inr (Z.land (function_code b g) 0x06 =? 0x06),
   after_read (byte_wrap (function_register g)) 1 b).
Proof.
  intros Hg. unfold AXP192._is_gpio_floating.
  run_with (validate_ok g b ltac:(lia)).
  destruct (Z.leb_spec 0 g); [| lia]. destruct (Z.leb_spec g 2); [| lia].
  cbn [andb]. run_with (get_gpio_function_run g b Hg). reflexivity.
Qed.

Lemma is_gpio_output_low_run (g : Z) (b : Bus.t) :
  0 <= g <= 2 ->
  AXP192._is_gpio_output_low g b =
  (inr (function_code b g =? 0x05),
   after_read (byte_wrap (function_register g)) 1 b).
Proof.
  intros Hg. unfold AXP192._is_gpio_output_low.
  run_with (validate_ok g b ltac:(lia)).
  destruct (Z.leb_spec 0 g); [| lia]. destruct (Z.leb_spec g 2); [| lia].
  cbn [andb]. run_with (get_gpio_function_run g b Hg). reflexivity.
Qed.

Lemma is_gpio_ldo_run (b : Bus.t) :
  AXP192._is_gpio_ldo_voltage_out 0 b =
  (inr (function_code b 0 =? 0x02), after_read x90 1 b).
Proof.
  unfold AXP192._is_gpio_ldo_voltage_out.
  run_with (validate_ok 0 b ltac:(lia)). cbn [Z.eqb].
  run_with (get_gpio_function_run 0 b ltac:(lia)). reflexivity.
Qed.

Lemma function_code_after_read (a : byte) (n : nat) (b : Bus.t) (g : Z) :
  function_code (after_read a n b) g = function_code b g.
Proof. reflexivity. Qed.

Lemma query_modes_run (g : Z) (b : Bus.t) :
  0 <= g <= 2 ->
  fst (query_modes g b) =
  inr (Z.land (function_code b g) 0x06 =? 0x06,
       function_code b g =? 0x05,
       function_code b g =? 0x02).
Proof.
  intros Hg. unfold query_modes.
  run_with (is_gpio_floating_run g b Hg).
  set (b1 := after_read (byte_wrap (function_register g)) 1 b).
  run_with (is_gpio_output_low_run g b1 Hg).
  set (b2 := after_read (byte_wrap (function_register g)) 1 b1).
  destruct (Z.eqb_spec g 0) as [Heq | Hne].
  - subst g. run_with (is_gpio_ldo_run b2). reflexivity.
  - run_with (is_gpio_pwm_out_run g b2 ltac:(lia)). reflexivity.
Qed.

Lemma set_gpio_mode_run (g f : Z) (b : Bus.t) :
  0 <= g <= 2 -> 0 <= f < 8 ->
  exists b',
    AXP192.__set_gpio_function g f b = (inr tt, b') /\
    function_code b' g = f /\
    (forall r, r <> function_register g -> reg b' r = reg b r) /\
    writes (Bus.log b') =
      writes (Bus.log b) ++
      [Bus.Write [byte_wrap (function_register g); byte_wrap (Z.land f 0x07)]].
Proof.
  intros Hg Hf. eexists. split; [apply set_gpio_function_run, Hg |].
  split; [apply function_code_after_set, Hf |]. split.
  - intros r Hr. apply reg_after_write_other.
    rewrite function_register_wrap. exact Hr.
  - apply writes_after_write.
Qed.

Lemma set_gpio_floating_run (g : Z) (b : Bus.t) :
  0 <= g <= 2 ->
  AXP192._set_gpio_floating g b = AXP192.__set_gpio_function g 0x7 b.
Proof.
  intros Hg. unfold AXP192._set_gpio_floating.
  run_with (validate_ok g b ltac:(lia)).
  destruct (Z.leb_spec 0 g); [| lia]. destruct (Z.leb_spec g 2); [| lia]. reflexivity.
Qed.

Lemma set_gpio_output_low_run (g : Z) (b : Bus.t) :
  0 <= g <= 2 ->
  AXP192._set_gpio_output_low g b = AXP192.__set_gpio_function g 0x5 b.
Proof.
  intros Hg. unfold AXP192._set_gpio_output_low.
  run_with (validate_ok g b ltac:(lia)).
  destruct (Z.leb_spec 0 g); [| lia]. destruct (Z.leb_spec g 2); [| lia]. reflexivity.
Qed.

(** The effect of the PWM setter on an accepted duty cycle. *)
Lemma set_gpio_pwm_out_effect (g d : Z) (b : Bus.t) :
  1 <= g <= 2 -> 0 <= d <= 255 ->
  exists b',
    AXP192._set_gpio_pwm_out g (Py.Int d) b = (inr tt, b') /\
    reg b' (pwm_register g) = 0xFF /\
    reg b' (duty_register g) = d /\
    function_code b' g = 0x02 /\
    (forall r, r <> pwm_register g -> r <> duty_register g ->
               r <> function_register g -> reg b' r = reg b r).
Proof.
  intros Hg Hd.
  set (b1 := after_write (byte_wrap (pwm_register g)) xff b).
  set (b2 := after_write (byte_wrap (duty_register g)) (byte_wrap d) b1).
  destruct (set_gpio_mode_run g 2 b2 ltac:(lia) ltac:(lia))
    as (b3 & Hrun3 & Hcode & Hframe & _).
  exists b3. split.
  { unfold AXP192._set_gpio_pwm_out.
    run_with (validate_ok g b ltac:(lia)).
    destruct (Z.leb_spec 1 g); [| lia]. destruct (Z.leb_spec g 2); [| lia].
    destruct (Z.leb_spec 0 d); [| lia]. destruct (Z.leb_spec d 255); [| lia].
    cbn [andb]. fold (pwm_register g).
    run_with (write8_run (pwm_register g) 0xFF _ xff b
                (pwm_register_byte g Hg) eq_refl).
    fold (duty_register g).
    run_with (write8_run (duty_register g) d _ _ b1
                (duty_register_byte g Hg)
                (proj1 (byte_of_Z_small d ltac:(lia)))).
    exact Hrun3. }
  assert (Hdist : pwm_register g <> function_register g /\
                  duty_register g <> function_register g /\
                  pwm_register g <> duty_register g)
    by (destruct (pins_1_2 g Hg) as [-> | ->]; repeat split; discriminate).
  destruct Hdist as (Hpf & Hdf & Hpd).
  split; [| split; [| split; [exact Hcode |]]].
  - rewrite Hframe by exact Hpf. unfold b2.
    rewrite reg_after_write_other
      by (rewrite (byte_of_Z_inv _ _ (duty_register_byte g Hg)); exact Hpd).
    unfold b1.
    rewrite (reg_after_write_at _ _ _ _ (pwm_register_byte g Hg))
      by (destruct (pins_1_2 g Hg) as [-> | ->]; reflexivity).
    reflexivity.
  - rewrite Hframe by exact Hdf. unfold b2.
    rewrite (reg_after_write_at _ _ _ _ (duty_register_byte g Hg))
      by (destruct (pins_1_2 g Hg) as [-> | ->]; reflexivity).
    apply byte_of_Z_small. lia.
  - intros r Hr1 Hr2 Hr3. rewrite Hframe by exact Hr3. unfold b2.
    rewrite reg_after_write_other
      by (rewrite (byte_of_Z_inv _ _ (duty_register_byte g Hg)); exact Hr2).
    unfold b1.
    rewrite reg_after_write_other
      by (rewrite (byte_of_Z_inv _ _ (pwm_register_byte g Hg)); exact Hr1).
    reflexivity.
Qed.

Lemma get_gpio_pwm_out_run (g : Z) (b : Bus.t) :
  1 <= g <= 2 ->
  fst (AXP192._get_gpio_pwm_out g b) =
  if function_code b g =? 0x02 then inr (reg b (duty_register g))
  else inl (pwm_error g).
Proof.
  intros Hg. unfold AXP192._get_gpio_pwm_out.
  run_with (validate_ok g b ltac:(lia)).
  destruct (Z.leb_spec 1 g); [| lia]. destruct (Z.leb_spec g 2); [| lia].
  cbn [andb]. run_with (is_gpio_pwm_out_run g b Hg).
  destruct (function_code b g =? 2); [| reflexivity].
  fold (pwm_register g). fold (duty_register g).
  rewrite (read8_run (duty_register g) _
             (after_read (byte_wrap (function_register g)) 1 b)
             (duty_register_byte g Hg)).
  reflexivity.
Qed.

(** X15. PWM round trip on pins 1 and 2: after the setter accepts a duty
    cycle between 0 and 255 the getter returns that duty cycle and the
    prescaler register holds 0xFF; after the pin is then switched to low
    output or to floating, the getter raises ValueError. *)
Theorem pwm_roundtrip (g d : Z) (b : Bus.t) :
  1 <= g <= 2 -> 0 <= d <= 255 ->
  exists b',
    AXP192._set_gpio_pwm_out g (Py.Int d) b = (inr tt, b') /\
    fst (AXP192._get_gpio_pwm_out g b') = inr d /\
    reg b' (pwm_register g) = 0xFF /\
    (exists b2,
        AXP192._set_gpio_output_low g b' = (inr tt, b2) /\
        fst (AXP192._get_gpio_pwm_out g b2) = inl (pwm_error g)) /\
    (exists b2,
        AXP192._set_gpio_floating g b' = (inr tt, b2) /\
        fst (AXP192._get_gpio_pwm_out g b2) = inl (pwm_error g)).
Proof.
  intros Hg Hd.
  destruct (set_gpio_pwm_out_effect g d b Hg Hd) as (b' & Hrun & Hpre & Hduty & Hcode & _).
  exists b'. split; [exact Hrun |]. split; [| split; [exact Hpre | split]].
  - rewrite get_gpio_pwm_out_run, Hcode, Hduty by exact Hg. reflexivity.
  - destruct (set_gpio_mode_run g 5 b' ltac:(lia) ltac:(lia)) as (b2 & Hrun2 & Hc2 & _).
    exists b2. split; [rewrite set_gpio_output_low_run by lia; exact Hrun2 |].
    rewrite get_gpio_pwm_out_run, Hc2 by exact Hg. reflexivity.
  - destruct (set_gpio_mode_run g 7 b' ltac:(lia) ltac:(lia)) as (b2 & Hrun2 & Hc2 & _).
    exists b2. split; [rewrite set_gpio_floating_run by lia; exact Hrun2 |].
    rewrite get_gpio_pwm_out_run, Hc2 by exact Hg. reflexivity.
Qed.

(** The effect of the LDO-output setter of pin 0 on a number. *)
Lemma set_gpio_ldo_effect (v : Q) (b : Bus.t) :
  (Qle_bool (v - (18 # 10)) 0 = true ->
   AXP192._set_gpio_ldo_voltage_out 0 (Py.Num (Py.Float v)) b =
   AXP192.__set_gpio_function 0 0x5 b) /\
  (Qle_bool (v - (18 # 10)) 0 = false ->
   let c := Z.min 0x0F (Py.int ((v - (18 # 10)) / (1 # 10))) in
   0 <= c <= 15 /\
   AXP192._set_gpio_ldo_voltage_out 0 (Py.Num (Py.Float v)) b =
   AXP192.__set_gpio_function 0 0x2 (after_write x91 (byte_wrap (16 * c)) b)).
Proof.
  split; intros Hv.
  - unfold AXP192._set_gpio_ldo_voltage_out.
    run_with (validate_ok 0 b ltac:(lia)). cbn [Z.eqb Py.as_number Py.val].
    rewrite Hv. apply set_gpio_output_low_run. lia.
  - intros c. apply Qle_bool_false in Hv.
    assert (Hc : 0 <= c <= 15).
    { unfold c.
      assert (0 <= Py.int ((v - (18 # 10)) / (1 # 10))).
      { apply py_int_nonneg. apply Qle_shift_div_l; [reflexivity | lra]. }
      lia. }
    split; [exact Hc |].
    unfold AXP192._set_gpio_ldo_voltage_out.
    run_with (validate_ok 0 b ltac:(lia)). cbn [Z.eqb Py.as_number Py.val].
    destruct (Qle_bool (v - (18 # 10)) 0) eqn:E;
      [apply Qle_bool_iff in E; lra |].
    fold c. rewrite Z.shiftl_mul_pow2 by lia. change (2 ^ 4) with 16.
    rewrite (bind_run _ _ _ _ _
               (write8_run 0x91 (c * 16) x91 (byte_wrap (c * 16)) b eq_refl
                  (proj1 (byte_of_Z_small (c * 16) ltac:(lia))))).
    replace (c * 16) with (16 * c) by lia. reflexivity.
Qed.



(** X17. The modes of pins 0 to 2 exclude one another as the queries see
    them.  After the floating setter the three queries (floating, low output,
    third mode) answer (True, False, False); after the low-output setter
    (False, True, False); after the PWM setter on pin 1 or 2, and after the
    LDO-output setter on pin 0 with a voltage above 1.8 V, (False, False,
    True). *)
Theorem gpio_modes_exclusive (g d : Z) (v : Q) (b : Bus.t) :
  0 <= g <= 2 ->
  (exists b',
      AXP192._set_gpio_floating g b = (inr tt, b') /\
      fst (query_modes g b') = inr (true, false, false)) /\
  (exists b',
      AXP192._set_gpio_output_low g b = (inr tt, b') /\
      fst (query_modes g b') = inr (false, true, false)) /\
  (1 <= g -> 0 <= d <= 255 ->
   exists b',
     AXP192._set_gpio_pwm_out g (Py.Int d) b = (inr tt, b') /\
     fst (query_modes g b') = inr (false, false, true)) /\
  (g = 0 -> (18 # 10 < v)%Q ->
   exists b',
     AXP192._set_gpio_ldo_voltage_out g (Py.Num (Py.Float v)) b = (inr tt, b') /\
     fst (query_modes g b') = inr (false, false, true)).
Proof.
  intros Hg. split; [| split; [| split]].
  - destruct (set_gpio_mode_run g 7 b Hg ltac:(lia)) as (b' & Hrun & Hcode & _).
    exists b'. split; [rewrite set_gpio_floating_run by exact Hg; exact Hrun |].
    rewrite query_modes_run, Hcode by exact Hg. reflexivity.
  - destruct (set_gpio_mode_run g 5 b Hg ltac:(lia)) as (b' & Hrun & Hcode & _).
    exists b'. split; [rewrite set_gpio_output_low_run by exact Hg; exact Hrun |].
    rewrite query_modes_run, Hcode by exact Hg. reflexivity.
  - intros Hg1 Hd.
    destruct (set_gpio_pwm_out_effect g d b ltac:(lia) Hd) as (b' & Hrun & _ & _ & Hcode & _).
    exists b'. split; [exact Hrun |].
    rewrite query_modes_run, Hcode by exact Hg. reflexivity.
  - intros -> Hv.
    assert (Hgt : Qle_bool (v - (18 # 10)) 0 = false).
    { destruct (Qle_bool (v - (18 # 10)) 0) eqn:E; [| reflexivity].
      apply Qle_bool_iff in E. lra. }
    destruct (proj2 (set_gpio_ldo_effect v b) Hgt) as [_ Hrun]. cbv zeta in Hrun.
    set (c := Z.min 0x0F (Py.int ((v - (18 # 10)) / (1 # 10)))) in *.
    destruct (set_gpio_mode_run 0 2 (after_write x91 (byte_wrap (16 * c)) b)
                ltac:(lia) ltac:(lia)) as (b' & Hrun2 & Hcode & _).
    exists b'. split; [rewrite Hrun; exact Hrun2 |].
    rewrite query_modes_run, Hcode by lia. reflexivity.
Qed.

(** ** The board class [PMIC] *)

Lemma Qlt_bool_inject (x y : Z) : Py.Qlt_bool (inject_Z x) (inject_Z y) = (x <? y).
Proof.
  unfold Py.Qlt_bool, Qle_bool. cbn. rewrite !Z.mul_1_r.
  rewrite Z.ltb_antisym. reflexivity.
Qed.

Lemma clamp_int (x : Z) :
  Py.num_min (Py.Int 255) (Py.num_max (Py.Int 0) (Py.Int x)) = Py.Int (clamp 0 255 x).
Proof.
  unfold Py.num_min, Py.num_max, clamp. cbn [Py.val].
  rewrite Qlt_bool_inject.
  destruct (Z.ltb_spec 0 x) as [Hpos | Hneg]; cbn [Py.val]; rewrite Qlt_bool_inject.
  - destruct (Z.ltb_spec x 255); f_equal; lia.
  - cbn. f_equal. lia.
Qed.

Lemma clamp_range (x : Z) : 0 <= clamp 0 255 x <= 255.
Proof. unfold clamp. lia. Qed.

(** X18. Green LED brightness: for every integer the setter succeeds and the
    getter then returns the brightness clamped to 0..255; the duty register
    holds 255 minus that value.  A float above 0 and below 255 is refused with
    the duty cycle's ValueError before any bus transaction, while a float at
    or outside the ends of the range is clamped to the integer end and
    accepted. *)
Theorem green_led_brightness_roundtrip (x : Z) (q : Q) (b : Bus.t) :
  (exists b',
      PMIC.green_led_brightness_setter (Py.Int x) b = (inr tt, b') /\
      reg b' (duty_register 1) = 255 - clamp 0 255 x /\
      fst (PMIC.green_led_brightness b') = inr (clamp 0 255 x)) /\
  ((0 < q)%Q -> (q < 255)%Q ->
   PMIC.green_led_brightness_setter (Py.Float q) b =
     (inl (Py.ValueError "Duty cycle must be an integer number from 0 to 255"), b)) /\
  ((q <= 0)%Q ->
   PMIC.green_led_brightness_setter (Py.Float q) b =
   PMIC.green_led_brightness_setter (Py.Int 0) b) /\
  ((255 <= q)%Q ->
   PMIC.green_led_brightness_setter (Py.Float q) b =
   PMIC.green_led_brightness_setter (Py.Int 255) b).
Proof.
  split; [| split; [| split]].
  - pose proof (clamp_range x) as Hc.
    destruct (set_gpio_pwm_out_effect 1 (255 - clamp 0 255 x) b ltac:(lia) ltac:(lia))
      as (b' & Hrun & _ & Hduty & Hcode & _).
    exists b'. split; [| split; [exact Hduty |]].
    + unfold PMIC.green_led_brightness_setter. rewrite clamp_int. exact Hrun.
    + unfold PMIC.green_led_brightness.
      pose proof (get_gpio_pwm_out_run 1 b' ltac:(lia)) as Hget.
      rewrite Hcode, Hduty in Hget. cbn [Z.eqb Pos.eqb] in Hget.
      unfold bind. destruct (AXP192._get_gpio_pwm_out 1 b') as [res b2].
      cbn [fst] in Hget. subst res. cbn [fst ret]. f_equal. lia.
  - intros Hlo Hhi. unfold PMIC.green_led_brightness_setter, Py.num_min, Py.num_max.
    cbn [Py.val]. change (inject_Z 0) with 0%Q. change (inject_Z 255) with 255%Q.
    assert (H1 : Py.Qlt_bool 0 q = true).
    { unfold Py.Qlt_bool. apply negb_true_iff.
      destruct (Qle_bool q 0) eqn:E; [apply Qle_bool_iff in E; lra | reflexivity]. }
    rewrite H1. cbn [Py.val].
    assert (H2 : Py.Qlt_bool q 255 = true).
    { unfold Py.Qlt_bool. apply negb_true_iff.
      destruct (Qle_bool 255 q) eqn:E; [apply Qle_bool_iff in E; lra | reflexivity]. }
    rewrite H2. reflexivity.
  - intros Hlo. unfold PMIC.green_led_brightness_setter, Py.num_min, Py.num_max.
    cbn [Py.val]. change (inject_Z 0) with 0%Q. change (inject_Z 255) with 255%Q.
    assert (H1 : Py.Qlt_bool 0 q = false).
    { unfold Py.Qlt_bool. apply negb_false_iff, Qle_bool_iff. exact Hlo. }
    rewrite H1. reflexivity.
  - intros Hhi. unfold PMIC.green_led_brightness_setter, Py.num_min, Py.num_max.
    cbn [Py.val]. change (inject_Z 0) with 0%Q. change (inject_Z 255) with 255%Q.
    assert (H1 : Py.Qlt_bool 0 q = true).
    { unfold Py.Qlt_bool. apply negb_true_iff.
      destruct (Qle_bool q 0) eqn:E; [apply Qle_bool_iff in E; lra | reflexivity]. }
    rewrite H1. cbn [Py.val].
    assert (H2 : Py.Qlt_bool q 255 = false).
    { unfold Py.Qlt_bool. apply negb_false_iff, Qle_bool_iff. exact Hhi. }
    rewrite H2. reflexivity.
Qed.

(** X19. Speaker: the setter succeeds for every argument; the getter then
    returns True when the argument was the boolean True, and False for every
    other argument, a true integer or object included. *)
Theorem speaker_enabled_roundtrip (enabled : Py.obj) (b : Bus.t) :
  exists b',
    PMIC.speaker_enabled_setter enabled b = (inr tt, b') /\
    fst (PMIC.speaker_enabled b') =
      inr (match enabled with Py.Bool true => true | _ => false end).
Proof.
  destruct (set_gpio_mode_run 2 7 b ltac:(lia) ltac:(lia)) as (bf & Hrunf & Hcf & _).
  destruct (set_gpio_mode_run 2 5 b ltac:(lia) ltac:(lia)) as (bl & Hrunl & Hcl & _).
  rewrite <- set_gpio_floating_run in Hrunf by lia.
  rewrite <- set_gpio_output_low_run in Hrunl by lia.
  assert (Hf : fst (PMIC.speaker_enabled bf) = inr true).
  { unfold PMIC.speaker_enabled. rewrite is_gpio_floating_run, Hcf by lia. reflexivity. }
  assert (Hl : fst (PMIC.speaker_enabled bl) = inr false).
  { unfold PMIC.speaker_enabled. rewrite is_gpio_floating_run, Hcl by lia. reflexivity. }
  destruct enabled as [[|] | n | t];
    [exists bf | exists bl | exists bl | exists bl]; split; assumption.
Qed.







(** X21. M-bus power source.  With a boolean argument the setter succeeds
    and the getter then returns the argument.  When the pin already is in the
    requested state nothing is written and no register changes.  Otherwise
    switching to the M-bus sets bit 7 of register 0x30 and switches EXTEN off,
    and switching away clears bit 7 of register 0x30 and switches EXTEN on.
    An argument that is not a boolean is refused with ValueError before any
    bus transaction. *)
Theorem power_supply_from_m_bus_roundtrip (enabled : bool) (b : Bus.t) :
  let current := Z.land (function_code b 0) 0x06 =? 0x06 in
  fst (PMIC.power_supply_from_m_bus_enabled b) = inr current /\
  (exists b',
      PMIC.power_supply_from_m_bus_enabled_setter (Py.Bool enabled) b = (inr tt, b') /\
      fst (PMIC.power_supply_from_m_bus_enabled b') = inr enabled /\
      (current = enabled ->
       Bus.regs b' = Bus.regs b /\ writes (Bus.log b') = writes (Bus.log b)) /\
      (current <> enabled ->
       exten_bit b' = negb enabled /\ Z.testbit (reg b' 0x30) 7 = enabled)) /\
  (forall n, rejects (PMIC.power_supply_from_m_bus_enabled_setter (Py.Num n))
               (Py.ValueError
                  "power_supply_from_m_bus_enabled must be True/False boolean value")) /\
  (forall t, rejects (PMIC.power_supply_from_m_bus_enabled_setter (Py.Other t))
               (Py.ValueError
                  "power_supply_from_m_bus_enabled must be True/False boolean value")).
Proof.
  intros current.
  assert (Hget : forall b0, PMIC.power_supply_from_m_bus_enabled b0 =
                   (inr (Z.land (function_code b0 0) 0x06 =? 0x06), after_read x90 1 b0))
    by (intros b0; apply (is_gpio_floating_run 0 b0); lia).
  split; [rewrite Hget; reflexivity |].
  split; [| split; intros ? ?; reflexivity].
  unfold PMIC.power_supply_from_m_bus_enabled_setter.
  run_with (Hget b). fold current. set (b1 := after_read x90 1 b).
  destruct enabled, current eqn:Hcur; cbn [Bool.eqb].
  - (* already on the M-bus *)
    exists b1. split; [reflexivity |]. split; [rewrite Hget; exact (f_equal inr Hcur) |].
    split; [intros _; split; [reflexivity | apply writes_after_read] | congruence].
  - (* switch to the M-bus *)
    destruct (set_bit_effect 0x30 0x80 x30 b1 eq_refl eq_refl ltac:(lia))
      as (b2 & Hrun2 & Hreg2 & Hframe2 & _).
    destruct (clear_bit_effect 0x12 0x40 x12 b2 eq_refl eq_refl)
      as (b3 & Hrun3 & Hreg3 & Hframe3 & _).
    destruct (set_gpio_mode_run 0 7 b3 ltac:(lia) ltac:(lia))
      as (b4 & Hrun4 & Hcode4 & Hframe4 & _).
    exists b4. split.
    { run_with Hrun2. run_with (Hrun3 : AXP192._exten_setter (Py.Bool false) b2 = _).
      rewrite set_gpio_floating_run by lia. exact Hrun4. }
    split; [rewrite Hget, Hcode4; reflexivity |].
    split; [congruence |]. intros _. split.
    + unfold exten_bit. rewrite Hframe4 by discriminate. rewrite Hreg3.
      apply bit_after_clear.
    + rewrite Hframe4, Hframe3, Hreg2 by discriminate.
      rewrite Z.lor_spec. apply orb_true_r.
  - (* switch away from the M-bus *)
    assert (Hgt : Qle_bool ((33 # 10) - (18 # 10)) 0 = false) by reflexivity.
    destruct (proj2 (set_gpio_ldo_effect (33 # 10) b1) Hgt) as [Hc Hrun1].
    cbv zeta in Hrun1.
    set (c := Z.min 0x0F (Py.int (((33 # 10) - (18 # 10)) / (1 # 10)))) in *.
    destruct (set_gpio_mode_run 0 2 (after_write x91 (byte_wrap (16 * c)) b1)
                ltac:(lia) ltac:(lia)) as (b2 & Hrun2 & Hcode2 & Hframe2 & _).
    destruct (set_bit_effect 0x12 0x40 x12 b2 eq_refl eq_refl ltac:(lia))
      as (b3 & Hrun3 & Hreg3 & Hframe3 & _).
    destruct (clear_bit_effect 0x30 0x80 x30 b3 eq_refl eq_refl)
      as (b4 & Hrun4 & Hreg4 & Hframe4 & _).
    exists b4. split.
    { rewrite (bind_run _ _ _ _ _ (eq_trans Hrun1 Hrun2)). cbv beta.
      run_with (Hrun3 : AXP192._exten_setter (Py.Bool true) b2 = _). exact Hrun4. }
    assert (Hcode4 : function_code b4 0 = 2).
    { unfold function_code in *. rewrite Hframe4, Hframe3 by discriminate. exact Hcode2. }
    split; [rewrite Hget, Hcode4; reflexivity |].
    split; [congruence |]. intros _. split.
    + unfold exten_bit. rewrite Hframe4 by discriminate. rewrite Hreg3.
      apply bit_after_set. discriminate.
    + rewrite Hreg4, Z.land_spec, Z.lnot_spec by lia. apply andb_false_r.
  - (* already away from the M-bus *)
    exists b1. split; [reflexivity |]. split; [rewrite Hget; exact (f_equal inr Hcur) |].
    split; [intros _; split; [reflexivity | apply writes_after_read] | congruence].
Qed.

(** ** Register primitives and bytes *)

(** X22. The 8-bit primitives check their arguments before using the bus.
    A write whose register address and value are both bytes is sent as one
    write transaction, after which an ordinary register holds the value and
    the other registers are unchanged; when the address or the value is not a
    byte the write raises ValueError and the bus is untouched.  A read at an
    address that is not a byte raises ValueError and the bus is untouched. *)
Theorem register8_arguments_checked (r v : Z) (b : Bus.t) :
  (0 <= r < 256 -> 0 <= v < 256 ->
   exists b',
     AXP192._write_register8 r v b = (inr tt, b') /\
     Bus.log b' = Bus.log b ++ [Bus.Write [byte_wrap r; byte_wrap v]] /\
     (Bus.latch r = false -> reg b' r = v) /\
     (forall r', r' <> r -> reg b' r' = reg b r')) /\
  (~ (0 <= r < 256 /\ 0 <= v < 256) ->
   AXP192._write_register8 r v b =
     (inl (Py.ValueError "byte must be in range(0, 256)"), b)) /\
  (~ 0 <= r < 256 ->
   AXP192._read_register8 r b =
     (inl (Py.ValueError "byte must be in range(0, 256)"), b)).
Proof.
  split; [| split].
  - intros Hr Hv.
    destruct (byte_of_Z_small r Hr) as [Har Hrw].
    destruct (byte_of_Z_small v Hv) as [Hav Hvw].
    exists (after_write (byte_wrap r) (byte_wrap v) b).
    split; [apply write8_run; assumption |]. split; [reflexivity |]. split.
    + intros Hl. rewrite (reg_after_write_at r _ _ _ Har Hl). exact Hvw.
    + intros r' Hr'. apply reg_after_write_other. rewrite Hrw. exact Hr'.
  - intros Hbad. unfold AXP192._write_register8, bytearray_item, bind.
    destruct (byte_of_Z r) as [a |] eqn:Er; [| reflexivity].
    destruct (byte_of_Z v) as [x |] eqn:Ev; [| reflexivity].
    exfalso. apply Hbad.
    pose proof (byte_of_Z_inv _ _ Er). pose proof (byte_of_Z_inv _ _ Ev).
    pose proof (byte_to_Z_range a). pose proof (byte_to_Z_range x). lia.
  - intros Hbad. unfold AXP192._read_register8, bytearray_item, bind.
    rewrite (byte_of_Z_None r Hbad). reflexivity.
Qed.

(** ** Instances of the further properties *)

Lemma set_bit_in_register_spec_witness :
  Bus.latch (byte_to_Z x30) = false /\ 0 <= 0x80 < 256 /\ ~ 0 <= 0x100 < 256 /\
  (exists b',
      AXP192._set_bit_in_register (byte_to_Z x30) 0x80 (bus_const x01) = (inr tt, b') /\
      Z.land (reg b' (byte_to_Z x30)) 0x80 = 0x80) /\
  (exists b',
      AXP192._set_bit_in_register (byte_to_Z x30) 0x100 (bus_const x01) =
        (inl (Py.ValueError "byte must be in range(0, 256)"), b') /\
      Bus.regs b' = Bus.regs (bus_const x01)).
Proof.
  split; [reflexivity |]. split; [lia |]. split; [lia |]. split.
  - destruct (proj1 (set_bit_in_register_spec x30 0x80 (bus_const x01) eq_refl)
                ltac:(lia)) as (b' & Hrun & Hbit & _).
    exists b'. split; assumption.
  - destruct (proj2 (set_bit_in_register_spec x30 0x100 (bus_const x01) eq_refl)
                ltac:(lia)) as (b' & Hrun & Hregs & _).
    exists b'. split; assumption.
Defined.

Lemma clear_bit_in_register_spec_witness :
  Bus.latch (byte_to_Z x30) = false /\
  exists b',
    AXP192._clear_bit_in_register (byte_to_Z x30) (-1) (bus_const xff) = (inr tt, b') /\
    Z.land (reg b' (byte_to_Z x30)) (-1) = 0.
Proof.
  split; [reflexivity |].
  destruct (clear_bit_in_register_spec x30 (-1) (bus_const xff) eq_refl)
    as (b' & Hrun & Hbit & _).
  exists b'. split; assumption.
Defined.

Lemma multi_byte_read_value_witness :
  reg (bus_of [(0x78, xe0); (0x79, x0f)]) (byte_to_Z x78 + 1) < 16 /\
  exists code b',
    AXP192._read_register12 (byte_to_Z x78) (bus_of [(0x78, xe0); (0x79, x0f)]) =
      (inr code, b') /\
    code = 16 * 0xE0 + 0x0F.
Proof.
  split; [reflexivity |].
  destruct (proj1 (multi_byte_read_value x78 (bus_of [(0x78, xe0); (0x79, x0f)])))
    as (code & b' & Hrun & _ & _ & Hval).
  exists code, b'. split; [exact Hrun |]. apply Hval. reflexivity.
Defined.

Lemma battery_charging_enabled_roundtrip_witness :
  0x12 <> 0x33 /\
  exists b',
    AXP192.battery_charging_enabled_setter (Py.Bool false) (bus_const xff) = (inr tt, b') /\
    fst (AXP192.battery_charging_enabled b') = inr false /\
    reg b' 0x12 = reg (bus_const xff) 0x12.
Proof.
  split; [discriminate |].
  destruct (proj1 (battery_charging_enabled_roundtrip false (bus_const xff)))
    as (b' & Hrun & Hget & _ & Hframe & _).
  exists b'. split; [exact Hrun |]. split; [exact Hget |]. apply Hframe. discriminate.
Defined.

Lemma backup_battery_charging_roundtrip_witness :
  0x12 <> 0x35 /\
  exists b',
    AXP192._backup_battery_charging_enable_setter (Py.Bool true) (bus_const x00) =
      (inr tt, b') /\
    fst (AXP192._backup_battery_charging_enable b') = inr true /\
    reg b' 0x12 = reg (bus_const x00) 0x12.
Proof.
  split; [discriminate |].
  destruct (proj1 (backup_battery_charging_roundtrip true (bus_const x00)))
    as (b' & Hrun & Hget & _ & Hframe).
  exists b'. split; [exact Hrun |]. split; [exact Hget |]. apply Hframe. discriminate.
Defined.

Lemma all_adc_enabled_roundtrip_witness :
  0x12 <> 0x82 /\
  exists b',
    AXP192.all_adc_enabled_setter (Py.Num (Py.Int 5)) (bus_const x00) = (inr tt, b') /\
    fst (AXP192.all_adc_enabled b') = inr true /\
    reg b' 0x12 = reg (bus_const x00) 0x12.
Proof.
  split; [discriminate |].
  destruct (proj1 (all_adc_enabled_roundtrip (Py.Num (Py.Int 5)) (bus_const x00)))
    as (b' & Hrun & _ & Hframe & Hget).
  exists b'. split; [exact Hrun |]. split; [exact Hget |]. apply Hframe. discriminate.
Defined.

Lemma power_off_sets_bit7_witness :
  0x12 <> 0x32 /\
  exists b',
    AXP192.power_off (bus_const x05) = (inr tt, b') /\
    Z.testbit (reg b' 0x32) 7 = true /\
    reg b' 0x12 = reg (bus_const x05) 0x12.
Proof.
  split; [discriminate |].
  destruct (power_off_sets_bit7 (bus_const x05)) as (b' & Hrun & Hbit & _ & Hframe & _).
  exists b'. split; [exact Hrun |]. split; [exact Hbit |]. apply Hframe. discriminate.
Defined.

Lemma exten_roundtrip_witness :
  0x28 <> 0x12 /\
  exists b',
    AXP192._exten_setter (Py.Bool false) (bus_const xff) = (inr tt, b') /\
    fst (AXP192._exten b') = inr false /\
    reg b' 0x28 = reg (bus_const xff) 0x28.
Proof.
  split; [discriminate |].
  destruct (proj1 (exten_roundtrip false (bus_const xff)))
    as (b' & Hrun & Hget & _ & Hframe & _).
  exists b'. split; [exact Hrun |]. split; [exact Hget |]. apply Hframe. discriminate.
Defined.

Lemma rails_independent_witness :
  LDO2 <> LDO3 /\
  exists b',
    setRail LDO2 (25 # 10) (bus_const xff) = (inr tt, b') /\
    fst (getRail LDO3 b') = fst (getRail LDO3 (bus_const xff)).
Proof.
  split; [discriminate |].
  destruct (rails_independent LDO2 LDO3 (25 # 10) (bus_const xff) ltac:(discriminate))
    as (b' & Hrun & Hget & _).
  exists b'. split; assumption.
Defined.



Lemma gpio_pin_checked_first_witness :
  (5 < 0 \/ 4 < 5) /\ 3 <= 3 <= 4 /\
  rejects (AXP192._is_gpio_floating 5) gpio_range_error /\
  rejects (AXP192._set_gpio_output_low 3)
    (gpio_mode_error 3 " doesn't support low output mode").
Proof.
  split; [right; lia |]. split; [lia |]. split.
  - apply (proj1 (gpio_pin_checked_first 5 (Py.Int 0) (Py.Bool true))). right. lia.
  - apply (proj1 (proj2 (gpio_pin_checked_first 3 (Py.Int 0) (Py.Bool true)))). lia.
Defined.

Lemma pwm_roundtrip_witness :
  1 <= 2 <= 2 /\ 0 <= 128 <= 255 /\
  exists b',
    AXP192._set_gpio_pwm_out 2 (Py.Int 128) (bus_const x00) = (inr tt, b') /\
    fst (AXP192._get_gpio_pwm_out 2 b') = inr 128.
Proof.
  split; [lia |]. split; [lia |].
  destruct (pwm_roundtrip 2 128 (bus_const x00) ltac:(lia) ltac:(lia))
    as (b' & Hrun & Hget & _).
  exists b'. split; assumption.
Defined.


Lemma gpio_modes_exclusive_witness :
  0 <= 1 <= 2 /\ 1 <= 1 /\ 0 <= 7 <= 255 /\
  exists b',
    AXP192._set_gpio_pwm_out 1 (Py.Int 7) (bus_const xff) = (inr tt, b') /\
    fst (query_modes 1 b') = inr (false, false, true).
Proof.
  split; [lia |]. split; [lia |]. split; [lia |].
  apply (proj1 (proj2 (proj2 (gpio_modes_exclusive 1 7 0 (bus_const xff) ltac:(lia)))));
    lia.
Defined.

Lemma green_led_brightness_roundtrip_witness :
  (0 < 100)%Q /\ (100 < 255)%Q /\
  PMIC.green_led_brightness_setter (Py.Float 100) (bus_const x00) =
    (inl (Py.ValueError "Duty cycle must be an integer number from 0 to 255"),
     bus_const x00) /\
  exists b',
    PMIC.green_led_brightness_setter (Py.Int 300) (bus_const x00) = (inr tt, b') /\
    fst (PMIC.green_led_brightness b') = inr 255.
Proof.
  assert (H1 : (0 < 100)%Q) by reflexivity.
  assert (H2 : (100 < 255)%Q) by reflexivity.
  split; [exact H1 |]. split; [exact H2 |]. split.
  - apply (proj1 (proj2 (green_led_brightness_roundtrip 0 100 (bus_const x00)))); assumption.
  - destruct (proj1 (green_led_brightness_roundtrip 300 0 (bus_const x00)))
      as (b' & Hrun & _ & Hget).
    exists b'. split; [exact Hrun | exact Hget].
Defined.


Lemma power_supply_from_m_bus_roundtrip_witness :
  (Z.land (function_code (bus_const x02) 0) 0x06 =? 0x06) <> true /\
  exists b',
    PMIC.power_supply_from_m_bus_enabled_setter (Py.Bool true) (bus_const x02) =
      (inr tt, b') /\
    fst (PMIC.power_supply_from_m_bus_enabled b') = inr true /\
    exten_bit b' = false /\ Z.testbit (reg b' 0x30) 7 = true.
Proof.
  split; [discriminate |].
  destruct (power_supply_from_m_bus_roundtrip true (bus_const x02))
    as (_ & (b' & Hrun & Hget & _ & Hchange) & _).
  destruct (Hchange ltac:(discriminate)) as [Hext Hbit].
  exists b'. split; [exact Hrun |]. split; [exact Hget |]. split; assumption.
Defined.

Lemma register8_arguments_checked_witness :
  0 <= 0x82 < 256 /\ 0 <= 0xFF < 256 /\ ~ (0 <= 0x82 < 256 /\ 0 <= 0x1FF < 256) /\
  Bus.latch 0x82 = false /\
  (exists b',
      AXP192._write_register8 0x82 0xFF (bus_const x00) = (inr tt, b') /\
      reg b' 0x82 = 0xFF) /\
  AXP192._write_register8 0x82 0x1FF (bus_const x00) =
    (inl (Py.ValueError "byte must be in range(0, 256)"), bus_const x00).
Proof.
  split; [lia |]. split; [lia |]. split; [lia |]. split; [reflexivity |]. split.
  - destruct (proj1 (register8_arguments_checked 0x82 0xFF (bus_const x00))
                ltac:(lia) ltac:(lia)) as (b' & Hrun & _ & Hreg & _).
    exists b'. split; [exact Hrun | apply Hreg; reflexivity].
  - apply (proj1 (proj2 (register8_arguments_checked 0x82 0x1FF (bus_const x00)))). lia.
Defined.
